(** * RFC 7807 problem responses: a shallow embedding of the error pipeline

    The development follows the Python sources
    - [model/problem/exception.py]   ([ProblemException])
    - [model/problem/response.py]    ([ProblemResponse])
    - [config/logging_configurator.py] ([BaseLogRecord.to_dict], [ErrorLogRecord])
    - [config/problem_configurator.py] ([exception_handler], [exec_hooks])
    - [middleware/error_middleware.py] ([UnhandledExceptionsMiddleware])

    Python values are embedded as follows.  A [str] is a Rocq [string] holding
    the UTF-8 bytes of the text, an [int] is a [Z], [Optional[T]] is
    [option T], a [dict] is an association list in insertion order, and a
    raised exception is the [Raise] alternative of [result]. *)

From Stdlib Require Import ZArith List String Ascii Bool Lia.
From Stdlib Require Import Decimal DecimalString DecimalZ DecimalPos DecimalFacts.
Import ListNotations.

Local Open Scope string_scope.
Local Open Scope Z_scope.

(* ================================================================== *)
(** ** Python values *)

(** Python values as the pipeline holds them (the entries of [errors], the
    values of a mapping or of a log record, the result of [json.loads]):
    [None], booleans, integers, strings, lists, tuples (pydantic reports the
    [loc] of a violation as a tuple) and dicts with string keys.  Floats,
    dicts with keys of another type and objects of other classes are left
    out; [json.dumps] encodes every value of [pyval]. *)
#[warnings="-register-all"]
Inductive pyval : Type :=
| PNone
| PBool (b : bool)
| PInt (n : Z)
| PStr (s : string)
| PList (items : list pyval)
| PTuple (items : list pyval)
| PDict (entries : list (string * pyval)).

Definition pydict : Type := list (string * pyval).

(** Python truth value testing ([if x:], [x or y], [not x]). *)
Definition truthy (v : pyval) : bool :=
  match v with
  | PNone => false
  | PBool b => b
  | PInt n => negb (n =? 0)
  | PStr s => negb (s =? EmptyString)%string
  | PList items => match items with [] => false | _ => true end
  | PTuple items => match items with [] => false | _ => true end
  | PDict entries => match entries with [] => false | _ => true end
  end.

Definition str_truthy (s : string) : bool := truthy (PStr s).
Definition int_truthy (n : Z) : bool := truthy (PInt n).

Definition opt_truthy {A} (t : A -> bool) (o : option A) : bool :=
  match o with
  | Some a => t a
  | None => false
  end.

Definition list_truthy {A} (l : list A) : bool :=
  match l with [] => false | _ => true end.

(** [x or default] at an [Optional] argument. *)
Definition py_or {A} (t : A -> bool) (x : option A) (default : A) : A :=
  match x with
  | Some a => if t a then a else default
  | None => default
  end.

(** [d.get(key)] and [d[key] = value] on an insertion-ordered dict. *)
Fixpoint dict_get {V} (d : list (string * V)) (key : string) : option V :=
  match d with
  | [] => None
  | (k, v) :: rest => if (k =? key)%string then Some v else dict_get rest key
  end.

Fixpoint dict_set {V} (d : list (string * V)) (key : string) (value : V)
  : list (string * V) :=
  match d with
  | [] => [(key, value)]
  | (k, v) :: rest =>
      if (k =? key)%string then (k, value) :: rest
      else (k, v) :: dict_set rest key value
  end.

Definition dict_keys {V} (d : list (string * V)) : list string := map fst d.

(* ================================================================== *)
(** ** Exceptions and results *)

(** What the pipeline reads from an arbitrary exception object:
    [exc.__class__.__name__], [str(exc)] and
    ["".join(traceback.format_exception(exc.__class__, exc, exc.__traceback__))]. *)
Record PyException : Type := {
  exc_class_name : string;
  exc_str : string;
  exc_stack_trace : string
}.

(** Exceptions raised by the modelled code itself.  The payload is the
    offending value, the message text is not modelled. *)
Inductive PyError : Type :=
| TypeError (unexpected_keyword : string)
| ValueError (invalid_status : Z)
| Raised (e : PyException).

Inductive result (A : Type) : Type :=
| Ok (a : A)
| Raise (e : PyError).
Arguments Ok {A} a.
Arguments Raise {A} e.

Definition bind {A B} (r : result A) (k : A -> result B) : result B :=
  match r with
  | Ok a => k a
  | Raise e => Raise e
  end.

Notation "x <- r ;; k" := (bind r (fun x => k))
  (at level 61, r at next level, right associativity).

Definition raises {A} (r : result A) : bool :=
  match r with Ok _ => false | Raise _ => true end.

(* ================================================================== *)
(** ** [http.HTTPStatus] *)

(** The reason-phrase table of the standard library's [http.HTTPStatus]
    (CPython 3.12).  The statements below use the entries 400, 404, 409, 422
    and 500 and the absence of codes such as 600. *)
Definition HTTPStatus_table : list (Z * string) :=
  [ (100, "Continue"); (101, "Switching Protocols"); (102, "Processing");
    (103, "Early Hints");
    (200, "OK"); (201, "Created"); (202, "Accepted");
    (203, "Non-Authoritative Information"); (204, "No Content");
    (205, "Reset Content"); (206, "Partial Content"); (207, "Multi-Status");
    (208, "Already Reported"); (226, "IM Used");
    (300, "Multiple Choices"); (301, "Moved Permanently"); (302, "Found");
    (303, "See Other"); (304, "Not Modified"); (305, "Use Proxy");
    (307, "Temporary Redirect"); (308, "Permanent Redirect");
    (400, "Bad Request"); (401, "Unauthorized"); (402, "Payment Required");
    (403, "Forbidden"); (404, "Not Found"); (405, "Method Not Allowed");
    (406, "Not Acceptable"); (407, "Proxy Authentication Required");
    (408, "Request Timeout"); (409, "Conflict"); (410, "Gone");
    (411, "Length Required"); (412, "Precondition Failed");
    (413, "Request Entity Too Large"); (414, "Request-URI Too Long");
    (415, "Unsupported Media Type"); (416, "Requested Range Not Satisfiable");
    (417, "Expectation Failed"); (418, "I'm a Teapot");
    (421, "Misdirected Request"); (422, "Unprocessable Entity");
    (423, "Locked"); (424, "Failed Dependency"); (425, "Too Early");
    (426, "Upgrade Required"); (428, "Precondition Required");
    (429, "Too Many Requests"); (431, "Request Header Fields Too Large");
    (451, "Unavailable For Legal Reasons");
    (500, "Internal Server Error"); (501, "Not Implemented");
    (502, "Bad Gateway"); (503, "Service Unavailable");
    (504, "Gateway Timeout"); (505, "HTTP Version Not Supported");
    (506, "Variant Also Negotiates"); (507, "Insufficient Storage");
    (508, "Loop Detected"); (510, "Not Extended");
    (511, "Network Authentication Required") ].

Fixpoint assoc_Z {V} (table : list (Z * V)) (key : Z) : option V :=
  match table with
  | [] => None
  | (k, v) :: rest => if k =? key then Some v else assoc_Z rest key
  end.

(** [http.HTTPStatus(value).phrase]: the enum lookup raises [ValueError] on a
    value that is not a member. *)
Definition HTTPStatus_phrase (value : Z) : result string :=
  match assoc_Z HTTPStatus_table value with
  | Some phrase => Ok phrase
  | None => Raise (ValueError value)
  end.

Definition HTTP_400_BAD_REQUEST : Z := 400.
Definition HTTP_404_NOT_FOUND : Z := 404.
Definition HTTP_409_CONFLICT : Z := 409.
Definition HTTP_500_INTERNAL_SERVER_ERROR : Z := 500.

(* ================================================================== *)
(** ** [ProblemException] (model/problem/exception.py) *)

(** The instance attributes, at the types of their annotations. *)
Record ProblemException : Type := {
  type : string;
  status : Z;
  title : string;
  detail : option string;
  instance : option string;
  errors : option (list pyval)
}.

(** [ProblemException.__init__]. *)
Definition ProblemException__init__
    (_type title : option string) (status : option Z)
    (detail instance : option string) (errors : option (list pyval))
  : result ProblemException :=
  let self_type := py_or str_truthy _type "exception:problem" in
  let self_status := py_or int_truthy status 500 in
  self_title <- match title with
                | Some t => if str_truthy t then Ok t
                            else HTTPStatus_phrase self_status
                | None => HTTPStatus_phrase self_status
                end ;;
  Ok {| type := self_type;
        status := self_status;
        title := self_title;
        detail := detail;
        instance := instance;
        errors := errors |}.

(** [ProblemException.to_dict]. *)
Definition to_dict (self : ProblemException) : pydict :=
  let d := [] in
  let d := if str_truthy (type self)
           then dict_set d "type" (PStr (type self)) else d in
  let d := if str_truthy (title self)
           then dict_set d "title" (PStr (title self)) else d in
  let d := if int_truthy (status self)
           then dict_set d "status" (PInt (status self)) else d in
  let d := match detail self with
           | Some s => if str_truthy s then dict_set d "detail" (PStr s) else d
           | None => d
           end in
  let d := match instance self with
           | Some s => if str_truthy s then dict_set d "instance" (PStr s) else d
           | None => d
           end in
  let d := match errors self with
           | Some l => if list_truthy l then dict_set d "errors" (PList l) else d
           | None => d
           end in
  d.

(* ================================================================== *)
(** ** JSON text ([json.dumps] / [json.loads] of the standard library)

    [to_bytes] calls [json.dumps(..., ensure_ascii=False, allow_nan=False,
    indent=None, separators=(",", ":"))] and encodes the text as UTF-8.  On
    strings held as UTF-8 bytes the escaping of [json.dumps] works byte by
    byte (only the quote, the backslash and the control characters below
    0x20 are escaped, every other byte is copied) and the final encoding is
    the identity. *)

Definition dquote : ascii := "034"%char.
Definition backslash : ascii := "092"%char.

Definition hex_lower (n : N) : ascii :=
  nth (N.to_nat n)
      ["0"; "1"; "2"; "3"; "4"; "5"; "6"; "7"; "8"; "9";
       "a"; "b"; "c"; "d"; "e"; "f"]%char "0"%char.

(** [ESCAPE_DCT] of [json.encoder]. *)
Definition escape_char (c : ascii) : string :=
  let n := N_of_ascii c in
  if (c =? dquote)%char then String backslash (String dquote EmptyString)
  else if (c =? backslash)%char then String backslash (String backslash EmptyString)
  else if (n =? 10)%N then String backslash "n"
  else if (n =? 13)%N then String backslash "r"
  else if (n =? 9)%N then String backslash "t"
  else if (n =? 12)%N then String backslash "f"
  else if (n =? 8)%N then String backslash "b"
  else if (n <? 32)%N then
    String backslash
      (String "u" (String "0" (String "0"
        (String (hex_lower (n / 16)) (String (hex_lower (n mod 16)) EmptyString)))))
  else String c EmptyString.

Fixpoint escape (s : string) : string :=
  match s with
  | EmptyString => EmptyString
  | String c rest => escape_char c ++ escape rest
  end.

Definition encode_basestring (s : string) : string :=
  String dquote (escape s ++ String dquote EmptyString).

(** [int.__repr__]: decimal digits, a minus sign on negative numbers. *)
Definition int_repr (n : Z) : string := NilZero.string_of_int (Z.to_int n).

Fixpoint join_comma (parts : list string) : string :=
  match parts with
  | [] => EmptyString
  | [x] => x
  | x :: rest => x ++ "," ++ join_comma rest
  end.

Fixpoint json_dumps (v : pyval) : string :=
  match v with
  | PNone => "null"
  | PBool true => "true"
  | PBool false => "false"
  | PInt n => int_repr n
  | PStr s => encode_basestring s
  | PList items => "[" ++ join_comma (map json_dumps items) ++ "]"
  | PTuple items => "[" ++ join_comma (map json_dumps items) ++ "]"
  | PDict entries =>
      "{" ++ join_comma
               (map (fun kv => encode_basestring (fst kv) ++ ":" ++ json_dumps (snd kv))
                    entries)
          ++ "}"
  end.

(** [ProblemException.to_bytes], on records whose errors are values of
    [pyval]: [json.dumps] encodes each of them.  What it refuses (an object
    of another class with TypeError, a NaN or an infinity with ValueError)
    is outside [pyval]. *)
Definition to_bytes (self : ProblemException) : string :=
  json_dumps (PDict (to_dict self)).

(** *** The decoder ([json.loads], [json.decoder], [json.scanner]) *)

Definition is_ws (c : ascii) : bool :=
  ((c =? " ") || (c =? "009") || (c =? "010") || (c =? "013"))%char.

Fixpoint skip_ws (s : string) : string :=
  match s with
  | EmptyString => EmptyString
  | String c rest => if is_ws c then skip_ws rest else s
  end.

Fixpoint strip_prefix (prefix s : string) : option string :=
  match prefix, s with
  | EmptyString, _ => Some s
  | String p prefix', String c rest =>
      if (p =? c)%char then strip_prefix prefix' rest else None
  | String _ _, EmptyString => None
  end.

Definition hex_value (c : ascii) : option N :=
  let n := N_of_ascii c in
  if ((48 <=? n) && (n <=? 57))%N then Some (n - 48)%N
  else if ((97 <=? n) && (n <=? 102))%N then Some (n - 87)%N
  else if ((65 <=? n) && (n <=? 70))%N then Some (n - 55)%N
  else None.

Definition hex4 (h1 h2 h3 h4 : ascii) : option N :=
  match hex_value h1, hex_value h2, hex_value h3, hex_value h4 with
  | Some a, Some b, Some c, Some d => Some (((a * 16 + b) * 16 + c) * 16 + d)%N
  | _, _, _, _ => None
  end.

(** UTF-8 bytes of a code point (the decoded text is held as UTF-8). *)
Definition utf8_bytes (cp : N) : string :=
  let b (n : N) := ascii_of_N n in
  if (cp <? 128)%N then String (b cp) EmptyString
  else if (cp <? 2048)%N then
    String (b (192 + cp / 64)%N) (String (b (128 + cp mod 64)%N) EmptyString)
  else if (cp <? 65536)%N then
    String (b (224 + cp / 4096)%N)
      (String (b (128 + (cp / 64) mod 64)%N)
         (String (b (128 + cp mod 64)%N) EmptyString))
  else
    String (b (240 + cp / 262144)%N)
      (String (b (128 + (cp / 4096) mod 64)%N)
         (String (b (128 + (cp / 64) mod 64)%N)
            (String (b (128 + cp mod 64)%N) EmptyString))).

(** The [BACKSLASH] table of [json.decoder]. *)
Definition simple_escape (e : ascii) : option ascii :=
  if (e =? dquote)%char then Some dquote
  else if (e =? backslash)%char then Some backslash
  else if (e =? "/")%char then Some "/"%char
  else if (e =? "b")%char then Some "008"%char
  else if (e =? "f")%char then Some "012"%char
  else if (e =? "n")%char then Some "010"%char
  else if (e =? "r")%char then Some "013"%char
  else if (e =? "t")%char then Some "009"%char
  else None.

Definition cons_result (front : string) (r : option (string * string))
  : option (string * string) :=
  match r with
  | Some (text, rest) => Some (front ++ text, rest)
  | None => None
  end.

(** [scanstring] in strict mode, entered after the opening quote: the text
    of the literal and the input after its closing quote.  A surrogate
    escape that has no partner denotes no UTF-8 text and is refused. *)
Fixpoint scanstring (s : string) : option (string * string) :=
  match s with
  | EmptyString => None
  | String c rest =>
      if (c =? dquote)%char then Some (EmptyString, rest)
      else if (c =? backslash)%char then
        match rest with
        | EmptyString => None
        | String e rest1 =>
            match simple_escape e with
            | Some ch => cons_result (String ch EmptyString) (scanstring rest1)
            | None =>
                if (e =? "u")%char then
                  match rest1 with
                  | String h1 (String h2 (String h3 (String h4 rest5))) =>
                      match hex4 h1 h2 h3 h4 with
                      | None => None
                      | Some cp =>
                          if ((cp <? 55296) || (57344 <=? cp))%N then
                            cons_result (utf8_bytes cp) (scanstring rest5)
                          else if (cp <? 56320)%N then
                            match rest5 with
                            | String b (String u (String g1 (String g2
                                (String g3 (String g4 rest11))))) =>
                                if ((b =? backslash) && (u =? "u"))%char then
                                  match hex4 g1 g2 g3 g4 with
                                  | None => None
                                  | Some lo =>
                                      if ((56320 <=? lo) && (lo <? 57344))%N then
                                        cons_result
                                          (utf8_bytes
                                             (65536 + (cp - 55296) * 1024 + (lo - 56320))%N)
                                          (scanstring rest11)
                                      else None
                                  end
                                else None
                            | _ => None
                            end
                          else None
                      end
                  | _ => None
                  end
                else None
            end
        end
      else if (N_of_ascii c <? 32)%N then None
      else cons_result (String c EmptyString) (scanstring rest)
  end.

Definition digit_of_char (c : ascii) : option (uint -> uint) :=
  match c with
  | "0" => Some D0 | "1" => Some D1 | "2" => Some D2 | "3" => Some D3
  | "4" => Some D4 | "5" => Some D5 | "6" => Some D6 | "7" => Some D7
  | "8" => Some D8 | "9" => Some D9 | _ => None
  end%char.

Fixpoint take_digits (s : string) : uint * string :=
  match s with
  | EmptyString => (Nil, EmptyString)
  | String c rest =>
      match digit_of_char c with
      | Some d => let (ds, r) := take_digits rest in (d ds, r)
      | None => (Nil, s)
      end
  end.

(** The integer part of [NUMBER_RE]: [0|[1-9][0-9]*]. *)
Definition scan_digits (s : string) : option (uint * string) :=
  match s with
  | EmptyString => None
  | String c rest =>
      if (c =? "0")%char then Some (D0 Nil, rest)
      else match digit_of_char c with
           | Some d => let (ds, r) := take_digits rest in Some (d ds, r)
           | None => None
           end
  end.

Definition continues_number (s : string) : bool :=
  match s with
  | EmptyString => false
  | String c _ => ((c =? ".") || (c =? "e") || (c =? "E"))%char
  end.

(** A number token.  A fraction or an exponent makes the token a float,
    which [pyval] leaves out: the decoder gives up on it. *)
Definition scan_number (s : string) : option (pyval * string) :=
  let (negative, s1) :=
    match s with
    | String c rest => if (c =? "-")%char then (true, rest) else (false, s)
    | EmptyString => (false, s)
    end in
  match scan_digits s1 with
  | None => None
  | Some (d, rest) =>
      if continues_number rest then None
      else Some (PInt (if negative then - Z.of_uint d else Z.of_uint d), rest)
  end.

(** [dict(pairs)]: a later pair replaces the value of an earlier key. *)
Definition dict_of_pairs (pairs : list (string * pyval)) : pydict :=
  fold_left (fun d kv => dict_set d (fst kv) (snd kv)) pairs [].

(** [scan_once], [JSONArray] and [JSONObject].  [fuel] bounds the number of
    nested calls; [json_loads] supplies enough of it. *)
Fixpoint scan_once (fuel : nat) (s : string) {struct fuel}
  : option (pyval * string) :=
  match fuel with
  | O => None
  | S fuel =>
      match s with
      | EmptyString => None
      | String c rest =>
          if (c =? dquote)%char then
            match scanstring rest with
            | Some (text, r) => Some (PStr text, r)
            | None => None
            end
          else if (c =? "{")%char then
            match skip_ws rest with
            | EmptyString => None
            | String c1 r1 =>
                if (c1 =? "}")%char then Some (PDict [], r1)
                else if (c1 =? dquote)%char then
                  match JSONObject fuel r1 with
                  | Some (pairs, r) => Some (PDict (dict_of_pairs pairs), r)
                  | None => None
                  end
                else None
            end
          else if (c =? "[")%char then
            match skip_ws rest with
            | EmptyString => None
            | String c1 r1 =>
                if (c1 =? "]")%char then Some (PList [], r1)
                else
                  match JSONArray fuel (String c1 r1) with
                  | Some (values, r) => Some (PList values, r)
                  | None => None
                  end
            end
          else if (c =? "n")%char then
            match strip_prefix "ull" rest with
            | Some r => Some (PNone, r)
            | None => None
            end
          else if (c =? "t")%char then
            match strip_prefix "rue" rest with
            | Some r => Some (PBool true, r)
            | None => None
            end
          else if (c =? "f")%char then
            match strip_prefix "alse" rest with
            | Some r => Some (PBool false, r)
            | None => None
            end
          else scan_number s
      end
  end

with JSONArray (fuel : nat) (s : string) {struct fuel}
  : option (list pyval * string) :=
  match fuel with
  | O => None
  | S fuel =>
      match scan_once fuel s with
      | None => None
      | Some (value, r) =>
          match skip_ws r with
          | EmptyString => None
          | String c r1 =>
              if (c =? "]")%char then Some ([value], r1)
              else if (c =? ",")%char then
                match JSONArray fuel (skip_ws r1) with
                | Some (values, r2) => Some (value :: values, r2)
                | None => None
                end
              else None
          end
      end
  end

with JSONObject (fuel : nat) (s : string) {struct fuel}
  : option (list (string * pyval) * string) :=
  match fuel with
  | O => None
  | S fuel =>
      match scanstring s with
      | None => None
      | Some (key, r) =>
          match skip_ws r with
          | EmptyString => None
          | String c r1 =>
              if (c =? ":")%char then
                match scan_once fuel (skip_ws r1) with
                | None => None
                | Some (value, r2) =>
                    match skip_ws r2 with
                    | EmptyString => None
                    | String c2 r3 =>
                        if (c2 =? "}")%char then Some ([(key, value)], r3)
                        else if (c2 =? ",")%char then
                          match skip_ws r3 with
                          | EmptyString => None
                          | String q r4 =>
                              if (q =? dquote)%char then
                                match JSONObject fuel r4 with
                                | Some (pairs, r5) => Some ((key, value) :: pairs, r5)
                                | None => None
                                end
                              else None
                          end
                        else None
                    end
                end
              else None
          end
      end
  end.

(** [json.loads] on the UTF-8 bytes: leading blanks, one value, trailing
    blanks, nothing else. *)
Definition json_loads (s : string) : option pyval :=
  let s := skip_ws s in
  match scan_once (S (String.length s)) s with
  | Some (v, rest) =>
      match skip_ws rest with
      | EmptyString => Some v
      | String _ _ => None
      end
  | None => None
  end.

(* ================================================================== *)
(** ** Requests and responses (starlette) *)

(** A request as the pipeline reads it: [request.url.path]. *)
Record Request : Type := {
  url_path : string
}.

(** [starlette.responses.Response]: status code, media type, body bytes. *)
Record Response : Type := {
  status_code : Z;
  media_type : string;
  body : string
}.

(** [ProblemException.to_response]. *)
Definition to_response (self : ProblemException) : Response :=
  {| status_code := status self;
     media_type := "application/problem+json";
     body := to_bytes self |}.

(* ================================================================== *)
(** ** Log records (config/logging_configurator.py) *)

Record ErrorLogRecord : Type := {
  exception_type : string;
  exception_message : string;
  exception_stack_trace : string
}.

(** [dataclasses.asdict] on an [ErrorLogRecord]: the fields in order. *)
Definition asdict (self : ErrorLogRecord) : pydict :=
  [ ("exception_type", PStr (exception_type self));
    ("exception_message", PStr (exception_message self));
    ("exception_stack_trace", PStr (exception_stack_trace self)) ].

(** [v in (None, {}, [], "", 0, 0.0)], by Python equality ([False == 0];
    a tuple, also the empty one, equals none of the six). *)
Definition in_cleaned_values (v : pyval) : bool :=
  match v with
  | PNone => true
  | PDict [] => true
  | PList [] => true
  | PStr s => (s =? EmptyString)%string
  | PInt n => n =? 0
  | PBool b => negb b
  | _ => false
  end.

(** [BaseLogRecord.to_dict]. *)
Definition BaseLogRecord_to_dict (self : ErrorLogRecord) : pydict :=
  filter (fun kv => negb (in_cleaned_values (snd kv))) (asdict self).

(* ================================================================== *)
(** ** [ProblemResponse] (model/problem/response.py) *)

(** The object handed to [ProblemResponse.render], tagged by the first
    [isinstance] test of [render] that it passes. *)
Inductive Content : Type :=
| AProblemException (p : ProblemException)
| ADict (data : pydict)
| AnHTTPException (exc_status_code : Z) (exc_detail : option string)
| ARequestValidationError (exc_errors : list pyval)
| AnException (exc : PyException)
| AnyOther (str_content : string).

(** The parameters of [ProblemException.__init__]. *)
Definition parameters : list string :=
  ["_type"; "title"; "status"; "detail"; "instance"; "errors"].

Definition is_parameter (key : string) : bool :=
  existsb (String.eqb key) parameters.

(** A keyword argument read at its annotation; an absent key is the default
    [None]. *)
Definition arg_str (data : pydict) (name : string) : option string :=
  match dict_get data name with
  | Some (PStr s) => Some s
  | _ => None
  end.

Definition arg_int (data : pydict) (name : string) : option Z :=
  match dict_get data name with
  | Some (PInt n) => Some n
  | _ => None
  end.

Definition arg_list (data : pydict) (name : string) : option (list pyval) :=
  match dict_get data name with
  | Some (PList l) => Some l
  | _ => None
  end.

(** The mappings whose values fit the annotations of the parameters they
    name ([Optional[str]], [Optional[int]], [Optional[List[...]]]).  The
    typed record covers the constructor on these; a mapping that binds a
    parameter to a value of another type is outside this embedding. *)
Definition fits_annotation (kv : string * pyval) : bool :=
  match snd kv with
  | PNone => true
  | PStr _ => negb ((fst kv =? "status") || (fst kv =? "errors"))%string
  | PInt _ => (fst kv =? "status")%string
  | PList _ => (fst kv =? "errors")%string
  | _ => false
  end.

Definition kwargs_typed (data : pydict) : bool :=
  forallb (fun kv => negb (is_parameter (fst kv)) || fits_annotation kv) data.

(** [ProblemException] called with the mapping as its keyword arguments: a
    key that names no parameter raises [TypeError] before the body runs. *)
Definition ProblemException_kwargs (data : pydict) : result ProblemException :=
  match find (fun key => negb (is_parameter key)) (dict_keys data) with
  | Some key => Raise (TypeError key)
  | None =>
      ProblemException__init__
        (arg_str data "_type") (arg_str data "title") (arg_int data "status")
        (arg_str data "detail") (arg_str data "instance") (arg_list data "errors")
  end.

Definition set_instance (p : ProblemException) (value : option string)
  : ProblemException :=
  {| type := type p; status := status p; title := title p;
     detail := detail p; instance := value; errors := errors p |}.

(** [ProblemResponse.as_dict]. *)
Definition as_dict (data : pydict) (request : Request) : result ProblemException :=
  problem_exception <- ProblemException_kwargs data ;;
  Ok (if negb (opt_truthy str_truthy (instance problem_exception))
      then set_instance problem_exception (Some (url_path request))
      else problem_exception).

(** [ProblemResponse.as_http_exception]. *)
Definition as_http_exception
    (exc_status_code : Z) (exc_detail : option string) (request : Request)
    (errors : option (list pyval)) : result ProblemException :=
  ProblemException__init__
    (Some "exception:http") None (Some exc_status_code) exc_detail
    (Some (url_path request)) (Some (py_or list_truthy errors [])).

(** [ProblemResponse.as_request_validation_error]. *)
Definition as_request_validation_error
    (exc_errors : list pyval) (request : Request) : result ProblemException :=
  ProblemException__init__
    (Some "exception:validation") (Some "Validation Error") (Some 422)
    (Some "One or more user-provided parameters are invalid, please see errors for details.")
    (Some (url_path request)) (Some (map (fun err => err) exc_errors)).

(** [ProblemResponse.as_uncaught_exception]. *)
Definition as_uncaught_exception (exc : PyException) (request : Request)
  : result ProblemException :=
  ProblemException__init__
    (Some "exception:uncaught") None (Some HTTP_500_INTERNAL_SERVER_ERROR)
    (Some "Uncaught exception occurred while processing the request.")
    (Some (url_path request))
    (Some [ PDict (BaseLogRecord_to_dict
                     {| exception_type := exc_class_name exc;
                        exception_message := exc_str exc;
                        exception_stack_trace := exc_stack_trace exc |}) ]).

(** The branches of [ProblemResponse.render]: the problem [p] it settles on. *)
Definition render_problem (request : Request) (content : Content)
  : result ProblemException :=
  match content with
  | AProblemException p => Ok p
  | ADict data => as_dict data request
  | AnHTTPException sc d => as_http_exception sc d request None
  | ARequestValidationError errs => as_request_validation_error errs request
  | AnException exc => as_uncaught_exception exc request
  | AnyOther str_content =>
      ProblemException__init__
        None None (Some HTTP_500_INTERNAL_SERVER_ERROR)
        (Some "Got unexpected content when trying to generate error response")
        (Some (url_path request))
        (Some [ PDict [("content", PStr str_content)] ])
  end.

(** A [ProblemResponse] after [__init__]: the response attributes, the
    problem and the request. *)
Record ProblemResponse : Type := {
  as_response : Response;
  problem : ProblemException;
  request_of : Request
}.

(** [ProblemResponse.render]: the bytes returned, with the [status_code] and
    [problem] it stores on the response. *)
Definition render (request : Request) (content : Content)
  : result (string * Z * ProblemException) :=
  p <- render_problem request content ;;
  Ok (to_bytes p, status p, p).

(** [ProblemResponse(request, exc)]: [Response.__init__] stores the result of
    [render] as the body. *)
Definition ProblemResponse__init__ (request : Request) (exc : Content)
  : result ProblemResponse :=
  rendered <- render request exc ;;
  let '(bytes, code, p) := rendered in
  Ok {| as_response := {| status_code := code;
                          media_type := "application/problem+json";
                          body := bytes |};
        problem := p;
        request_of := request |}.

(** Modelled from the spec: the module [repository.domain.exceptions] that
    [response.py] imports is not among the sources.  The spec has the
    domain-fault collaborator expose the variants ValidationFailure, NotFound
    and ConflictValue, each carrying a string message; [OtherException]
    stands for every exception that is an instance of none of the three
    classes, and [domain_str] for [str(exc)]. *)
Inductive DomainClass : Type :=
| ValidationFailureError
| NotFoundError
| ConflictValueError
| OtherException.

Record DomainException : Type := {
  domain_class : DomainClass;
  domain_str : string
}.

(** [ProblemResponse.from_domain_exception]: the status chosen by the
    [match] statement, the problem built from it, and the response returned. *)
Definition http_status (exc : DomainException) : Z :=
  match domain_class exc with
  | ValidationFailureError => HTTP_400_BAD_REQUEST
  | NotFoundError => HTTP_404_NOT_FOUND
  | ConflictValueError => HTTP_409_CONFLICT
  | OtherException => HTTP_500_INTERNAL_SERVER_ERROR
  end.

Definition domain_problem (exc : DomainException) (instance : string)
  : result ProblemException :=
  ProblemException__init__
    None None (Some (http_status exc)) (Some (domain_str exc)) (Some instance) None.

Definition from_domain_exception (exc : DomainException) (instance : string)
  : result Response :=
  p <- domain_problem exc instance ;;
  Ok (to_response p).

(* ================================================================== *)
(** ** Effects: what a request handler does, in order *)

(** An ASGI message: its ["type"] and its other entries. *)
Record Message : Type := {
  message_type : string;
  message_fields : pydict
}.

(** What the exception handler does: it calls hooks and it builds the
    problem response. *)
Inductive Event : Type :=
| HookCalled (name : string)
| ProblemRendered.

(** What a call of the middleware does: the handler's events, and the
    messages passed to the [send] of the server. *)
Inductive Effect : Type :=
| Handling (event : Event)
| Sent (message : Message).

(** A computation that leaves a trace of events and returns or raises. *)
Definition traced (A : Type) : Type := (list Event * result A)%type.

Definition tret {A} (a : A) : traced A := ([], Ok a).

Definition tbind {A B} (m : traced A) (k : A -> traced B) : traced B :=
  match m with
  | (t, Ok a) => let (t', r) := k a in ((t ++ t')%list, r)
  | (t, Raise e) => (t, Raise e)
  end.

Definition tlog (e : Event) : traced unit := ([e], Ok tt).
Definition tlift {A} (r : result A) : traced A := ([], r).

Notation "x <~ m ;; k" := (tbind m (fun x => k))
  (at level 61, m at next level, right associativity).

(* ================================================================== *)
(** ** The exception handler (config/problem_configurator.py) *)

(** A hook: a callable that returns or raises.  [hook_name] identifies it in
    the trace. *)
Record Hook (Args : Type) : Type := {
  hook_name : string;
  iscoroutinefunction : bool;
  hook_call : Args -> result unit
}.
Arguments hook_name {Args} h.
Arguments iscoroutinefunction {Args} h.
Arguments hook_call {Args} h args.

Abbreviation PreHook := (Hook (Request * Content)).
Abbreviation PostHook := (Hook (Request * ProblemResponse * Content)).

(** The [for] loop of [exec_hooks]: the body has no [try], so a hook that
    raises ends the loop and the exception leaves [exec_hooks]. *)
Fixpoint for_hook_in {Args} (hooks : list (Hook Args)) (args : Args)
  : traced unit :=
  match hooks with
  | [] => tret tt
  | hook :: rest =>
      _ <~ tlog (HookCalled (hook_name hook)) ;;
      _ <~ (if iscoroutinefunction hook
            then tlift (hook_call hook args)     (* await hook(args) *)
            else tlift (hook_call hook args)) ;; (* hook(args) *)
      for_hook_in rest args
  end.

(** [exec_hooks]. *)
Definition exec_hooks {Args} (hooks : option (list (Hook Args))) (args : Args)
  : traced unit :=
  if opt_truthy list_truthy hooks
  then for_hook_in (py_or list_truthy hooks []) args
  else tret tt.

(** [exception_handler], closed over [pre_hooks] and [post_hooks]. *)
Definition exception_handler
    (pre_hooks : option (list PreHook)) (post_hooks : option (list PostHook))
    (request : Request) (exc : Content) : traced ProblemResponse :=
  _ <~ exec_hooks pre_hooks (request, exc) ;;
  response <~ (_ <~ tlog ProblemRendered ;;
               tlift (ProblemResponse__init__ request exc)) ;;
  _ <~ exec_hooks post_hooks (request, response, exc) ;;
  tret response.

(* ================================================================== *)
(** ** [UnhandledExceptionsMiddleware] (middleware/error_middleware.py) *)

(** The ASGI scope: [scope["type"]] and the path the request is built on. *)
Record Scope : Type := {
  scope_type : string;
  scope_path : string
}.

(** [Request(scope)], as the pipeline reads it through
    [request.url.path]: starlette derives the URL from the scope and reports
    the path of the scope itself unless that path holds a character a URL
    reserves ([?], [#]) or starts with two slashes; the embedding covers the
    paths it reports unchanged. *)
Definition Request_of_scope (scope : Scope) : Request :=
  {| url_path := scope_path scope |}.

(** [Response.init_headers] (starlette): the content length, unless the
    status is informational, 204 or 304, and the content type. *)
Definition raw_headers (response : Response) : pyval :=
  PList
    ((if (status_code response <? 200) || (status_code response =? 204)
         || (status_code response =? 304)
      then []
      else [ PList [ PStr "content-length";
                     PStr (int_repr (Z.of_nat (String.length (body response)))) ] ])
     ++ [ PList [ PStr "content-type"; PStr (media_type response) ] ])%list.

(** [Response.__call__] (starlette): the response start (status and
    headers), then the body. *)
Definition Response__call__ (response : Response) : list Message :=
  [ {| message_type := "http.response.start";
       message_fields :=
         [ ("status", PInt (status_code response));
           ("headers", raw_headers response) ] |};
    {| message_type := "http.response.body";
       message_fields := [ ("body", PStr (body response)) ] |} ].

Section Middleware.

(** The exceptions of class [Exception] the wrapped application raises. *)
Variable Exc : Type.

(** How a call of the wrapped application ends. *)
Inductive Termination : Type :=
| Returns
| RaisesException (exc : Exc)
| RaisesBaseException (name : string).

(** A call of an ASGI application on a scope: the messages it passes to
    the [send] it was given, in order, and how it ends. *)
Definition ASGIApp : Type := Scope -> list Message * Termination.

(** How the call of the middleware ends: as the application did (an
    exception it caught is raised again), or with an exception of the
    handler. *)
Inductive Outcome : Type :=
| Ends (t : Termination)
| HandlerRaises (e : PyError).

Definition ExceptionHandler : Type := Request -> Exc -> traced Response.

(** The closure [_send] over [response_started]. *)
Definition _send (response_started : bool) (message : Message)
  : bool * list Effect :=
  let response_started :=
    if (message_type message =? "http.response.start")%string
    then true else response_started in
  (response_started, [Sent message]).

(** The application's calls of [_send], one after the other. *)
Fixpoint app_sends (messages : list Message) (response_started : bool)
  : bool * list Effect :=
  match messages with
  | [] => (response_started, [])
  | message :: rest =>
      let (response_started, sent) := _send response_started message in
      let (response_started, sent_rest) := app_sends rest response_started in
      (response_started, (sent ++ sent_rest)%list)
  end.

(** [UnhandledExceptionsMiddleware.__call__]. *)
Definition UnhandledExceptionsMiddleware__call__
    (app : ASGIApp) (handler : ExceptionHandler) (scope : Scope)
  : list Effect * Outcome :=
  if negb (scope_type scope =? "http")%string then
    let (messages, termination) := app scope in
    (map Sent messages, Ends termination)
  else
    let response_started := false in
    let (messages, termination) := app scope in
    let (response_started, sent) := app_sends messages response_started in
    match termination with
    | RaisesException exc =>
        if negb response_started then
          match handler (Request_of_scope scope) exc with
          | (events, Ok response) =>
              ((sent ++ map Handling events
                ++ map Sent (Response__call__ response))%list,
               Ends (RaisesException exc))
          | (events, Raise e) =>
              ((sent ++ map Handling events)%list, HandlerRaises e)
          end
        else (sent, Ends (RaisesException exc))
    | other => (sent, Ends other)
    end.

End Middleware.

Arguments Returns {Exc}.
Arguments RaisesException {Exc} exc.
Arguments RaisesBaseException {Exc} name.
Arguments Ends {Exc} t.
Arguments HandlerRaises {Exc} e.
Arguments UnhandledExceptionsMiddleware__call__ {Exc} app handler scope.

(** The handler [problem_configurator.init] registers with the middleware. *)
Definition problem_exception_handler_provider
    (pre_hooks : option (list PreHook)) (post_hooks : option (list PostHook))
  : ExceptionHandler Content :=
  fun request exc =>
    response <~ exception_handler pre_hooks post_hooks request exc ;;
    tret (as_response response).

Definition is_response_start (message : Message) : bool :=
  (message_type message =? "http.response.start")%string.

(* ================================================================== *)
(** ** Reading a rendered mapping *)

(** The entry [to_dict] writes for one attribute: present when truthy. *)
Definition entry_if (present : bool) (key : string) (value : pyval) : pydict :=
  if present then [(key, value)] else [].

Definition opt_entry {A} (t : A -> bool) (inj : A -> pyval) (key : string)
    (field : option A) : pydict :=
  match field with
  | Some a => entry_if (t a) key (inj a)
  | None => []
  end.

(** The value of the attribute a key of the wire format names. *)
Definition attribute (self : ProblemException) (key : string) : option pyval :=
  if (key =? "type")%string then Some (PStr (type self))
  else if (key =? "title")%string then Some (PStr (title self))
  else if (key =? "status")%string then Some (PInt (status self))
  else if (key =? "detail")%string then option_map PStr (detail self)
  else if (key =? "instance")%string then option_map PStr (instance self)
  else if (key =? "errors")%string then option_map PList (errors self)
  else None.

(** A value is empty when it is absent or falsy. *)
Definition nonempty (v : option pyval) : bool := opt_truthy truthy v.

(** The rendering the wire format describes: a field is present exactly
    when its value is non-empty, except [status], which is always present. *)
Definition rendered_field (self : ProblemException) (key : string)
  : option pyval :=
  if (key =? "status")%string then attribute self key
  else if nonempty (attribute self key) then attribute self key
  else None.

(** A record whose [type], [title], [detail], [instance] and [errors] are all
    empty. *)
Definition only_status (self : ProblemException) : bool :=
  negb (str_truthy (type self)) && negb (str_truthy (title self))
  && negb (opt_truthy str_truthy (detail self))
  && negb (opt_truthy str_truthy (instance self))
  && negb (opt_truthy list_truthy (errors self)).

(** The problem a request-validation fault is to yield. *)
Definition validation_problem (request : Request) (violations : list pyval)
  : ProblemException :=
  {| type := "exception:validation";
     status := 422;
     title := "Validation Error";
     detail := Some "One or more user-provided parameters are invalid, please see errors for details.";
     instance := Some (url_path request);
     errors := Some violations |}.

(** Membership in the table of [http.HTTPStatus]. *)
Definition known_status (code : Z) : bool :=
  match assoc_Z HTTPStatus_table code with
  | Some _ => true
  | None => false
  end.

(** The names of the hooks of a list, in registration order, as events. *)
Definition hook_calls {Args} (hooks : list (Hook Args)) : list Event :=
  map (fun hook => HookCalled (hook_name hook)) hooks.

Definition registered {Args} (hooks : option (list (Hook Args)))
  : list (Hook Args) :=
  match hooks with
  | Some l => l
  | None => []
  end.

(** The messages of a trace that start a response. *)
Definition response_starts (trace : list Effect) : list Message :=
  flat_map (fun effect =>
              match effect with
              | Sent message => if is_response_start message then [message] else []
              | Handling _ => []
              end) trace.

(* ================================================================== *)
(** ** Well-formed values and decoder fuel *)

Fixpoint distinct (keys : list string) : bool :=
  match keys with
  | [] => true
  | key :: rest => negb (existsb (String.eqb key) rest) && distinct rest
  end.

(** The invariant of a Python [dict]: no key occurs twice, at any depth. *)
Fixpoint well_formed (v : pyval) : bool :=
  match v with
  | PList items => forallb well_formed items
  | PTuple items => forallb well_formed items
  | PDict entries =>
      distinct (map fst entries)
      && forallb (fun kv => well_formed (snd kv)) entries
  | _ => true
  end.

Definition list_need (needs : list nat) : nat :=
  fold_right (fun n rest => S (Nat.max n rest)) O needs.

(** The fuel [scan_once] takes on the text of a value. *)
Fixpoint need (v : pyval) : nat :=
  match v with
  | PList items => S (list_need (map need items))
  | PTuple items => S (list_need (map need items))
  | PDict entries => S (list_need (map (fun kv => need (snd kv)) entries))
  | _ => 1%nat
  end.

(** What JSON keeps of a value: [json.dumps] writes a tuple as an array and
    [json.loads] reads an array as a list, so the value comes back with
    every tuple replaced by the list of its items. *)
Fixpoint tuples_as_lists (v : pyval) : pyval :=
  match v with
  | PList items => PList (map tuples_as_lists items)
  | PTuple items => PList (map tuples_as_lists items)
  | PDict entries =>
      PDict (map (fun kv => (fst kv, tuples_as_lists (snd kv))) entries)
  | _ => v
  end.

(** No tuple occurs in the value, at any depth. *)
Fixpoint tuple_free (v : pyval) : bool :=
  match v with
  | PTuple _ => false
  | PList items => forallb tuple_free items
  | PDict entries => forallb (fun kv => tuple_free (snd kv)) entries
  | _ => true
  end.

(** The characters a JSON value can start with, and the input that can
    follow a value inside a document: nothing, a comma, or a closing
    bracket or brace. *)
Definition value_start (c : ascii) : bool :=
  ((c =? dquote) || (c =? "{") || (c =? "[") || (c =? "n") || (c =? "t")
   || (c =? "f") || (c =? "-")
   || match digit_of_char c with Some _ => true | None => false end)%char.

Definition delimited (rest : string) : bool :=
  match rest with
  | EmptyString => true
  | String c _ => ((c =? ",") || (c =? "]") || (c =? "}"))%char
  end.

(** The text of one member of an object. *)
Definition member_text (kv : string * pyval) : string :=
  encode_basestring (fst kv) ++ ":" ++ json_dumps (snd kv).

(** The errors of a record are well-formed values. *)
Definition well_formed_errors (self : ProblemException) : bool :=
  match errors self with
  | Some l => forallb well_formed l
  | None => true
  end.

(** No entry of the errors of a record holds a tuple. *)
Definition tuple_free_errors (self : ProblemException) : bool :=
  match errors self with
  | Some l => forallb tuple_free l
  | None => true
  end.

(** The record with the tuples inside its errors replaced by lists. *)
Definition with_lists_for_tuples (self : ProblemException) : ProblemException :=
  {| type := type self; status := status self; title := title self;
     detail := detail self; instance := instance self;
     errors := option_map (map tuples_as_lists) (errors self) |}.

(** A value whose text the decoder reads back, tuples as lists, in any
    admissible context and with any sufficient fuel. *)
Definition reads_back (v : pyval) : Prop :=
  well_formed v = true ->
  forall fuel rest,
    (need v <= fuel)%nat -> delimited rest = true ->
    scan_once fuel (json_dumps v ++ rest) = Some (tuples_as_lists v, rest).

(* ================================================================== *)
(** ** Sample inputs *)

(** The record left by [p = ProblemException()] followed by the assignments
    [p.type = p.title = ""] and [p.status = 0]. *)
Definition emptied_problem : ProblemException :=
  {| type := EmptyString; status := 0; title := EmptyString;
     detail := None; instance := None; errors := None |}.

(** A record with nothing but a status: empty strings, an empty list. *)
Definition service_unavailable_only : ProblemException :=
  {| type := EmptyString; status := 503; title := EmptyString;
     detail := Some EmptyString; instance := None; errors := Some [] |}.

Definition widgets_1 : Request := {| url_path := "/widgets/1" |}.

(** [AssertionError()], as a failed [assert] raises it: no message. *)
Definition assertion_error : PyException :=
  {| exc_class_name := "AssertionError";
     exc_str := EmptyString;
     exc_stack_trace := "Traceback (most recent call last):
AssertionError
" |}.

(** [RuntimeError("boom")]. *)
Definition boom : PyException :=
  {| exc_class_name := "RuntimeError";
     exc_str := "boom";
     exc_stack_trace := "Traceback (most recent call last):
RuntimeError: boom
" |}.

(** Two violation entries as pydantic reports them, the [loc] a tuple. *)
Definition two_violations : list pyval :=
  [ PDict [ ("type", PStr "missing");
            ("loc", PTuple [PStr "body"; PStr "name"]);
            ("msg", PStr "Field required") ];
    PDict [ ("type", PStr "int_parsing");
            ("loc", PTuple [PStr "query"; PInt 0]);
            ("msg", PStr "Input should be a valid integer") ] ].

(** The same two entries with lists for the tuples. *)
Definition two_violations_decoded : list pyval :=
  [ PDict [ ("type", PStr "missing");
            ("loc", PList [PStr "body"; PStr "name"]);
            ("msg", PStr "Field required") ];
    PDict [ ("type", PStr "int_parsing");
            ("loc", PList [PStr "query"; PInt 0]);
            ("msg", PStr "Input should be a valid integer") ] ].

(** [HTTPException(status_code=600, detail="upstream said 600")]: starlette
    looks the status up only when no detail is given. *)
Definition http_600 : Content := AnHTTPException 600 (Some "upstream said 600").

(** [HTTPException(status_code=404, detail="Resource not found.")]. *)
Definition http_404 : Content := AnHTTPException 404 (Some "Resource not found.").

(** A problem raised by application code with no instance, as
    [ProblemException(status=503, detail=...)] in the kill-switch
    middleware builds it. *)
Definition kill_switch_problem : ProblemException :=
  {| type := "exception:problem";
     status := 503;
     title := "Service Unavailable";
     detail := Some "Kill-Switch is enabled. Please contact the service owner for more information.";
     instance := None;
     errors := None |}.

(** A mapping with a key that is no parameter of the constructor, and the
    mapping that spells the RFC 7807 member [type] as the wire format does. *)
Definition extra_key_mapping : pydict :=
  [ ("status", PInt 404); ("detail", PStr "No such widget."); ("widget", PInt 9) ].

Definition type_key_mapping : pydict :=
  [ ("type", PStr "widget:missing"); ("status", PInt 404) ].

Definition recognised_mapping : pydict :=
  [ ("status", PInt 404); ("detail", PStr "No such widget.") ].

(** A metrics hook that counts the error and returns, and a logging hook
    whose sink is down: it raises [RuntimeError("boom")]. *)
Definition count_errors : PreHook :=
  {| hook_name := "count_errors";
     iscoroutinefunction := false;
     hook_call := fun _ => Ok tt |}.

Definition log_to_sink : PreHook :=
  {| hook_name := "log_to_sink";
     iscoroutinefunction := true;
     hook_call := fun _ => Raise (Raised boom) |}.

Definition audit_response : PostHook :=
  {| hook_name := "audit_response";
     iscoroutinefunction := false;
     hook_call := fun _ => Ok tt |}.

Definition http_scope : Scope :=
  {| scope_type := "http"; scope_path := "/widgets/1" |}.

(** An application that raises [RuntimeError("boom")] before it sends
    anything, and one that raises it after the response has started. *)
Definition raises_at_once : ASGIApp Content :=
  fun _ => ([], RaisesException (AnException boom)).

Definition stream_start : Message :=
  {| message_type := "http.response.start";
     message_fields := [("status", PInt 200); ("headers", PList [])] |}.

Definition raises_while_streaming : ASGIApp Content :=
  fun _ => ([stream_start], RaisesException (AnException boom)).

Definition websocket_scope : Scope :=
  {| scope_type := "websocket"; scope_path := "/widgets/feed" |}.

(** An application that raises [HTTPException(600, ...)] outside the
    router's own exception handlers, before it sends anything. *)
Definition raises_http_600 : ASGIApp Content :=
  fun _ => ([], RaisesException http_600).

(** Case analysis on the truth value of every attribute of [self]. *)
Ltac attribute_cases self :=
  destruct (str_truthy (type self)), (str_truthy (title self)),
    (int_truthy (status self));
    destruct (detail self) as [?d|]; try destruct (str_truthy d);
    destruct (instance self) as [?i|]; try destruct (str_truthy i);
    destruct (errors self) as [?l|]; try destruct (list_truthy l).

(* ================================================================== *)
(** ** Documentation helpers (helpers/documentation.py) and the examples
       of [ProblemResponse] *)

Definition newline : string := String "010" EmptyString.

Section Documentation.

(** [Request(scope).url.path] for the scope [request_obj] builds (type
    http, no headers, no server, no query string), as a function of the
    path put into the scope.  Starlette computes it from the scope: it
    builds a URL from the path and reads the path component of that URL
    back, which is not the path itself for every string.  Its code is not
    among the sources, so the function is left open. *)
Variable request_url_path : string -> string.

(** [documentation.request_obj]: the request for the given path; without a
    path, for a slash and the ten characters [random.choices] drew. *)
Definition request_obj (path : option string) (random_choices : string)
  : Request :=
  {| url_path := request_url_path
                   match path with
                   | Some p => p
                   | None => "/" ++ random_choices
                   end |}.

(** [documentation.exception_obj]: [Exception(message)], never raised, so
    its formatted trace is the final line alone. *)
Definition exception_obj (message : option string) : PyException :=
  let message :=
    match message with
    | Some m => m
    | None => "An unexpected error occurred while processing the request."
    end in
  {| exc_class_name := "Exception";
     exc_str := message;
     exc_stack_trace :=
       if (message =? EmptyString)%string then "Exception" ++ newline
       else "Exception: " ++ message ++ newline |}.

(** [ProblemResponse.http_error_example]; the caller's defaults are
    [status_code = 404] and [None] for the rest. *)
Definition http_error_example
    (path : option string) (random_choices : string) (status_code : Z)
    (detail : option string) (errors : option (list pyval)) : result pydict :=
  p <- as_http_exception
         status_code
         (Some (py_or str_truthy detail "Details for the HTTP error occurred."))
         (request_obj path random_choices) errors ;;
  Ok (to_dict p).

(** The violation [validation_error_example] reports. *)
Definition example_violations : list pyval :=
  [ PDict [ ("loc", PList [PStr "body"; PStr "some_type"]);
            ("msg", PStr "Input should be one of 'value_a', 'value_b', 'value_c' or 'value_d'");
            ("type", PStr "enum") ] ].

(** [ProblemResponse.validation_error_example]. *)
Definition validation_error_example
    (path : option string) (random_choices : string) : result pydict :=
  p <- as_request_validation_error
         example_violations (request_obj path random_choices) ;;
  Ok (to_dict p).

(** [ProblemResponse.exception_error_example]. *)
Definition exception_error_example
    (path : option string) (random_choices : string) : result pydict :=
  p <- as_uncaught_exception
         (exception_obj None) (request_obj path random_choices) ;;
  Ok (to_dict p).

End Documentation.

(** The response schema [Problem] (model/problem/schema.py): [type],
    [title], [detail] and [instance] are required strings, [status] a
    required integer, [errors] an optional list of mappings. *)
Definition is_str (v : option pyval) : bool :=
  match v with Some (PStr _) => true | _ => false end.

Definition is_int (v : option pyval) : bool :=
  match v with Some (PInt _) => true | _ => false end.

Definition is_dict (v : pyval) : bool :=
  match v with PDict _ => true | _ => false end.

Definition fits_Problem (d : pydict) : bool :=
  is_str (dict_get d "type") && is_str (dict_get d "title")
  && is_int (dict_get d "status")
  && is_str (dict_get d "detail") && is_str (dict_get d "instance")
  && match dict_get d "errors" with
     | None | Some PNone => true
     | Some (PList l) => forallb is_dict l
     | Some _ => false
     end.

(** The keyword arguments of the constructor that are falsy count as
    absent for [_type], [title] and [status]. *)
Definition truthy_only {A} (t : A -> bool) (x : option A) : option A :=
  if opt_truthy t x then x else None.

(** The six member names of a rendered problem, in the order [to_dict]
    writes them. *)
Definition member_names : list string :=
  ["type"; "title"; "status"; "detail"; "instance"; "errors"].

(** The contents [render] builds a problem for: everything but a
    [ProblemException], which is passed through; a mapping is covered where
    its values fit the annotations. *)
Definition built_by_render (content : Content) : bool :=
  match content with
  | AProblemException _ => false
  | ADict data => kwargs_typed data
  | _ => true
  end.

(** [HTTPException(status_code=404, detail="Resource not found.")] on the
    path [/widgets/9]. *)
Definition widgets_9 : Request := {| url_path := "/widgets/9" |}.

(* ================================================================== *)
(** ** [HttpLogRecord] (config/logging_configurator.py) *)

(** The attributes of an [HttpLogRecord].  The annotations are not
    enforced ([processor] stores [None] where no request id or body was
    logged), so the attributes are values. *)
Record HttpLogRecord : Type := {
  request_id : pyval;
  request_source : pyval;
  request_method : pyval;
  request_url : pyval;
  request_query_params : pyval;
  request_headers : pyval;
  request_body : pyval;
  response_status : pyval;
  response_headers : pyval;
  response_body : pyval;
  response_duration_ms : pyval
}.

(** [HttpLogRecord()]: the defaults of the dataclass. *)
Definition HttpLogRecord_default : HttpLogRecord :=
  {| request_id := PStr EmptyString;
     request_source := PStr "UNKNOWN";
     request_method := PStr EmptyString;
     request_url := PStr EmptyString;
     request_query_params := PNone;
     request_headers := PNone;
     request_body := PStr EmptyString;
     response_status := PInt 0;
     response_headers := PNone;
     response_body := PStr EmptyString;
     response_duration_ms := PInt 0 |}.

(** [dataclasses.asdict] on an [HttpLogRecord]: the fields in order. *)
Definition HttpLogRecord_asdict (self : HttpLogRecord) : pydict :=
  [ ("request_id", request_id self);
    ("request_source", request_source self);
    ("request_method", request_method self);
    ("request_url", request_url self);
    ("request_query_params", request_query_params self);
    ("request_headers", request_headers self);
    ("request_body", request_body self);
    ("response_status", response_status self);
    ("response_headers", response_headers self);
    ("response_body", response_body self);
    ("response_duration_ms", response_duration_ms self) ].

(** The one falsy value of [pyval] that equals none of the six values
    [BaseLogRecord.to_dict] removes. *)
Definition is_empty_tuple (v : pyval) : bool :=
  match v with
  | PTuple [] => true
  | _ => false
  end.

(** The comprehension of [BaseLogRecord.to_dict] on the fields of a
    record. *)
Definition to_dict_cleaned (fields : pydict) : pydict :=
  filter (fun kv => negb (in_cleaned_values (snd kv))) fields.

(** [BaseLogRecord.to_dict] on an [HttpLogRecord]. *)
Definition HttpLogRecord_to_dict (self : HttpLogRecord) : pydict :=
  to_dict_cleaned (HttpLogRecord_asdict self).

(** The record of a response that took less than a millisecond. *)
Definition fast_response_record : HttpLogRecord :=
  {| request_id := PStr "4f1c";
     request_source := PStr "UNKNOWN";
     request_method := PStr EmptyString;
     request_url := PStr EmptyString;
     request_query_params := PNone;
     request_headers := PNone;
     request_body := PStr EmptyString;
     response_status := PInt 200;
     response_headers := PDict [("content-type", PStr "application/json")];
     response_body := PStr "[]";
     response_duration_ms := PInt 0 |}.

(** A post-hook whose sink is down, and an application whose task is
    cancelled after the response has started. *)
Definition failing_audit : PostHook :=
  {| hook_name := "failing_audit";
     iscoroutinefunction := true;
     hook_call := fun _ => Raise (Raised boom) |}.

Definition cancelled_while_streaming : ASGIApp Content :=
  fun _ => ([stream_start], RaisesBaseException "CancelledError").

(* ================================================================== *)
(** ** [KillSwitchMiddleware] (middleware/kill_switch_middleware.py) *)

(** [s.rstrip("/")]: the string without its trailing slashes. *)
Fixpoint rstrip_slash (s : string) : string :=
  match s with
  | EmptyString => EmptyString
  | String c rest =>
      match rstrip_slash rest with
      | EmptyString => if (c =? "/")%char then EmptyString
                       else String c EmptyString
      | stripped => String c stripped
      end
  end.

(** [normalised_path in normalised_exclude_paths], as [dispatch] computes
    it in [KillSwitchMiddleware] and in [HttpLoggingMiddleware]. *)
Definition path_excluded (exclude_paths : list string) (request : Request)
  : bool :=
  let normalised_path := rstrip_slash (url_path request) in
  let normalised_exclude_paths := map rstrip_slash exclude_paths in
  existsb (String.eqb normalised_path) normalised_exclude_paths.

Definition kill_switch_message : string :=
  "Kill-Switch is enabled. Please contact the service owner for more information.".

(** [KillSwitchMiddleware.__init__]: [exclude_paths or []]. *)
Definition KillSwitchMiddleware__init__ (exclude_paths : option (list string))
  : list string :=
  py_or list_truthy exclude_paths [].

(** [KillSwitchMiddleware.dispatch].  [load] is the outcome of
    [KillSwitchConfig.load().enabled] (the flag, or the exception of reading
    or validating the file) and [call_next] the rest of the stack; the
    result is the warnings logged and the response returned or the
    exception raised. *)
Definition KillSwitchMiddleware_dispatch
    (exclude_paths : list string) (load : result bool)
    (call_next : Request -> result Response) (request : Request)
  : list string * result Response :=
  if path_excluded exclude_paths request then ([], call_next request)
  else
    match load with
    | Raise e => ([], Raise e)
    | Ok enabled =>
        if enabled then
          ([kill_switch_message],
           p <- ProblemException__init__
                  None None (Some 503) (Some kill_switch_message) None None ;;
           Ok (to_response p))
        else ([], call_next request)
    end.

(** The paths [main.py] excludes from the kill switch, a request for the
    documentation with a trailing slash, and a stack that answers 200. *)
Definition kill_switch_exclusions : list string :=
  ["/docs"; "/redoc"; "/openapi.json"].

Definition docs_request : Request := {| url_path := "/docs/" |}.

Definition answers_200 : Request -> result Response :=
  fun _ => Ok {| status_code := 200; media_type := "application/json";
                 body := "[]" |}.

(* ================================================================== *)
(** ** Environment variables (config/environment_loader.py) *)

(** [os.environ]: the variables of the process, names to values. *)
Definition environ : Type := list (string * string).

(** What python-dotenv reads from one dotenv file: a mapping from names to
    values, a name written without [=] bound to [None]; the empty mapping
    when [find_dotenv] finds no file.  The files are taken to use no
    [${NAME}] expansion, so that [load_dotenv] and [dotenv_values] read the
    same mapping from a file. *)
Definition dotenv : Type := list (string * option string).

(** [key in d]. *)
Definition dict_contains {V} (d : list (string * V)) (key : string) : bool :=
  match dict_get d key with
  | Some _ => true
  | None => false
  end.

Inductive Environment : Type :=
| NAME
| LOG_LEVEL
| LOG_JSON_FORMAT
| APP_NAME
| APP_VERSION
| APP_SUMMARY
| APP_DESCRIPTION
| APP_CONTACT_NAME
| APP_CONTACT_URL
| APP_CONTACT_EMAIL
| APP_LICENCE_NAME
| APP_LICENCE_URL
| APP_WEB_HOST
| APP_WEB_PORT
| APP_WEB_CORS_ALLOW_ORIGINS
| APP_WEB_CORS_ALLOW_CREDENTIALS
| APP_WEB_CORS_ALLOW_METHODS
| APP_WEB_CORS_ALLOW_HEADERS
| GCP_PROJECT_ID
| GCP_SECRET_MANAGER_CACHE_TTL_SECS
| OPENAPI_VERSION
| KILL_SWITCH_CONFIG_PATH
| DB_NAME
| DB_USERNAME
| DB_CONNECTION.

(** [self.value]. *)
Definition Environment_value (self : Environment) : string :=
  match self with
  | NAME => "ENVIRONMENT"
  | LOG_LEVEL => "LOG_LEVEL"
  | LOG_JSON_FORMAT => "LOG_JSON_FORMAT"
  | APP_NAME => "APP_NAME"
  | APP_VERSION => "APP_VERSION"
  | APP_SUMMARY => "APP_SUMMARY"
  | APP_DESCRIPTION => "APP_DESCRIPTION"
  | APP_CONTACT_NAME => "APP_CONTACT_NAME"
  | APP_CONTACT_URL => "APP_CONTACT_URL"
  | APP_CONTACT_EMAIL => "APP_CONTACT_EMAIL"
  | APP_LICENCE_NAME => "APP_LICENCE_NAME"
  | APP_LICENCE_URL => "APP_LICENCE_URL"
  | APP_WEB_HOST => "APP_WEB_HOST"
  | APP_WEB_PORT => "APP_WEB_PORT"
  | APP_WEB_CORS_ALLOW_ORIGINS => "APP_WEB_CORS_ALLOW_ORIGINS"
  | APP_WEB_CORS_ALLOW_CREDENTIALS => "APP_WEB_CORS_ALLOW_CREDENTIALS"
  | APP_WEB_CORS_ALLOW_METHODS => "APP_WEB_CORS_ALLOW_METHODS"
  | APP_WEB_CORS_ALLOW_HEADERS => "APP_WEB_CORS_ALLOW_HEADERS"
  | GCP_PROJECT_ID => "GCP_PROJECT_ID"
  | GCP_SECRET_MANAGER_CACHE_TTL_SECS => "GCP_SECRET_MANAGER_CACHE_TTL_SECS"
  | OPENAPI_VERSION => "OPENAPI_VERSION"
  | KILL_SWITCH_CONFIG_PATH => "KILL_SWITCH_CONFIG_PATH"
  | DB_NAME => "DB_NAME"
  | DB_USERNAME => "DB_USERNAME"
  | DB_CONNECTION => "DB_CONNECTION"
  end.

(** The members in definition order, as iterating the enum gives them. *)
Definition Environment_members : list Environment :=
  [ NAME; LOG_LEVEL; LOG_JSON_FORMAT; APP_NAME; APP_VERSION; APP_SUMMARY;
    APP_DESCRIPTION; APP_CONTACT_NAME; APP_CONTACT_URL; APP_CONTACT_EMAIL;
    APP_LICENCE_NAME; APP_LICENCE_URL; APP_WEB_HOST; APP_WEB_PORT;
    APP_WEB_CORS_ALLOW_ORIGINS; APP_WEB_CORS_ALLOW_CREDENTIALS;
    APP_WEB_CORS_ALLOW_METHODS; APP_WEB_CORS_ALLOW_HEADERS; GCP_PROJECT_ID;
    GCP_SECRET_MANAGER_CACHE_TTL_SECS; OPENAPI_VERSION;
    KILL_SWITCH_CONFIG_PATH; DB_NAME; DB_USERNAME; DB_CONNECTION ].

(** [Environment.as_list()]. *)
Definition Environment_as_list : list string :=
  map Environment_value Environment_members.

(** The exceptions of this module: the [KeyError] of [get], the
    [AssertionError] of a failed [assert] with its message, and the
    [ValueError] with which [os.environ[key] = value] refuses an empty name,
    a name with [=] in it, or a NUL character in the name or the value. *)
Inductive EnvironmentError : Type :=
| KeyError (message : string)
| AssertionError (message : string)
| PutenvValueError.

Fixpoint has_char (c : ascii) (s : string) : bool :=
  match s with
  | EmptyString => false
  | String x rest => (x =? c)%char || has_char c rest
  end.

Definition putenv_accepts (key value : string) : bool :=
  negb (key =? "")%string
  && negb (has_char "=" key)
  && negb (has_char "000" key)
  && negb (has_char "000" value).

(** [os.environ[key] = value]. *)
Definition environ_setitem (os_environ : environ) (key value : string)
  : EnvironmentError + environ :=
  if putenv_accepts key value then inr (dict_set os_environ key value)
  else inl PutenvValueError.

(** [Environment.get]. *)
Definition Environment_get (self : Environment) (os_environ : environ)
  : EnvironmentError + string :=
  match dict_get os_environ (Environment_value self) with
  | None =>
      inl (KeyError ("Missing compulsory environment variable: "
                     ++ Environment_value self))
  | Some value => inr value
  end.

(** [Environment.set]. *)
Definition Environment_set (self : Environment) (value : string)
    (os_environ : environ) : EnvironmentError + environ :=
  environ_setitem os_environ (Environment_value self) value.

Definition INHERIT_FROM_ENVIRONMENT_KEY_VALUE : string :=
  "INHERIT_FROM_ENVIRONMENT".

Definition CHANGE_ME_KEY_VALUE : string := "CHANGE_ME".

(** [load_dotenv(dotenv_path=..., override=False)] on the mapping read from
    the file: a name the process already has is left alone, a name without
    a value is skipped, any other binding is written to [os.environ].  The
    result is the environment as left behind and whether a write raised. *)
Fixpoint load_dotenv (values : dotenv) (os_environ : environ)
  : environ * (EnvironmentError + unit) :=
  match values with
  | [] => (os_environ, inr tt)
  | (k, v) :: rest =>
      if dict_contains os_environ k then load_dotenv rest os_environ
      else
        match v with
        | None => load_dotenv rest os_environ
        | Some value =>
            match environ_setitem os_environ k value with
            | inl e => (os_environ, inl e)
            | inr written => load_dotenv rest written
            end
        end
  end.

(** [{**shared, **deployed}]. *)
Definition dict_merge {V} (shared deployed : list (string * V))
  : list (string * V) :=
  fold_left (fun d kv => dict_set d (fst kv) (snd kv)) deployed shared.

Definition is_change_me (memory_loaded_dotenv : dotenv) (var : string) : bool :=
  match dict_get memory_loaded_dotenv var with
  | Some (Some value) => (value =? CHANGE_ME_KEY_VALUE)%string
  | _ => false
  end.

Definition is_inherent (os_environ : environ) (var : string) : bool :=
  match dict_get os_environ var with
  | Some value => (value =? INHERIT_FROM_ENVIRONMENT_KEY_VALUE)%string
  | None => false
  end.

Definition change_me_message (change_me_variables : list string) : string :=
  "The following variables were set as '" ++ CHANGE_ME_KEY_VALUE ++ "' "
  ++ "but no value were found for them in the deployment environment: "
  ++ String.concat ", " change_me_variables.

Definition inherent_message (inherent_variables : list string) : string :=
  "The following variables were set as '"
  ++ INHERIT_FROM_ENVIRONMENT_KEY_VALUE ++ "' "
  ++ "but no value were found for them in the deployed environment: "
  ++ String.concat ", " inherent_variables.

Definition missing_message (missing_variables : list string) : string :=
  "Missing compulsory environment variables: "
  ++ String.concat ", " missing_variables.

(** The three assertions at the end of [init]. *)
Definition init_checks (compulsory_variables : list string)
    (memory_loaded_dotenv : dotenv) (os_environ : environ)
  : EnvironmentError + unit :=
  let change_me_variables :=
    filter (is_change_me memory_loaded_dotenv) compulsory_variables in
  if list_truthy change_me_variables
  then inl (AssertionError (change_me_message change_me_variables))
  else
    let inherent_variables :=
      filter (is_inherent os_environ) compulsory_variables in
    if list_truthy inherent_variables
    then inl (AssertionError (inherent_message inherent_variables))
    else
      let missing_variables :=
        filter (fun var => negb (dict_contains os_environ var))
               compulsory_variables in
      if list_truthy missing_variables
      then inl (AssertionError (missing_message missing_variables))
      else inr tt.

(** [init].  [shared_environment] is the mapping of [environment/.env] and
    [deployed_environment name] the mapping of the file
    [environment/.env.{name.lower()}] for the value [name] of [ENVIRONMENT];
    the result is [os.environ] as [init] leaves it and whether it returned
    or raised. *)
Definition init (compulsory_variables : option (list string))
    (shared_environment : dotenv) (deployed_environment : string -> dotenv)
    (os_environ : environ) : environ * (EnvironmentError + unit) :=
  let compulsory_variables :=
    match compulsory_variables with
    | None => Environment_as_list
    | Some variables => variables
    end in
  match (if dict_contains os_environ (Environment_value NAME)
         then inr os_environ
         else Environment_set NAME "local" os_environ) with
  | inl e => (os_environ, inl e)
  | inr named =>
      match Environment_get NAME named with
      | inl e => (named, inl e)
      | inr name =>
          match load_dotenv shared_environment named with
          | (loaded, inl e) => (loaded, inl e)
          | (loaded, inr _) =>
              match load_dotenv (deployed_environment name) loaded with
              | (deployed, inl e) => (deployed, inl e)
              | (deployed, inr _) =>
                  (deployed,
                   init_checks compulsory_variables
                     (dict_merge shared_environment
                                 (deployed_environment name))
                     deployed)
              end
          end
      end
  end.

(** Every binding of the mapping is one [os.environ] accepts. *)
Definition writable (values : dotenv) : bool :=
  forallb (fun kv => match snd kv with
                     | Some value => putenv_accepts (fst kv) value
                     | None => true
                     end) values.

(** A process that only names its environment, a shared file with a
    placeholder and a name without a value, and the file of production. *)
Definition production_process : environ := [("ENVIRONMENT", "Production")].

Definition shared_file : dotenv :=
  [ ("LOG_LEVEL", Some "INFO");
    ("DB_NAME", Some "CHANGE_ME");
    ("DB_USERNAME", None) ].

Definition production_file : dotenv :=
  [ ("DB_NAME", Some "orders");
    ("DB_USERNAME", Some "svc_orders");
    ("LOG_LEVEL", Some "DEBUG") ].

Definition deployed_files (name : string) : dotenv :=
  if (name =? "Production")%string then production_file else [].

(** A process that sets every variable of [Environment]. *)
Definition full_process : environ :=
  map (fun var => (var, "set")) Environment_as_list.

(** The value of [ENVIRONMENT] that [init] works with: the one of the
    process, [local] when the process has none. *)
Definition environment_name (os_environ : environ) : string :=
  match dict_get os_environ (Environment_value NAME) with
  | Some name => name
  | None => "local"
  end.

(** The value a dotenv mapping gives a variable, if it gives one. *)
Definition dotenv_value (values : dotenv) (var : string) : option string :=
  match dict_get values var with
  | Some (Some value) => Some value
  | _ => None
  end.

(* ################################################################## *)
(** * Properties *)

(* ================================================================== *)
(** ** The constructor and [to_dict] *)

Lemma str_truthy_false (s : string) : str_truthy s = false <-> s = EmptyString.
Proof.
  unfold str_truthy; simpl; destruct s; simpl; split; congruence.
Qed.

Lemma int_truthy_false (n : Z) : int_truthy n = false <-> n = 0.
Proof.
  unfold int_truthy; simpl.
  destruct (Z.eqb_spec n 0); simpl; split; congruence.
Qed.

Lemma py_or_int_nonzero (status : option Z) : py_or int_truthy status 500 <> 0.
Proof.
  destruct status as [n|]; simpl; [|lia].
  destruct (int_truthy n) eqn:E; [|lia].
  intros ->; discriminate E.
Qed.

(** The constructor never leaves [status] at zero. *)
Lemma init_status_nonzero ty ti st de ins errs p :
  ProblemException__init__ ty ti st de ins errs = Ok p ->
  status p <> 0.
Proof.
  unfold ProblemException__init__, bind.
  destruct (match ti with
            | Some t => if str_truthy t then Ok t
                        else HTTPStatus_phrase (py_or int_truthy st 500)
            | None => HTTPStatus_phrase (py_or int_truthy st 500)
            end); [|discriminate].
  intros [= <-]; simpl; apply py_or_int_nonzero.
Qed.

(** [to_dict] as the concatenation of the entries of the truthy attributes,
    in the order of the assignments. *)
Lemma to_dict_entries (self : ProblemException) :
  to_dict self =
    (entry_if (str_truthy (type self)) "type" (PStr (type self))
     ++ entry_if (str_truthy (title self)) "title" (PStr (title self))
     ++ entry_if (int_truthy (status self)) "status" (PInt (status self))
     ++ opt_entry str_truthy PStr "detail" (detail self)
     ++ opt_entry str_truthy PStr "instance" (instance self)
     ++ opt_entry list_truthy PList "errors" (errors self))%list.
Proof.
  unfold to_dict, opt_entry, entry_if.
  attribute_cases self; reflexivity.
Qed.

Lemma to_dict_get_type self :
  dict_get (to_dict self) "type"
  = if str_truthy (type self) then Some (PStr (type self)) else None.
Proof.
  rewrite to_dict_entries; unfold opt_entry, entry_if.
  attribute_cases self; reflexivity.
Qed.

Lemma to_dict_get_title self :
  dict_get (to_dict self) "title"
  = if str_truthy (title self) then Some (PStr (title self)) else None.
Proof.
  rewrite to_dict_entries; unfold opt_entry, entry_if.
  attribute_cases self; reflexivity.
Qed.

Lemma to_dict_get_status self :
  dict_get (to_dict self) "status"
  = if int_truthy (status self) then Some (PInt (status self)) else None.
Proof.
  rewrite to_dict_entries; unfold opt_entry, entry_if.
  attribute_cases self; reflexivity.
Qed.

Lemma to_dict_get_detail self :
  dict_get (to_dict self) "detail"
  = match detail self with
    | Some s => if str_truthy s then Some (PStr s) else None
    | None => None
    end.
Proof.
  rewrite to_dict_entries; unfold opt_entry, entry_if.
  attribute_cases self; reflexivity.
Qed.

Lemma to_dict_get_instance self :
  dict_get (to_dict self) "instance"
  = match instance self with
    | Some s => if str_truthy s then Some (PStr s) else None
    | None => None
    end.
Proof.
  rewrite to_dict_entries; unfold opt_entry, entry_if.
  attribute_cases self; reflexivity.
Qed.

Lemma to_dict_get_errors self :
  dict_get (to_dict self) "errors"
  = match errors self with
    | Some l => if list_truthy l then Some (PList l) else None
    | None => None
    end.
Proof.
  rewrite to_dict_entries; unfold opt_entry, entry_if.
  attribute_cases self; reflexivity.
Qed.

(** No key other than the six attribute names is ever written. *)
Lemma to_dict_keys_incl self :
  incl (dict_keys (to_dict self))
       ["type"; "title"; "status"; "detail"; "instance"; "errors"].
Proof.
  rewrite to_dict_entries; unfold opt_entry, entry_if, dict_keys.
  attribute_cases self; simpl; intros k Hk; simpl in *; tauto.
Qed.

Lemma dict_get_app {V} (d1 d2 : list (string * V)) key :
  dict_get (d1 ++ d2)%list key
  = match dict_get d1 key with
    | Some v => Some v
    | None => dict_get d2 key
    end.
Proof.
  induction d1 as [|[k v] d1 IH]; simpl; [reflexivity|].
  destruct (k =? key)%string; auto.
Qed.

Lemma dict_get_entry_if present k v key :
  dict_get (entry_if present k v) key
  = if (present && (key =? k)%string)%bool then Some v else None.
Proof.
  unfold entry_if; destruct present; simpl; [|reflexivity].
  rewrite String.eqb_sym; destruct (key =? k)%string; reflexivity.
Qed.

Lemma dict_get_opt_entry {A} (t : A -> bool) inj k (field : option A) key :
  dict_get (opt_entry t inj k field) key
  = match field with
    | Some a => if (t a && (key =? k)%string)%bool then Some (inj a) else None
    | None => None
    end.
Proof.
  destruct field; simpl; [apply dict_get_entry_if|reflexivity].
Qed.

Lemma dict_get_not_in {V} (d : list (string * V)) key :
  ~ In key (dict_keys d) -> dict_get d key = None.
Proof.
  induction d as [|[k v] d IH]; simpl; [reflexivity|].
  intros H; destruct (String.eqb_spec k key) as [->|_]; [tauto|].
  apply IH; tauto.
Qed.

(** Every lookup in the rendered mapping: the attribute the key names when
    its value is non-empty, nothing otherwise. *)
Lemma to_dict_get (self : ProblemException) (key : string) :
  dict_get (to_dict self) key
  = if nonempty (attribute self key) then attribute self key else None.
Proof.
  unfold attribute.
  destruct (String.eqb_spec key "type") as [->|N1];
    [rewrite to_dict_get_type; reflexivity|].
  destruct (String.eqb_spec key "title") as [->|N2];
    [rewrite to_dict_get_title; reflexivity|].
  destruct (String.eqb_spec key "status") as [->|N3];
    [rewrite to_dict_get_status; reflexivity|].
  destruct (String.eqb_spec key "detail") as [->|N4];
    [rewrite to_dict_get_detail; destruct (detail self); reflexivity|].
  destruct (String.eqb_spec key "instance") as [->|N5];
    [rewrite to_dict_get_instance; destruct (instance self); reflexivity|].
  destruct (String.eqb_spec key "errors") as [->|N6];
    [rewrite to_dict_get_errors; destruct (errors self) as [[|]|]; reflexivity|].
  simpl; apply dict_get_not_in.
  intros Hin; apply to_dict_keys_incl in Hin; simpl in Hin.
  intuition congruence.
Qed.

Lemma only_status_to_dict (self : ProblemException) :
  only_status self = true ->
  to_dict self = entry_if (int_truthy (status self)) "status" (PInt (status self)).
Proof.
  unfold only_status; rewrite to_dict_entries; unfold opt_entry.
  destruct (str_truthy (type self)), (str_truthy (title self)); simpl;
    try discriminate.
  destruct (detail self) as [d|], (instance self) as [i|],
    (errors self) as [l|]; simpl;
    try destruct (str_truthy d); try destruct (str_truthy i);
    try destruct (list_truthy l); simpl; try discriminate;
    intros _; unfold entry_if; destruct (int_truthy (status self));
    reflexivity.
Qed.

(* ================================================================== *)
(** ** C6: omission of empty fields *)

(** C6, as stated, fails: [to_dict] guards [status] with [if self.status:]
    like every other attribute, so a record whose status is 0 renders
    without a status entry, where the claim has status always present. *)
Lemma C6_status_zero_is_omitted :
  only_status emptied_problem = true
  /\ to_dict emptied_problem = []
  /\ dict_get (to_dict emptied_problem) "status" = None
  /\ rendered_field emptied_problem "status" = Some (PInt 0).
Proof. repeat split. Qed.

(** C6 (amended): for every record whose status is not zero, the rendered
    mapping holds exactly the fields whose values are non-empty, and status;
    such a record whose type, title, detail, instance and errors are all
    empty renders as the single entry status.  The constructor never leaves
    status at zero (see [init_status_nonzero]). *)
Theorem C6_to_dict_omits_empty_fields (self : ProblemException) :
  status self <> 0 ->
  (forall key, dict_get (to_dict self) key = rendered_field self key)
  /\ incl (dict_keys (to_dict self))
          ["type"; "title"; "status"; "detail"; "instance"; "errors"]
  /\ (only_status self = true ->
      to_dict self = [("status", PInt (status self))]).
Proof.
  intros Hstatus.
  assert (Htruthy : int_truthy (status self) = true).
  { destruct (int_truthy (status self)) eqn:E; [reflexivity|].
    apply int_truthy_false in E; contradiction. }
  split; [|split].
  - intros key; unfold rendered_field.
    destruct (String.eqb_spec key "status") as [->|_];
      [rewrite to_dict_get_status, Htruthy; reflexivity|apply to_dict_get].
  - apply to_dict_keys_incl.
  - intros Honly; rewrite (only_status_to_dict _ Honly), Htruthy; reflexivity.
Qed.

Lemma C6_to_dict_omits_empty_fields_witness :
  to_dict service_unavailable_only = [("status", PInt 503)].
Proof.
  apply (C6_to_dict_omits_empty_fields service_unavailable_only).
  - discriminate.
  - reflexivity.
Defined.

(* ================================================================== *)
(** ** C3: domain exceptions *)

(** C3: [from_domain_exception] maps a ValidationFailureError to 400, a
    NotFoundError to 404, a ConflictValueError to 409 and any other
    exception to 500; the problem it builds has the exception's string as
    detail and the supplied identifier as instance, and the response it
    returns carries that status and the bytes of that problem. *)
Theorem C3_from_domain_exception (exc : DomainException) (inst : string) :
  exists p,
    domain_problem exc inst = Ok p
    /\ from_domain_exception exc inst = Ok (to_response p)
    /\ status p = match domain_class exc with
                  | ValidationFailureError => 400
                  | NotFoundError => 404
                  | ConflictValueError => 409
                  | OtherException => 500
                  end
    /\ detail p = Some (domain_str exc)
    /\ instance p = Some inst
    /\ status_code (to_response p) = status p
    /\ body (to_response p) = to_bytes p.
Proof.
  unfold from_domain_exception, domain_problem, http_status.
  destruct exc as [[] msg]; simpl;
    eexists; repeat split; reflexivity.
Qed.

(* ================================================================== *)
(** ** C4: the uncaught branch *)

(** The entries of the [ErrorLogRecord], without those whose value is the
    empty string. *)
Lemma BaseLogRecord_to_dict_entries (r : ErrorLogRecord) :
  BaseLogRecord_to_dict r =
    (entry_if (str_truthy (exception_type r)) "exception_type"
              (PStr (exception_type r))
     ++ entry_if (str_truthy (exception_message r)) "exception_message"
                 (PStr (exception_message r))
     ++ entry_if (str_truthy (exception_stack_trace r)) "exception_stack_trace"
                 (PStr (exception_stack_trace r)))%list.
Proof.
  unfold BaseLogRecord_to_dict, asdict, entry_if, str_truthy; simpl.
  destruct (exception_type r =? EmptyString)%string,
    (exception_message r =? EmptyString)%string,
    (exception_stack_trace r =? EmptyString)%string; reflexivity.
Qed.

(** C4, as stated, fails: [BaseLogRecord.to_dict] drops every entry whose
    value is the empty string, so an exception raised without a message
    ([assert False], [raise ValueError()]) yields an errors entry with no
    exception_message key. *)
Lemma C4_empty_message_is_dropped :
  render_problem widgets_1 (AnException assertion_error)
  = Ok {| type := "exception:uncaught";
          status := 500;
          title := "Internal Server Error";
          detail := Some "Uncaught exception occurred while processing the request.";
          instance := Some "/widgets/1";
          errors := Some [ PDict [ ("exception_type", PStr "AssertionError");
                                   ("exception_stack_trace",
                                    PStr (exc_stack_trace assertion_error)) ] ] |}
  /\ match render_problem widgets_1 (AnException assertion_error) with
     | Ok p =>
         match errors p with
         | Some [PDict entry] =>
             dict_get entry "exception_message" = None
             /\ dict_keys entry = ["exception_type"; "exception_stack_trace"]
         | _ => False
         end
     | Raise _ => False
     end.
Proof. repeat split. Qed.

Lemma as_uncaught_exception_value (request : Request) (exc : PyException) :
  as_uncaught_exception exc request
  = Ok {| type := "exception:uncaught";
          status := 500;
          title := "Internal Server Error";
          detail := Some "Uncaught exception occurred while processing the request.";
          instance := Some (url_path request);
          errors :=
            Some [ PDict
                     (entry_if (str_truthy (exc_class_name exc))
                               "exception_type" (PStr (exc_class_name exc))
                      ++ entry_if (str_truthy (exc_str exc))
                                  "exception_message" (PStr (exc_str exc))
                      ++ entry_if (str_truthy (exc_stack_trace exc))
                                  "exception_stack_trace"
                                  (PStr (exc_stack_trace exc)))%list ] |}.
Proof.
  unfold as_uncaught_exception.
  rewrite BaseLogRecord_to_dict_entries; reflexivity.
Qed.

(** C4 (amended): every fault that reaches the uncaught branch yields the
    problem of type exception:uncaught, status 500, title Internal Server
    Error, the fixed detail, the request path as instance, and one errors
    entry holding, in this order, exception_type (class name),
    exception_message (string of the fault) and exception_stack_trace
    (formatted trace), each present exactly when its value is not the empty
    string; when none of the three is empty the entry has all three keys. *)
Theorem C4_uncaught_exception (request : Request) (exc : PyException) :
  render_problem request (AnException exc) = as_uncaught_exception exc request
  /\ as_uncaught_exception exc request
     = Ok {| type := "exception:uncaught";
             status := 500;
             title := "Internal Server Error";
             detail := Some "Uncaught exception occurred while processing the request.";
             instance := Some (url_path request);
             errors :=
               Some [ PDict
                        (entry_if (str_truthy (exc_class_name exc))
                                  "exception_type" (PStr (exc_class_name exc))
                         ++ entry_if (str_truthy (exc_str exc))
                                     "exception_message" (PStr (exc_str exc))
                         ++ entry_if (str_truthy (exc_stack_trace exc))
                                     "exception_stack_trace"
                                     (PStr (exc_stack_trace exc)))%list ] |}
  /\ (exc_class_name exc <> EmptyString ->
      exc_str exc <> EmptyString ->
      exc_stack_trace exc <> EmptyString ->
      as_uncaught_exception exc request
      = Ok {| type := "exception:uncaught";
              status := 500;
              title := "Internal Server Error";
              detail := Some "Uncaught exception occurred while processing the request.";
              instance := Some (url_path request);
              errors :=
                Some [ PDict [ ("exception_type", PStr (exc_class_name exc));
                               ("exception_message", PStr (exc_str exc));
                               ("exception_stack_trace",
                                PStr (exc_stack_trace exc)) ] ] |}).
Proof.
  pose proof (as_uncaught_exception_value request exc) as E.
  split; [reflexivity|split; [exact E|]].
  intros H1 H2 H3; rewrite E.
  destruct (str_truthy (exc_class_name exc)) eqn:E1;
    [|apply str_truthy_false in E1; contradiction].
  destruct (str_truthy (exc_str exc)) eqn:E2;
    [|apply str_truthy_false in E2; contradiction].
  destruct (str_truthy (exc_stack_trace exc)) eqn:E3;
    [|apply str_truthy_false in E3; contradiction].
  reflexivity.
Qed.

Lemma C4_uncaught_exception_witness :
  as_uncaught_exception boom widgets_1
  = Ok {| type := "exception:uncaught";
          status := 500;
          title := "Internal Server Error";
          detail := Some "Uncaught exception occurred while processing the request.";
          instance := Some "/widgets/1";
          errors :=
            Some [ PDict [ ("exception_type", PStr "RuntimeError");
                           ("exception_message", PStr "boom");
                           ("exception_stack_trace",
                            PStr (exc_stack_trace boom)) ] ] |}.
Proof.
  apply (C4_uncaught_exception widgets_1 boom); discriminate.
Defined.

(* ================================================================== *)
(** ** C5: request validation errors *)

(** C5, as stated, fails at N = 0: the errors list is empty, [to_dict]
    guards it with [if self.errors:], and the rendered mapping has no errors
    array at all. *)
Lemma C5_no_violation_no_errors_array :
  match as_request_validation_error [] widgets_1 with
  | Ok p =>
      errors p = Some []
      /\ dict_get (to_dict p) "errors" = None
      /\ dict_keys (to_dict p) = ["type"; "title"; "status"; "detail"; "instance"]
  | Raise _ => False
  end.
Proof. repeat split. Qed.

(** C5 (amended): a request-validation fault with N violation entries
    yields the problem of type exception:validation, title Validation Error,
    status 422, the fixed detail, the request path as instance and the N
    entries, verbatim and in order, as errors; the rendered mapping has
    status 422 and, when N >= 1, an errors array of exactly these N entries;
    when N = 0 it has no errors key. *)
Theorem C5_request_validation_error (request : Request) (violations : list pyval) :
  render_problem request (ARequestValidationError violations)
  = Ok (validation_problem request violations)
  /\ as_request_validation_error violations request
     = Ok (validation_problem request violations)
  /\ errors (validation_problem request violations) = Some violations
  /\ dict_get (to_dict (validation_problem request violations)) "status"
     = Some (PInt 422)
  /\ (violations <> [] ->
      exists rendered,
        dict_get (to_dict (validation_problem request violations)) "errors"
        = Some (PList rendered)
        /\ List.length rendered = List.length violations
        /\ forall i, nth_error rendered i = nth_error violations i)
  /\ (violations = [] ->
      dict_get (to_dict (validation_problem request violations)) "errors" = None).
Proof.
  assert (E : as_request_validation_error violations request
              = Ok (validation_problem request violations)).
  { unfold as_request_validation_error; rewrite map_id; reflexivity. }
  split; [exact E|]. split; [exact E|].
  split; [reflexivity|].
  split; [rewrite to_dict_get_status; reflexivity|].
  rewrite to_dict_get_errors; simpl.
  split.
  - intros Hne; exists violations.
    destruct violations; [contradiction|]. repeat split.
  - intros ->; reflexivity.
Qed.

Lemma C5_request_validation_error_witness :
  exists rendered,
    dict_get (to_dict (validation_problem widgets_1 two_violations)) "errors"
    = Some (PList rendered)
    /\ List.length rendered = 2%nat
    /\ forall i, nth_error rendered i = nth_error two_violations i.
Proof.
  apply (C5_request_validation_error widgets_1 two_violations).
  discriminate.
Defined.

(* ================================================================== *)
(** ** C8: a [ProblemException] handed to [render] *)

(** C8: [render] takes a [ProblemException] as it is: every attribute is
    unchanged, the instance too.  Where the instance is absent it stays
    absent, and the rendered mapping has no instance entry; the request path
    is not filled in on this branch, as [as_dict] does on its own. *)
Theorem C8_problem_exception_passes_through
    (request : Request) (p : ProblemException) :
  render_problem request (AProblemException p) = Ok p
  /\ render request (AProblemException p) = Ok (to_bytes p, status p, p)
  /\ (opt_truthy str_truthy (instance p) = false ->
      dict_get (to_dict p) "instance" = None).
Proof.
  repeat split.
  intros H; rewrite to_dict_get_instance.
  destruct (instance p) as [i|]; [|reflexivity].
  simpl in H; rewrite H; reflexivity.
Qed.

Lemma C8_problem_exception_passes_through_witness :
  render_problem widgets_1 (AProblemException kill_switch_problem)
  = Ok kill_switch_problem
  /\ instance kill_switch_problem = None
  /\ dict_get (to_dict kill_switch_problem) "instance" = None.
Proof.
  split; [|split; [reflexivity|]].
  - apply (C8_problem_exception_passes_through widgets_1 kill_switch_problem).
  - apply (C8_problem_exception_passes_through widgets_1 kill_switch_problem).
    reflexivity.
Defined.

(* ================================================================== *)
(** ** C2: when classification raises *)

Lemma HTTPStatus_phrase_known (code : Z) :
  known_status code = true -> exists phrase, HTTPStatus_phrase code = Ok phrase.
Proof.
  unfold known_status, HTTPStatus_phrase.
  destruct (assoc_Z HTTPStatus_table code) as [phrase|]; [|discriminate].
  intros _; exists phrase; reflexivity.
Qed.

Lemma HTTPStatus_phrase_unknown (code : Z) :
  known_status code = false -> HTTPStatus_phrase code = Raise (ValueError code).
Proof.
  unfold known_status, HTTPStatus_phrase.
  destruct (assoc_Z HTTPStatus_table code); [discriminate|reflexivity].
Qed.

Lemma as_http_exception_unknown_status
    (code : Z) (text : option string) (request : Request)
    (errs : option (list pyval)) :
  known_status (py_or int_truthy (Some code) 500) = false ->
  as_http_exception code text request errs
  = Raise (ValueError (py_or int_truthy (Some code) 500)).
Proof.
  intros K; unfold as_http_exception, ProblemException__init__, bind.
  rewrite (HTTPStatus_phrase_unknown _ K); reflexivity.
Qed.

Lemma as_dict_unexpected (data : pydict) (request : Request) (key : string) :
  In key (dict_keys data) -> is_parameter key = false ->
  exists k, In k (dict_keys data) /\ is_parameter k = false
            /\ as_dict data request = Raise (TypeError k).
Proof.
  intros Hin Hkey; unfold as_dict, ProblemException_kwargs.
  destruct (find (fun key => negb (is_parameter key)) (dict_keys data))
    as [k|] eqn:F.
  - apply find_some in F; destruct F as [Hk Hp].
    exists k; repeat split; [assumption|].
    destruct (is_parameter k); [discriminate|reflexivity].
  - apply (find_none _ _ F) in Hin; rewrite Hkey in Hin; discriminate.
Qed.

(** C2: [ProblemResponse.render] does raise while it classifies, on two
    kinds of fault, for every request.  For an HTTP-level fault whose status
    code (500 when it is 0) is no member of [http.HTTPStatus],
    [as_http_exception] passes no title, the constructor looks the default
    title up with [http.HTTPStatus(self.status).phrase], and the lookup
    raises ValueError on that status.  For a generic mapping with a key
    that names no parameter of the constructor, [ProblemException(...)]
    called with the mapping as keyword arguments raises TypeError on the
    first such key.  In both cases [render] returns no bytes,
    [ProblemResponse(request, exc)] raises the same exception and so does
    the exception handler registered without hooks: no problem is
    produced. *)
Theorem C2_render_raises (request : Request) :
  (forall code text,
      known_status (py_or int_truthy (Some code) 500) = false ->
      render request (AnHTTPException code text)
      = Raise (ValueError (py_or int_truthy (Some code) 500))
      /\ ProblemResponse__init__ request (AnHTTPException code text)
         = Raise (ValueError (py_or int_truthy (Some code) 500))
      /\ snd (exception_handler None None request (AnHTTPException code text))
         = Raise (ValueError (py_or int_truthy (Some code) 500)))
  /\ (forall data key,
        In key (dict_keys data) -> is_parameter key = false ->
        exists k,
          In k (dict_keys data) /\ is_parameter k = false
          /\ render request (ADict data) = Raise (TypeError k)
          /\ ProblemResponse__init__ request (ADict data) = Raise (TypeError k)
          /\ snd (exception_handler None None request (ADict data))
             = Raise (TypeError k)).
Proof.
  split.
  - intros code text K.
    unfold exception_handler, ProblemResponse__init__, render, render_problem.
    rewrite (as_http_exception_unknown_status code text request None K).
    repeat split.
  - intros data key Hin Hkey.
    destruct (as_dict_unexpected data request key Hin Hkey)
      as (k & Hk & Hp & E).
    exists k.
    unfold exception_handler, ProblemResponse__init__, render, render_problem.
    rewrite E; repeat split; assumption.
Qed.

Lemma C2_render_raises_witness :
  render widgets_1 http_600 = Raise (ValueError 600)
  /\ ProblemResponse__init__ widgets_1 http_600 = Raise (ValueError 600)
  /\ exists k,
       In k (dict_keys extra_key_mapping) /\ is_parameter k = false
       /\ render widgets_1 (ADict extra_key_mapping) = Raise (TypeError k).
Proof.
  destruct (proj1 (C2_render_raises widgets_1) 600 (Some "upstream said 600")
                  eq_refl) as (R & I & _).
  split; [exact R|split; [exact I|]].
  destruct (proj2 (C2_render_raises widgets_1) extra_key_mapping "widget")
    as (k & Hk & Hp & E & _).
  - simpl; tauto.
  - reflexivity.
  - exists k; repeat split; assumption.
Defined.

(* ================================================================== *)
(** ** C9: a generic mapping *)

Lemma ProblemException_kwargs_unexpected (data : pydict) (key : string) :
  In key (dict_keys data) -> is_parameter key = false ->
  exists k, In k (dict_keys data) /\ is_parameter k = false
            /\ ProblemException_kwargs data = Raise (TypeError k).
Proof.
  intros Hin Hkey; unfold ProblemException_kwargs.
  destruct (find (fun key => negb (is_parameter key)) (dict_keys data))
    as [k|] eqn:F.
  - apply find_some in F; destruct F as [Hk Hp].
    exists k; repeat split; [assumption|].
    destruct (is_parameter k); [discriminate|reflexivity].
  - apply (find_none _ _ F) in Hin; rewrite Hkey in Hin; discriminate.
Qed.

(** C9: what [as_dict] does on a mapping that carries a key which is no
    parameter of [ProblemException.__init__] (any key outside _type, title,
    status, detail, instance, errors; the RFC 7807 member name type is one):
    passing the mapping as keyword arguments raises TypeError, no problem is
    built and nothing of the mapping is preserved. *)
Theorem C9_unrecognised_key_raises
    (data : pydict) (request : Request) (key : string) :
  In key (dict_keys data) -> is_parameter key = false ->
  exists k, In k (dict_keys data) /\ is_parameter k = false
            /\ as_dict data request = Raise (TypeError k)
            /\ render_problem request (ADict data) = Raise (TypeError k).
Proof.
  intros Hin Hkey.
  destruct (ProblemException_kwargs_unexpected data key Hin Hkey)
    as (k & Hk & Hp & E).
  exists k; unfold render_problem, as_dict; rewrite E; repeat split; assumption.
Qed.

Lemma C9_unrecognised_key_raises_witness :
  exists k, In k (dict_keys extra_key_mapping) /\ is_parameter k = false
            /\ as_dict extra_key_mapping widgets_1 = Raise (TypeError k)
            /\ render_problem widgets_1 (ADict extra_key_mapping)
               = Raise (TypeError k).
Proof.
  apply (C9_unrecognised_key_raises extra_key_mapping widgets_1 "widget").
  - simpl; tauto.
  - reflexivity.
Defined.

(** The two sample mappings, evaluated: the extra key and the RFC 7807
    member name [type] are both refused. *)
Lemma as_dict_sample_mappings :
  as_dict extra_key_mapping widgets_1 = Raise (TypeError "widget")
  /\ as_dict type_key_mapping widgets_1 = Raise (TypeError "type").
Proof. split; reflexivity. Qed.

(** On a mapping of recognised keys the constructor is called with them and
    the absent instance is filled with the request path. *)
Lemma as_dict_recognised_mapping :
  kwargs_typed recognised_mapping = true
  /\ as_dict recognised_mapping widgets_1
     = Ok {| type := "exception:problem";
             status := 404;
             title := "Not Found";
             detail := Some "No such widget.";
             instance := Some "/widgets/1";
             errors := None |}.
Proof. split; reflexivity. Qed.

(* ================================================================== *)
(** ** C10: hooks *)

(** Hooks that all return are called one after the other, in list order. *)
Lemma for_hook_in_returns {Args} (hooks : list (Hook Args)) (args : Args) :
  (forall hook, In hook hooks -> hook_call hook args = Ok tt) ->
  for_hook_in hooks args = (hook_calls hooks, Ok tt).
Proof.
  induction hooks as [|hook rest IH]; intros Hall; [reflexivity|].
  simpl for_hook_in.
  rewrite (Hall hook (or_introl eq_refl)).
  rewrite IH by (intros h Hh; apply Hall; right; exact Hh).
  destruct (iscoroutinefunction hook); reflexivity.
Qed.

(** The first hook that raises ends the loop: the hooks before it were
    called, the hooks after it are not, and its exception leaves the loop. *)
Lemma for_hook_in_raises {Args} (before : list (Hook Args)) hook after
    (args : Args) (e : PyError) :
  (forall h, In h before -> hook_call h args = Ok tt) ->
  hook_call hook args = Raise e ->
  for_hook_in (before ++ hook :: after)%list args
  = ((hook_calls before ++ [HookCalled (hook_name hook)])%list, Raise e).
Proof.
  induction before as [|h rest IH]; intros Hall Hraise.
  - simpl; rewrite Hraise; destruct (iscoroutinefunction hook); reflexivity.
  - simpl for_hook_in.
    rewrite (Hall h (or_introl eq_refl)).
    rewrite IH by (try assumption; intros h' Hh'; apply Hall; right; exact Hh').
    destruct (iscoroutinefunction h); reflexivity.
Qed.

Lemma exec_hooks_for {Args} (hooks : option (list (Hook Args))) (args : Args) :
  exec_hooks hooks args = for_hook_in (registered hooks) args.
Proof.
  unfold exec_hooks, registered.
  destruct hooks as [[|hook rest]|]; reflexivity.
Qed.

(** When no hook raises: the pre-hooks in registration order, then the
    problem response, then the post-hooks in registration order, and the
    handler returns the response. *)
Lemma exception_handler_order pre_hooks post_hooks request exc response :
  (forall hook, In hook (registered pre_hooks) ->
                hook_call hook (request, exc) = Ok tt) ->
  ProblemResponse__init__ request exc = Ok response ->
  (forall hook, In hook (registered post_hooks) ->
                hook_call hook (request, response, exc) = Ok tt) ->
  exception_handler pre_hooks post_hooks request exc
  = ((hook_calls (registered pre_hooks) ++ [ProblemRendered]
      ++ hook_calls (registered post_hooks))%list, Ok response).
Proof.
  intros Hpre Hinit Hpost; unfold exception_handler.
  rewrite exec_hooks_for.
  rewrite (for_hook_in_returns _ _ Hpre); simpl tbind.
  rewrite Hinit; simpl.
  rewrite exec_hooks_for, (for_hook_in_returns _ _ Hpost); simpl.
  rewrite List.app_nil_r; reflexivity.
Qed.

(** C10: what [exception_handler] does when a registered pre-hook raises.
    [exec_hooks] calls the hooks inside a plain [for] loop, with no [try]
    around the call, so the exception of the hook ends the loop and leaves
    the handler: the hooks before it were called in registration order,
    the later hooks are not called, no problem response is built, and the
    handler raises the exception of the hook instead of returning. *)
Theorem C10_raising_pre_hook_propagates
    (before : list PreHook) (hook : PreHook) (after : list PreHook)
    (post_hooks : option (list PostHook))
    (request : Request) (exc : Content) (e : PyError) :
  (forall h, In h before -> hook_call h (request, exc) = Ok tt) ->
  hook_call hook (request, exc) = Raise e ->
  exception_handler (Some (before ++ hook :: after)%list) post_hooks request exc
  = ((hook_calls before ++ [HookCalled (hook_name hook)])%list, Raise e).
Proof.
  intros Hbefore Hraise; unfold exception_handler.
  rewrite exec_hooks_for; unfold registered at 1.
  rewrite (for_hook_in_raises before hook after _ e Hbefore Hraise).
  reflexivity.
Qed.

Lemma C10_raising_pre_hook_propagates_witness :
  exception_handler (Some [count_errors; log_to_sink]) (Some [audit_response])
                    widgets_1 (AnException boom)
  = ([HookCalled "count_errors"; HookCalled "log_to_sink"], Raise (Raised boom)).
Proof.
  apply (C10_raising_pre_hook_propagates [count_errors] log_to_sink []
           (Some [audit_response]) widgets_1 (AnException boom) (Raised boom)).
  - intros h [<-|[]]; reflexivity.
  - reflexivity.
Defined.

(** The same for a post-hook: the response was built, and is lost. *)
Lemma raising_post_hook_propagates
    pre_hooks (before : list PostHook) hook after request exc response e :
  (forall h, In h (registered pre_hooks) -> hook_call h (request, exc) = Ok tt) ->
  ProblemResponse__init__ request exc = Ok response ->
  (forall h, In h before -> hook_call h (request, response, exc) = Ok tt) ->
  hook_call hook (request, response, exc) = Raise e ->
  exception_handler pre_hooks (Some (before ++ hook :: after)%list) request exc
  = ((hook_calls (registered pre_hooks) ++ [ProblemRendered]
      ++ hook_calls before ++ [HookCalled (hook_name hook)])%list, Raise e).
Proof.
  intros Hpre Hinit Hbefore Hraise; unfold exception_handler.
  rewrite exec_hooks_for.
  rewrite (for_hook_in_returns _ _ Hpre); simpl tbind.
  rewrite Hinit; simpl.
  rewrite exec_hooks_for; unfold registered at 1.
  rewrite (for_hook_in_raises before hook after _ e Hbefore Hraise).
  reflexivity.
Qed.

(* ================================================================== *)
(** ** C1: the middleware *)

Section MiddlewareFacts.

Context {Exc : Type}.

(** After the application's sends, [response_started] holds exactly when
    it held before or one of the messages starts a response; each message
    went downstream once, in order. *)
Lemma app_sends_spec (messages : list Message) (started : bool) :
  app_sends messages started
  = (started || existsb is_response_start messages, map Sent messages).
Proof.
  revert started; induction messages as [|m rest IH]; intros started; simpl.
  - rewrite orb_false_r; reflexivity.
  - rewrite IH; unfold is_response_start.
    destruct (message_type m =? "http.response.start")%string;
      destruct started; reflexivity.
Qed.

Lemma response_starts_map_Sent (messages : list Message) :
  response_starts (map Sent messages) = filter is_response_start messages.
Proof.
  induction messages as [|m rest IH]; simpl; [reflexivity|].
  rewrite <- IH; unfold response_starts; simpl.
  destruct (is_response_start m); reflexivity.
Qed.

Lemma filter_none {A} (f : A -> bool) (l : list A) :
  existsb f l = false -> filter f l = [].
Proof.
  induction l as [|a l IH]; simpl; [reflexivity|].
  destruct (f a); simpl; [discriminate|exact IH].
Qed.

Lemma response_starts_Handling (events : list Event) :
  response_starts (map Handling events) = [].
Proof. induction events; simpl; auto. Qed.

Lemma response_starts_app (t1 t2 : list Effect) :
  response_starts (t1 ++ t2)%list
  = (response_starts t1 ++ response_starts t2)%list.
Proof. unfold response_starts; apply flat_map_app. Qed.

(** When the handler returns a response, the application's messages, the
    events of the handler and the messages of the response follow each
    other, and the exception the application raised is raised again. *)
Lemma middleware_handler_returns
    (app : ASGIApp Exc) (handler : ExceptionHandler Exc) (scope : Scope)
    (messages : list Message) (exc : Exc) events response :
  app scope = (messages, RaisesException exc) ->
  scope_type scope = "http" ->
  existsb is_response_start messages = false ->
  handler (Request_of_scope scope) exc = (events, Ok response) ->
  UnhandledExceptionsMiddleware__call__ app handler scope
  = ((map Sent messages ++ map Handling events
      ++ map Sent (Response__call__ response))%list,
     Ends (RaisesException exc)).
Proof.
  intros Happ Hhttp Hnone Hhandler; unfold UnhandledExceptionsMiddleware__call__.
  rewrite Happ, app_sends_spec, Hhttp, Hnone, Hhandler; reflexivity.
Qed.


(** An application that returns, or that raises outside the class
    [Exception], is not interfered with on any scope. *)
Lemma middleware_transparent
    (app : ASGIApp Exc) (handler : ExceptionHandler Exc) (scope : Scope)
    (messages : list Message) (t : Termination Exc) :
  app scope = (messages, t) ->
  (forall exc, t <> RaisesException exc) ->
  UnhandledExceptionsMiddleware__call__ app handler scope
  = (map Sent messages, Ends t).
Proof.
  intros Happ Hother; unfold UnhandledExceptionsMiddleware__call__.
  rewrite Happ, app_sends_spec.
  destruct (negb (scope_type scope =? "http")%string); [reflexivity|].
  destruct t as [|exc|name]; try reflexivity.
  exfalso; exact (Hother exc eq_refl).
Qed.

End MiddlewareFacts.



(** With the handler [problem_configurator.init] registers and no hooks, an
    uncaught exception raised before the response started is answered by
    the problem response of status 500, and raised again. *)
Lemma middleware_answers_uncaught_exception
    (app : ASGIApp Content) (scope : Scope) (messages : list Message)
    (exc : PyException) :
  app scope = (messages, RaisesException (AnException exc)) ->
  scope_type scope = "http" ->
  existsb is_response_start messages = false ->
  exists p,
    as_uncaught_exception exc (Request_of_scope scope) = Ok p
    /\ UnhandledExceptionsMiddleware__call__
         app (problem_exception_handler_provider None None) scope
       = ((map Sent messages ++ [Handling ProblemRendered]
           ++ map Sent (Response__call__ (to_response p)))%list,
          Ends (RaisesException (AnException exc))).
Proof.
  intros Happ Hhttp Hnone.
  pose proof (as_uncaught_exception_value (Request_of_scope scope) exc) as E.
  eexists; split; [exact E|].
  apply (middleware_handler_returns app _ scope messages _
           [ProblemRendered] (to_response _) Happ Hhttp Hnone).
  unfold problem_exception_handler_provider, exception_handler,
    ProblemResponse__init__, render, render_problem.
  rewrite E; reflexivity.
Qed.

(* ================================================================== *)
(** ** C7: decoding the rendered bytes *)

(** *** Strings *)

Lemma append_assoc (s1 s2 s3 : string) : (s1 ++ s2) ++ s3 = s1 ++ (s2 ++ s3).
Proof. induction s1 as [|c s1 IH]; simpl; [reflexivity|rewrite IH; reflexivity]. Qed.

Lemma append_empty_r (s : string) : s ++ EmptyString = s.
Proof. induction s as [|c s IH]; simpl; [reflexivity|rewrite IH; reflexivity]. Qed.

Lemma length_append (s1 s2 : string) :
  String.length (s1 ++ s2) = (String.length s1 + String.length s2)%nat.
Proof. induction s1 as [|c s1 IH]; simpl; [reflexivity|rewrite IH; reflexivity]. Qed.

(** The decoder reads an escaped character back as the character. *)
Lemma scanstring_escape_char (c : ascii) (tail : string) :
  scanstring (escape_char c ++ tail)
  = cons_result (String c EmptyString) (scanstring tail).
Proof.
  destruct c as [[] [] [] [] [] [] [] []]; reflexivity.
Qed.

(** The text between the quotes of [encode_basestring] decodes to the
    string, and the decoder stops after the closing quote. *)
Lemma scanstring_escape (s rest : string) :
  scanstring (escape s ++ String dquote rest) = Some (s, rest).
Proof.
  induction s as [|c s IH]; [reflexivity|].
  simpl escape; rewrite append_assoc, scanstring_escape_char, IH.
  reflexivity.
Qed.

(** *** Integers *)

Lemma delimited_no_digit (rest : string) :
  delimited rest = true ->
  match rest with
  | EmptyString => True
  | String c _ => digit_of_char c = None
  end.
Proof.
  destruct rest as [|c r]; [trivial|]; unfold delimited.
  destruct (Ascii.eqb_spec c ",") as [->|_]; [reflexivity|].
  destruct (Ascii.eqb_spec c "]") as [->|_]; [reflexivity|].
  destruct (Ascii.eqb_spec c "}") as [->|_]; [reflexivity|discriminate].
Qed.

Lemma delimited_not_continued (rest : string) :
  delimited rest = true -> continues_number rest = false.
Proof.
  destruct rest as [|c r]; [reflexivity|]; unfold delimited, continues_number.
  destruct (Ascii.eqb_spec c ",") as [->|_]; [reflexivity|].
  destruct (Ascii.eqb_spec c "]") as [->|_]; [reflexivity|].
  destruct (Ascii.eqb_spec c "}") as [->|_]; [reflexivity|discriminate].
Qed.

(** The digits of a decimal number are read back up to the first
    character that is no digit. *)
Lemma take_digits_string_of_uint (d : uint) (rest : string) :
  match rest with
  | EmptyString => True
  | String c _ => digit_of_char c = None
  end ->
  take_digits (NilEmpty.string_of_uint d ++ rest) = (d, rest).
Proof.
  intros Hrest; induction d; simpl; try (rewrite IHd; reflexivity).
  destruct rest as [|c r]; [reflexivity|]; simpl; rewrite Hrest; reflexivity.
Qed.

Lemma unorm_leading_zero (d : uint) :
  match unorm d with
  | D0 d' => d' = Nil
  | _ => True
  end.
Proof. induction d; simpl; auto. Qed.

Lemma to_uint_normal (p : positive) : unorm (Pos.to_uint p) = Pos.to_uint p.
Proof.
  rewrite <- DecimalPos.Unsigned.to_of, DecimalPos.Unsigned.of_to.
  reflexivity.
Qed.

(** The decimal digits of a positive number: at least one, the first not 0. *)
Lemma to_uint_leading (p : positive) :
  match Pos.to_uint p with
  | Nil | D0 _ => False
  | _ => True
  end.
Proof.
  pose proof (unorm_leading_zero (Pos.to_uint p)) as H.
  pose proof (DecimalPos.Unsigned.to_uint_nonzero p) as Hz.
  pose proof (DecimalPos.Unsigned.to_uint_nonnil p) as Hn.
  rewrite to_uint_normal in H.
  destruct (Pos.to_uint p); try exact I; congruence.
Qed.

Lemma scan_digits_to_uint (p : positive) (rest : string) :
  delimited rest = true ->
  scan_digits (NilEmpty.string_of_uint (Pos.to_uint p) ++ rest)
  = Some (Pos.to_uint p, rest).
Proof.
  intros Hrest; apply delimited_no_digit in Hrest.
  pose proof (to_uint_leading p) as Hlead.
  destruct (Pos.to_uint p) as [|d|d|d|d|d|d|d|d|d|d]; try contradiction;
    simpl; rewrite (take_digits_string_of_uint d rest Hrest); reflexivity.
Qed.

Lemma string_of_uint_to_uint (p : positive) :
  NilZero.string_of_uint (Pos.to_uint p)
  = NilEmpty.string_of_uint (Pos.to_uint p).
Proof.
  pose proof (to_uint_leading p) as Hlead.
  destruct (Pos.to_uint p); try contradiction; reflexivity.
Qed.

Lemma of_uint_to_uint (p : positive) : Z.of_uint (Pos.to_uint p) = Z.pos p.
Proof.
  unfold Z.of_uint; rewrite DecimalPos.Unsigned.of_to; reflexivity.
Qed.

(** The first character of a positive number's digits is a digit other
    than the characters [scan_once] dispatches on. *)
Lemma string_of_uint_head (p : positive) :
  exists c s, NilEmpty.string_of_uint (Pos.to_uint p) = String c s
              /\ In c ["1"; "2"; "3"; "4"; "5"; "6"; "7"; "8"; "9"]%char.
Proof.
  pose proof (to_uint_leading p) as Hlead.
  destruct (Pos.to_uint p) as [|d|d|d|d|d|d|d|d|d|d]; try contradiction;
    simpl; eexists; eexists; (split; [reflexivity|]); simpl; tauto.
Qed.

(** [scan_number] reads the text of an integer back. *)
Lemma scan_number_int_repr (n : Z) (rest : string) :
  delimited rest = true ->
  scan_number (int_repr n ++ rest) = Some (PInt n, rest).
Proof.
  intros Hrest; pose proof (delimited_not_continued rest Hrest) as Hcont.
  unfold int_repr; destruct n as [|p|p]; simpl Z.to_int.
  - change (scan_number (String "0" rest) = Some (PInt 0, rest)).
    unfold scan_number; cbn -[continues_number].
    rewrite Hcont; reflexivity.
  - unfold NilZero.string_of_int; rewrite string_of_uint_to_uint.
    destruct (string_of_uint_head p) as (c & s & E & Hc).
    pose proof (scan_digits_to_uint p rest Hrest) as Hscan.
    unfold scan_number; rewrite E in *; cbn [append] in *; cbv beta iota.
    replace (c =? "-")%char with false
      by (simpl in Hc; intuition (subst; reflexivity)).
    rewrite Hscan, Hcont, of_uint_to_uint; reflexivity.
  - unfold NilZero.string_of_int; rewrite string_of_uint_to_uint.
    unfold scan_number; cbn -[continues_number scan_digits].
    rewrite (scan_digits_to_uint p rest Hrest), Hcont, of_uint_to_uint.
    reflexivity.
Qed.

(** *** Values *)

(** Induction over values, with the hypothesis on every item of a list or
    a tuple and on every value of a dict. *)
Lemma pyval_induction (P : pyval -> Prop) :
  P PNone ->
  (forall b, P (PBool b)) ->
  (forall n, P (PInt n)) ->
  (forall s, P (PStr s)) ->
  (forall items, Forall P items -> P (PList items)) ->
  (forall items, Forall P items -> P (PTuple items)) ->
  (forall entries, Forall (fun kv => P (snd kv)) entries -> P (PDict entries)) ->
  forall v, P v.
Proof.
  intros HNone HBool HInt HStr HList HTuple HDict.
  fix IH 1; intros [|b|n|s|items|items|entries].
  - exact HNone.
  - apply HBool.
  - apply HInt.
  - apply HStr.
  - apply HList; induction items as [|x items IHitems]; constructor;
      [apply IH|exact IHitems].
  - apply HTuple; induction items as [|x items IHitems]; constructor;
      [apply IH|exact IHitems].
  - apply HDict; induction entries as [|[k x] entries IHentries]; constructor;
      [apply IH|exact IHentries].
Qed.

Lemma value_start_not_ws (c : ascii) : value_start c = true -> is_ws c = false.
Proof.
  destruct c as [[] [] [] [] [] [] [] []]; simpl; intros H;
    try reflexivity; discriminate H.
Qed.

Lemma skip_ws_value_start (c : ascii) (s : string) :
  value_start c = true -> skip_ws (String c s) = String c s.
Proof. intros H; simpl; rewrite (value_start_not_ws c H); reflexivity. Qed.

(** The text of a value starts with a character that values start with. *)
Lemma json_dumps_head (v : pyval) :
  exists c s, json_dumps v = String c s /\ value_start c = true.
Proof.
  destruct v as [|[]|n|s|items|items|entries]; simpl;
    try (eexists; eexists; split; reflexivity).
  unfold int_repr; destruct n as [|p|p]; simpl Z.to_int.
  - eexists; eexists; split; reflexivity.
  - unfold NilZero.string_of_int; rewrite string_of_uint_to_uint.
    destruct (string_of_uint_head p) as (c & s & E & Hc).
    exists c, s; split; [exact E|].
    simpl in Hc; intuition (subst; reflexivity).
  - eexists; eexists; split; reflexivity.
Qed.

Lemma skip_ws_json_dumps (v : pyval) (rest : string) :
  skip_ws (json_dumps v ++ rest) = json_dumps v ++ rest.
Proof.
  destruct (json_dumps_head v) as (c & s & E & Hc).
  rewrite E; apply skip_ws_value_start; exact Hc.
Qed.

(** One step of each of the three mutually recursive decoders. *)
Lemma scan_once_string (fuel : nat) (rest : string) :
  scan_once (S fuel) (String dquote rest)
  = match scanstring rest with
    | Some (text, r) => Some (PStr text, r)
    | None => None
    end.
Proof. reflexivity. Qed.

Lemma scan_once_array (fuel : nat) (rest : string) :
  scan_once (S fuel) (String "[" rest)
  = match skip_ws rest with
    | EmptyString => None
    | String c1 r1 =>
        if (c1 =? "]")%char then Some (PList [], r1)
        else match JSONArray fuel (String c1 r1) with
             | Some (values, r) => Some (PList values, r)
             | None => None
             end
    end.
Proof. reflexivity. Qed.

Lemma scan_once_object (fuel : nat) (rest : string) :
  scan_once (S fuel) (String "{" rest)
  = match skip_ws rest with
    | EmptyString => None
    | String c1 r1 =>
        if (c1 =? "}")%char then Some (PDict [], r1)
        else if (c1 =? dquote)%char then
          match JSONObject fuel r1 with
          | Some (pairs, r) => Some (PDict (dict_of_pairs pairs), r)
          | None => None
          end
        else None
    end.
Proof. reflexivity. Qed.

Lemma scan_once_number (fuel : nat) (c : ascii) (s : string) :
  In c ["-"; "0"; "1"; "2"; "3"; "4"; "5"; "6"; "7"; "8"; "9"]%char ->
  scan_once (S fuel) (String c s) = scan_number (String c s).
Proof.
  simpl; intros H; intuition (subst; reflexivity).
Qed.

Lemma JSONArray_step (fuel : nat) (s : string) :
  JSONArray (S fuel) s
  = match scan_once fuel s with
    | None => None
    | Some (value, r) =>
        match skip_ws r with
        | EmptyString => None
        | String c r1 =>
            if (c =? "]")%char then Some ([value], r1)
            else if (c =? ",")%char then
              match JSONArray fuel (skip_ws r1) with
              | Some (values, r2) => Some (value :: values, r2)
              | None => None
              end
            else None
        end
    end.
Proof. reflexivity. Qed.

Lemma JSONObject_step (fuel : nat) (s : string) :
  JSONObject (S fuel) s
  = match scanstring s with
    | None => None
    | Some (key, r) =>
        match skip_ws r with
        | EmptyString => None
        | String c r1 =>
            if (c =? ":")%char then
              match scan_once fuel (skip_ws r1) with
              | None => None
              | Some (value, r2) =>
                  match skip_ws r2 with
                  | EmptyString => None
                  | String c2 r3 =>
                      if (c2 =? "}")%char then Some ([(key, value)], r3)
                      else if (c2 =? ",")%char then
                        match skip_ws r3 with
                        | EmptyString => None
                        | String q r4 =>
                            if (q =? dquote)%char then
                              match JSONObject fuel r4 with
                              | Some (pairs, r5) => Some ((key, value) :: pairs, r5)
                              | None => None
                              end
                            else None
                        end
                      else None
                  end
              end
            else None
        end
    end.
Proof. reflexivity. Qed.

Lemma list_need_cons (n : nat) (needs : list nat) (fuel : nat) :
  (list_need (n :: needs) <= fuel)%nat ->
  exists fuel', fuel = S fuel' /\ (n <= fuel')%nat
                /\ (list_need needs <= fuel')%nat.
Proof.
  simpl; intros H; destruct fuel as [|fuel']; [lia|].
  exists fuel'; repeat split; lia.
Qed.

Lemma join_comma_cons (x y : string) (rest : list string) :
  join_comma (x :: y :: rest) = x ++ "," ++ join_comma (y :: rest).
Proof. reflexivity. Qed.

(** [JSONArray] reads the items of a non-empty list back. *)
Lemma JSONArray_items (items : list pyval) :
  items <> [] ->
  Forall reads_back items ->
  forallb well_formed items = true ->
  forall fuel rest,
    (list_need (map need items) <= fuel)%nat ->
    JSONArray fuel (join_comma (map json_dumps items) ++ String "]" rest)
    = Some (map tuples_as_lists items, rest).
Proof.
  induction items as [|x items IH]; [congruence|].
  intros _ Hall Hwf fuel rest Hfuel.
  inversion Hall as [|? ? Hx Hitems]; subst.
  simpl in Hwf; apply andb_true_iff in Hwf; destruct Hwf as [Hwfx Hwfs].
  simpl map in Hfuel.
  destruct (list_need_cons _ _ _ Hfuel) as (fuel' & -> & Hnx & Hns).
  rewrite JSONArray_step.
  destruct items as [|y items].
  - simpl map; simpl join_comma.
    rewrite (Hx Hwfx fuel' (String "]" rest) Hnx eq_refl).
    reflexivity.
  - simpl map; rewrite join_comma_cons, !append_assoc.
    change ("," ++ ?s) with (String "," s).
    rewrite (Hx Hwfx fuel' (String "," _) Hnx eq_refl).
    cbn [skip_ws is_ws Ascii.eqb Bool.eqb orb].
    cbv beta iota.
    change (json_dumps y :: map json_dumps items)
      with (map json_dumps (y :: items)).
    assert (Hskip : skip_ws (join_comma (map json_dumps (y :: items))
                             ++ String "]" rest)
                    = join_comma (map json_dumps (y :: items))
                      ++ String "]" rest).
    { destruct items as [|z items].
      - simpl; apply skip_ws_json_dumps.
      - simpl map; rewrite join_comma_cons, append_assoc.
        apply skip_ws_json_dumps. }
    rewrite Hskip, (IH ltac:(discriminate) Hitems Hwfs fuel' rest Hns).
    reflexivity.
Qed.

Lemma member_text_unfold (kv : string * pyval) (tail : string) :
  member_text kv ++ tail
  = String dquote
      (escape (fst kv) ++ String dquote (String ":" (json_dumps (snd kv) ++ tail))).
Proof.
  unfold member_text, encode_basestring; simpl.
  rewrite !append_assoc; reflexivity.
Qed.

Lemma join_members_unfold (kv : string * pyval)
    (entries : list (string * pyval)) (tail : string) :
  exists tail',
    join_comma (map member_text (kv :: entries)) ++ tail
    = String dquote
        (escape (fst kv)
         ++ String dquote (String ":" (json_dumps (snd kv) ++ tail')))
    /\ tail' = match entries with
               | [] => tail
               | _ :: _ => String "," (join_comma (map member_text entries) ++ tail)
               end.
Proof.
  destruct entries as [|kv' entries].
  - exists tail; split; [apply member_text_unfold|reflexivity].
  - eexists; split; [|reflexivity].
    simpl map; rewrite join_comma_cons, append_assoc, member_text_unfold.
    rewrite append_assoc; reflexivity.
Qed.

(** [JSONObject], entered after the opening quote of the first key, reads
    the members of a non-empty dict back. *)
Lemma JSONObject_members (entries : list (string * pyval)) :
  entries <> [] ->
  Forall (fun kv => reads_back (snd kv)) entries ->
  forallb (fun kv => well_formed (snd kv)) entries = true ->
  forall fuel rest s,
    (list_need (map (fun kv => need (snd kv)) entries) <= fuel)%nat ->
    join_comma (map member_text entries) ++ String "}" rest = String dquote s ->
    JSONObject fuel s
    = Some (map (fun kv => (fst kv, tuples_as_lists (snd kv))) entries, rest).
Proof.
  induction entries as [|[k v] entries IH]; [congruence|].
  intros _ Hall Hwf fuel rest s Hfuel Htext.
  inversion Hall as [|? ? Hv Hentries]; subst; simpl in Hv.
  simpl in Hwf; apply andb_true_iff in Hwf; destruct Hwf as [Hwfv Hwfs].
  simpl map in Hfuel.
  destruct (list_need_cons _ _ _ Hfuel) as (fuel' & -> & Hnv & Hns).
  destruct (join_members_unfold (k, v) entries (String "}" rest))
    as (tail' & E & Htail).
  rewrite E in Htext; injection Htext as <-; simpl fst; simpl snd.
  rewrite JSONObject_step, scanstring_escape.
  cbn [skip_ws is_ws Ascii.eqb Bool.eqb orb]; cbv beta iota.
  rewrite skip_ws_json_dumps.
  destruct entries as [|kv' entries]; subst tail'.
  - rewrite (Hv Hwfv fuel' (String "}" rest) Hnv eq_refl).
    reflexivity.
  - rewrite (Hv Hwfv fuel' (String "," _) Hnv eq_refl).
    cbn [skip_ws is_ws Ascii.eqb Bool.eqb orb]; cbv beta iota.
    destruct (join_members_unfold kv' entries (String "}" rest))
      as (tail'' & E' & _).
    rewrite E'.
    cbn [skip_ws is_ws Ascii.eqb Bool.eqb orb dquote]; cbv beta iota.
    rewrite (IH ltac:(discriminate) Hentries Hwfs fuel' rest _ Hns E').
    reflexivity.
Qed.

(** *** Decoded pairs *)

Lemma distinct_spec (keys : list string) : distinct keys = true <-> NoDup keys.
Proof.
  induction keys as [|k keys IH]; simpl.
  - split; [constructor|reflexivity].
  - rewrite andb_true_iff, negb_true_iff, IH; split.
    + intros [Hk Hd]; constructor; [|exact Hd].
      intros Hin; assert (existsb (String.eqb k) keys = true) as E
          by (apply existsb_exists; exists k; split;
              [exact Hin|apply String.eqb_refl]).
      congruence.
    + intros Hnd; inversion Hnd as [|? ? Hk Hd]; subst; split; [|exact Hd].
      destruct (existsb (String.eqb k) keys) eqn:E; [|reflexivity].
      apply existsb_exists in E; destruct E as (k' & Hin & Heq).
      apply String.eqb_eq in Heq; subst; contradiction.
Qed.

Lemma dict_set_fresh {V} (d : list (string * V)) key value :
  ~ In key (dict_keys d) -> dict_set d key value = (d ++ [(key, value)])%list.
Proof.
  induction d as [|[k v] d IH]; simpl; [reflexivity|].
  intros H; destruct (String.eqb_spec k key) as [->|_]; [tauto|].
  rewrite IH by tauto; reflexivity.
Qed.

Lemma fold_dict_set_distinct (pairs acc : pydict) :
  NoDup (dict_keys (acc ++ pairs)%list) ->
  fold_left (fun d kv => dict_set d (fst kv) (snd kv)) pairs acc
  = (acc ++ pairs)%list.
Proof.
  revert acc; induction pairs as [|[k v] pairs IH]; intros acc Hnd; simpl.
  - rewrite List.app_nil_r; reflexivity.
  - rewrite dict_set_fresh.
    + rewrite IH, <- List.app_assoc; [reflexivity|].
      rewrite <- List.app_assoc; exact Hnd.
    + unfold dict_keys in *; rewrite map_app in Hnd; simpl in Hnd.
      apply NoDup_remove_2 in Hnd.
      intros Hin; apply Hnd, in_or_app; left; exact Hin.
Qed.

(** On pairs with distinct keys [dict(pairs)] is the list of the pairs. *)
Lemma dict_of_pairs_distinct (pairs : pydict) :
  distinct (map fst pairs) = true -> dict_of_pairs pairs = pairs.
Proof.
  intros H; apply distinct_spec in H.
  unfold dict_of_pairs; rewrite fold_dict_set_distinct; [reflexivity|exact H].
Qed.

(** *** The decoder reads every value back *)

Lemma int_repr_head (n : Z) :
  exists c s, int_repr n = String c s
              /\ In c ["-"; "0"; "1"; "2"; "3"; "4"; "5"; "6"; "7"; "8"; "9"]%char.
Proof.
  unfold int_repr; destruct n as [|p|p]; simpl Z.to_int.
  - exists "0"%char, EmptyString; split; [reflexivity|simpl; tauto].
  - unfold NilZero.string_of_int; rewrite string_of_uint_to_uint.
    destruct (string_of_uint_head p) as (c & s & E & Hc).
    exists c, s; split; [exact E|simpl in *; tauto].
  - eexists; eexists; split; [reflexivity|simpl; tauto].
Qed.

Lemma value_start_not_closing (c : ascii) :
  value_start c = true -> (c =? "]")%char = false /\ (c =? "}")%char = false.
Proof.
  destruct (Ascii.eqb_spec c "]") as [->|_]; [discriminate|].
  destruct (Ascii.eqb_spec c "}") as [->|_]; [discriminate|].
  split; reflexivity.
Qed.

Lemma join_dumps_head (items : list pyval) (tail : string) :
  items <> [] ->
  exists c s, join_comma (map json_dumps items) ++ tail = String c s
              /\ value_start c = true.
Proof.
  destruct items as [|x [|y items]]; [congruence| |]; intros _.
  - destruct (json_dumps_head x) as (c & s & E & Hc).
    exists c, (s ++ tail); simpl; rewrite E; split; [reflexivity|exact Hc].
  - destruct (json_dumps_head x) as (c & s & E & Hc).
    simpl map; rewrite join_comma_cons, append_assoc, E.
    eexists; eexists; split; [reflexivity|exact Hc].
Qed.

Lemma json_dumps_list (items : list pyval) (rest : string) :
  json_dumps (PList items) ++ rest
  = String "[" (join_comma (map json_dumps items) ++ String "]" rest).
Proof. simpl; rewrite append_assoc; reflexivity. Qed.

Lemma json_dumps_tuple (items : list pyval) (rest : string) :
  json_dumps (PTuple items) ++ rest
  = String "[" (join_comma (map json_dumps items) ++ String "]" rest).
Proof. simpl; rewrite append_assoc; reflexivity. Qed.

Lemma json_dumps_dict (entries : pydict) (rest : string) :
  json_dumps (PDict entries) ++ rest
  = String "{" (join_comma (map member_text entries) ++ String "}" rest).
Proof. simpl; rewrite append_assoc; reflexivity. Qed.

Theorem scan_once_json_dumps (v : pyval) : reads_back v.
Proof.
  induction v as [|b|n|s|items IH|items IH|entries IH] using pyval_induction;
    intros Hwf fuel rest Hfuel Hrest;
    (destruct fuel as [|fuel]; [simpl in Hfuel; lia|]).
  - reflexivity.
  - destruct b; reflexivity.
  - pose proof (scan_number_int_repr n rest Hrest) as H.
    destruct (int_repr_head n) as (c & s & E & Hc).
    simpl json_dumps; rewrite E in *; simpl append in *.
    rewrite scan_once_number by exact Hc; exact H.
  - simpl json_dumps; unfold encode_basestring; simpl append.
    rewrite scan_once_string, append_assoc; simpl append.
    rewrite scanstring_escape; reflexivity.
  - rewrite json_dumps_list, scan_once_array.
    destruct items as [|x items]; [reflexivity|].
    destruct (join_dumps_head (x :: items) (String "]" rest) ltac:(discriminate))
      as (c & s & E & Hc).
    rewrite E, (skip_ws_value_start c s Hc).
    rewrite (proj1 (value_start_not_closing c Hc)), <- E.
    simpl in Hfuel; apply le_S_n in Hfuel.
    rewrite (JSONArray_items (x :: items) ltac:(discriminate) IH Hwf fuel rest Hfuel).
    reflexivity.
  - rewrite json_dumps_tuple, scan_once_array.
    destruct items as [|x items]; [reflexivity|].
    destruct (join_dumps_head (x :: items) (String "]" rest) ltac:(discriminate))
      as (c & s & E & Hc).
    rewrite E, (skip_ws_value_start c s Hc).
    rewrite (proj1 (value_start_not_closing c Hc)), <- E.
    simpl in Hfuel; apply le_S_n in Hfuel.
    rewrite (JSONArray_items (x :: items) ltac:(discriminate) IH Hwf fuel rest Hfuel).
    reflexivity.
  - rewrite json_dumps_dict, scan_once_object.
    simpl in Hwf; apply andb_true_iff in Hwf; destruct Hwf as [Hkeys Hwf].
    destruct entries as [|kv entries]; [reflexivity|].
    destruct (join_members_unfold kv entries (String "}" rest))
      as (tail' & E & _).
    pose proof E as E'.
    rewrite E; cbn [skip_ws is_ws Ascii.eqb Bool.eqb orb dquote]; cbv beta iota.
    simpl in Hfuel; apply le_S_n in Hfuel.
    rewrite (JSONObject_members (kv :: entries) ltac:(discriminate) IH Hwf
               fuel rest _ Hfuel E').
    rewrite dict_of_pairs_distinct; [reflexivity|].
    rewrite map_map; exact Hkeys.
Qed.

(** The fuel [json_loads] supplies is enough. *)
Lemma list_need_join (needs : list nat) (texts : list string) :
  Forall2 (fun n text => (n <= String.length text)%nat) needs texts ->
  (list_need needs <= S (String.length (join_comma texts)))%nat.
Proof.
  induction 1 as [|n text needs texts Hn Hrest IH]; [simpl; lia|].
  destruct Hrest as [|n' text' needs texts Hn' Hrest].
  - cbn [list_need fold_right join_comma]; lia.
  - rewrite join_comma_cons, !length_append.
    change (list_need (n :: n' :: needs))
      with (S (Nat.max n (list_need (n' :: needs)))).
    change (String.length ",") with 1%nat; lia.
Qed.

Lemma need_le_length (v : pyval) : (need v <= String.length (json_dumps v))%nat.
Proof.
  induction v as [|b|n|s|items IH|items IH|entries IH] using pyval_induction.
  - simpl; lia.
  - destruct b; simpl; lia.
  - destruct (int_repr_head n) as (c & s & E & _); simpl; rewrite E; simpl; lia.
  - simpl; lia.
  - rewrite <- (append_empty_r (json_dumps (PList items))), json_dumps_list.
    assert (H : (list_need (map need items)
                 <= S (String.length (join_comma (map json_dumps items))))%nat).
    { apply list_need_join; induction IH; simpl; constructor; assumption. }
    cbn [need String.length]; rewrite length_append; cbn [String.length]; lia.
  - rewrite <- (append_empty_r (json_dumps (PTuple items))), json_dumps_tuple.
    assert (H : (list_need (map need items)
                 <= S (String.length (join_comma (map json_dumps items))))%nat).
    { apply list_need_join; induction IH; simpl; constructor; assumption. }
    cbn [need String.length]; rewrite length_append; cbn [String.length]; lia.
  - rewrite <- (append_empty_r (json_dumps (PDict entries))), json_dumps_dict.
    assert (H : (list_need (map (fun kv => need (snd kv)) entries)
                 <= S (String.length (join_comma (map member_text entries))))%nat).
    { apply list_need_join; induction IH as [|kv entries Hkv _ IH'];
        simpl; constructor; [|assumption].
      unfold member_text, encode_basestring; simpl;
        rewrite !length_append; simpl; lia. }
    cbn [need String.length]; rewrite length_append; cbn [String.length]; lia.
Qed.

(** Decoding the text of a well-formed value gives the value back, with
    lists for its tuples. *)
Theorem json_loads_json_dumps (v : pyval) :
  well_formed v = true -> json_loads (json_dumps v) = Some (tuples_as_lists v).
Proof.
  intros Hwf; unfold json_loads.
  assert (E : skip_ws (json_dumps v) = json_dumps v).
  { rewrite <- (append_empty_r (json_dumps v)); apply skip_ws_json_dumps. }
  rewrite E.
  pose proof (scan_once_json_dumps v Hwf (S (String.length (json_dumps v)))
                EmptyString) as H.
  rewrite append_empty_r in H; rewrite H; [reflexivity| |reflexivity].
  pose proof (need_le_length v); lia.
Qed.

(** *** Tuples and lists *)

Lemma map_fixed {A} (f : A -> A) (l : list A) :
  map f l = l <-> Forall (fun x => f x = x) l.
Proof.
  induction l as [|x l IH]; simpl.
  - split; [constructor|reflexivity].
  - split.
    + intros [= Hx Hl]; constructor; [exact Hx|apply IH; exact Hl].
    + intros H; inversion H as [|? ? Hx Hl]; subst.
      rewrite Hx, (proj2 IH Hl); reflexivity.
Qed.

Lemma Forall_iff_forallb {A} (P : A -> Prop) (f : A -> bool) (l : list A) :
  Forall (fun x => P x <-> f x = true) l ->
  Forall P l <-> forallb f l = true.
Proof.
  induction 1 as [|x l Hx _ IH]; simpl.
  - split; [reflexivity|constructor].
  - rewrite andb_true_iff, <- IH, <- Hx; split.
    + intros H; inversion H; subst; split; assumption.
    + intros [Hpx Hl]; constructor; assumption.
Qed.

(** A value is left as it is exactly when it holds no tuple. *)
Lemma tuples_as_lists_fixed (v : pyval) :
  tuples_as_lists v = v <-> tuple_free v = true.
Proof.
  induction v as [|b|n|s|items IH|items IH|entries IH] using pyval_induction;
    try (simpl; split; reflexivity).
  - cbn [tuples_as_lists tuple_free].
    rewrite <- (Forall_iff_forallb _ _ _ IH), <- map_fixed.
    split; [intros [= H]; exact H|intros ->; reflexivity].
  - simpl; split; discriminate.
  - cbn [tuples_as_lists tuple_free].
    transitivity (Forall (fun kv => tuples_as_lists (snd kv) = snd kv) entries).
    + transitivity (map (fun kv => (fst kv, tuples_as_lists (snd kv))) entries
                    = entries);
        [split; [intros [= H]; exact H|intros ->; reflexivity]|].
      rewrite map_fixed, !Forall_forall.
      split; intros H [k x] Hin; specialize (H (k, x) Hin); simpl in *;
        congruence.
    + apply (Forall_iff_forallb
               (fun kv => tuples_as_lists (snd kv) = snd kv)
               (fun kv => tuple_free (snd kv)) entries IH).
Qed.

(** [json.dumps] writes a tuple and the list of its items alike. *)
Lemma json_dumps_tuples_as_lists (v : pyval) :
  json_dumps (tuples_as_lists v) = json_dumps v.
Proof.
  induction v as [|b|n|s|items IH|items IH|entries IH] using pyval_induction;
    try reflexivity.
  - cbn [tuples_as_lists json_dumps]; rewrite map_map.
    rewrite (map_ext_Forall _ _ IH); reflexivity.
  - cbn [tuples_as_lists json_dumps]; rewrite map_map.
    rewrite (map_ext_Forall _ _ IH); reflexivity.
  - cbn [tuples_as_lists json_dumps]; rewrite map_map.
    f_equal; f_equal; f_equal.
    apply map_ext_Forall.
    induction IH as [|[k x] l Hx _ IH']; constructor; [|exact IH'].
    simpl in *; rewrite Hx; reflexivity.
Qed.

(** *** The rendered problem *)

Lemma to_dict_well_formed (self : ProblemException) :
  well_formed_errors self = true -> well_formed (PDict (to_dict self)) = true.
Proof.
  unfold well_formed_errors; rewrite to_dict_entries.
  unfold opt_entry, entry_if.
  attribute_cases self; simpl; intros H; rewrite ?H; reflexivity.
Qed.

Lemma to_dict_tuple_free (self : ProblemException) :
  tuple_free (PDict (to_dict self)) = tuple_free_errors self.
Proof.
  unfold tuple_free_errors; rewrite to_dict_entries.
  unfold opt_entry, entry_if.
  destruct (str_truthy (type self)), (str_truthy (title self)),
    (int_truthy (status self));
    destruct (detail self) as [d|]; try destruct (str_truthy d);
    destruct (instance self) as [i|]; try destruct (str_truthy i);
    destruct (errors self) as [[|x l]|]; simpl; rewrite ?andb_true_r;
    reflexivity.
Qed.

Lemma to_dict_with_lists_for_tuples (self : ProblemException) :
  PDict (to_dict (with_lists_for_tuples self))
  = tuples_as_lists (PDict (to_dict self)).
Proof.
  rewrite !to_dict_entries; unfold with_lists_for_tuples, opt_entry, entry_if.
  cbn [type status title detail instance errors].
  destruct (str_truthy (type self)), (str_truthy (title self)),
    (int_truthy (status self));
    destruct (detail self) as [d|]; try destruct (str_truthy d);
    destruct (instance self) as [i|]; try destruct (str_truthy i);
    destruct (errors self) as [[|x l]|]; reflexivity.
Qed.

Lemma json_loads_to_bytes (self : ProblemException) :
  well_formed_errors self = true ->
  json_loads (to_bytes self) = Some (tuples_as_lists (PDict (to_dict self))).
Proof.
  intros Hwf; unfold to_bytes.
  apply json_loads_json_dumps, to_dict_well_formed, Hwf.
Qed.

Lemma json_loads_to_bytes_exact (self : ProblemException) :
  well_formed_errors self = true -> tuple_free_errors self = true ->
  json_loads (to_bytes self) = Some (PDict (to_dict self)).
Proof.
  intros Hwf Hfree; rewrite (json_loads_to_bytes self Hwf).
  f_equal; apply tuples_as_lists_fixed.
  rewrite to_dict_tuple_free; exact Hfree.
Qed.




(* ################################################################## *)
(** * Further properties of the code *)

(* ================================================================== *)
(** ** The constructor of [ProblemException] *)

Lemma assoc_Z_In {V} (table : list (Z * V)) (key : Z) (v : V) :
  assoc_Z table key = Some v -> In (key, v) table.
Proof.
  induction table as [|[k w] table IH]; simpl; [discriminate|].
  destruct (Z.eqb_spec k key) as [->|_].
  - intros [= ->]; left; reflexivity.
  - intros H; right; apply IH, H.
Qed.

(** Every reason phrase of the table is a non-empty string. *)
Lemma HTTPStatus_phrase_nonempty (code : Z) (phrase : string) :
  HTTPStatus_phrase code = Ok phrase -> phrase <> EmptyString.
Proof.
  unfold HTTPStatus_phrase.
  destruct (assoc_Z HTTPStatus_table code) as [w|] eqn:E; [|discriminate].
  intros [= <-]; apply assoc_Z_In in E.
  assert (H : forallb (fun kv => negb (snd kv =? EmptyString)%string)
                      HTTPStatus_table = true) by reflexivity.
  rewrite forallb_forall in H; specialize (H _ E); simpl in H.
  intros ->; discriminate H.
Qed.

Lemma py_or_str_nonempty (x : option string) (default : string) :
  default <> EmptyString -> py_or str_truthy x default <> EmptyString.
Proof.
  intros Hd; destruct x as [s|]; simpl; [|exact Hd].
  destruct (str_truthy s) eqn:E; [|exact Hd].
  intros ->; discriminate E.
Qed.

(** What a successful call of the constructor leaves in the attributes. *)
Lemma init_fields ty ti st de ins errs p :
  ProblemException__init__ ty ti st de ins errs = Ok p ->
  type p = py_or str_truthy ty "exception:problem"
  /\ status p = py_or int_truthy st 500
  /\ detail p = de /\ instance p = ins /\ errors p = errs
  /\ title p <> EmptyString
  /\ (opt_truthy str_truthy ti = true -> Some (title p) = ti)
  /\ (opt_truthy str_truthy ti = false ->
      HTTPStatus_phrase (py_or int_truthy st 500) = Ok (title p)).
Proof.
  unfold ProblemException__init__, bind.
  destruct ti as [t|]; simpl opt_truthy; [destruct (str_truthy t) eqn:Et|].
  - intros [= <-]; simpl; repeat split; try discriminate.
    intros ->; discriminate Et.
  - destruct (HTTPStatus_phrase (py_or int_truthy st 500)) as [phrase|e] eqn:E;
      [|discriminate].
    intros [= <-]; simpl; repeat split; try discriminate.
    apply (HTTPStatus_phrase_nonempty _ _ E).
  - destruct (HTTPStatus_phrase (py_or int_truthy st 500)) as [phrase|e] eqn:E;
      [|discriminate].
    intros [= <-]; simpl; repeat split; try discriminate.
    apply (HTTPStatus_phrase_nonempty _ _ E).
Qed.

Lemma str_truthy_true (s : string) : s <> EmptyString -> str_truthy s = true.
Proof.
  intros H; destruct (str_truthy s) eqn:E; [reflexivity|].
  apply str_truthy_false in E; contradiction.
Qed.

Lemma int_truthy_true (n : Z) : n <> 0 -> int_truthy n = true.
Proof.
  intros H; destruct (int_truthy n) eqn:E; [reflexivity|].
  apply int_truthy_false in E; contradiction.
Qed.

(** X1: a problem the constructor returns has a non-empty type, a
    non-empty title and a non-zero status, whatever the arguments were, so
    its rendered mapping always carries the members type, title and status
    with these values. *)
Theorem X1_constructor_invariant ty ti st de ins errs p :
  ProblemException__init__ ty ti st de ins errs = Ok p ->
  type p <> EmptyString /\ title p <> EmptyString /\ status p <> 0
  /\ dict_get (to_dict p) "type" = Some (PStr (type p))
  /\ dict_get (to_dict p) "title" = Some (PStr (title p))
  /\ dict_get (to_dict p) "status" = Some (PInt (status p)).
Proof.
  intros H; destruct (init_fields _ _ _ _ _ _ _ H) as (Hty & Hst & _ & _ & _ & Hti & _).
  assert (T : type p <> EmptyString)
    by (rewrite Hty; apply py_or_str_nonempty; discriminate).
  assert (S : status p <> 0) by (rewrite Hst; apply py_or_int_nonzero).
  repeat split; try assumption.
  - rewrite to_dict_get_type, (str_truthy_true _ T); reflexivity.
  - rewrite to_dict_get_title, (str_truthy_true _ Hti); reflexivity.
  - rewrite to_dict_get_status, (int_truthy_true _ S); reflexivity.
Qed.

Lemma X1_constructor_invariant_witness :
  dict_get (to_dict kill_switch_problem) "title"
  = Some (PStr "Service Unavailable").
Proof.
  apply (X1_constructor_invariant
           None None (Some 503)
           (Some "Kill-Switch is enabled. Please contact the service owner for more information.")
           None None kill_switch_problem eq_refl).
Defined.

(** X2: the constructor raises exactly when no non-empty title is given
    and the status (500 when absent or zero) is no member of the status
    table; it then raises ValueError on that status.  With a non-empty
    title every status is accepted, and the title is kept. *)
Theorem X2_constructor_raises_iff ty ti st de ins errs :
  (raises (ProblemException__init__ ty ti st de ins errs) = true
   <-> opt_truthy str_truthy ti = false
       /\ known_status (py_or int_truthy st 500) = false)
  /\ (raises (ProblemException__init__ ty ti st de ins errs) = true ->
      ProblemException__init__ ty ti st de ins errs
      = Raise (ValueError (py_or int_truthy st 500)))
  /\ (forall t, ti = Some t -> t <> EmptyString ->
      exists p, ProblemException__init__ ty ti st de ins errs = Ok p
                /\ title p = t /\ status p = py_or int_truthy st 500).
Proof.
  unfold ProblemException__init__, bind.
  destruct (known_status (py_or int_truthy st 500)) eqn:K.
  - destruct (HTTPStatus_phrase_known _ K) as [phrase E]; rewrite E.
    split; [|split].
    + destruct ti as [t|]; simpl; [destruct (str_truthy t)|]; simpl;
        split; intros H; try discriminate; destruct H; discriminate.
    + destruct ti as [t|]; simpl; [destruct (str_truthy t)|]; simpl;
        discriminate.
    + intros t -> Ht; rewrite (str_truthy_true _ Ht).
      eexists; repeat split.
  - rewrite (HTTPStatus_phrase_unknown _ K).
    split; [|split].
    + destruct ti as [t|]; simpl; [destruct (str_truthy t)|]; simpl;
        split; intros H; try discriminate; try (split; reflexivity);
        try reflexivity; destruct H; discriminate.
    + destruct ti as [t|]; simpl; [destruct (str_truthy t)|]; simpl;
        try discriminate; reflexivity.
    + intros t -> Ht; rewrite (str_truthy_true _ Ht).
      eexists; repeat split.
Qed.

Lemma X2_constructor_raises_iff_witness :
  ProblemException__init__ None (Some EmptyString) (Some 299) None None None
  = Raise (ValueError 299)
  /\ exists p, ProblemException__init__ None (Some "Partial") (Some 299)
                 None None None = Ok p
               /\ title p = "Partial" /\ status p = 299.
Proof.
  split.
  - apply (proj1 (proj2 (X2_constructor_raises_iff
                           None (Some EmptyString) (Some 299) None None None))).
    reflexivity.
  - apply (proj2 (proj2 (X2_constructor_raises_iff
                           None (Some "Partial") (Some 299) None None None))
             "Partial" eq_refl).
    discriminate.
Defined.

(** X3: for [_type], [title] and [status] an empty string or a zero is the
    same as no argument: the constructor behaves as if the falsy argument
    had been left out. *)
Theorem X3_falsy_arguments_are_absent ty ti st de ins errs :
  ProblemException__init__ ty ti st de ins errs
  = ProblemException__init__
      (truthy_only str_truthy ty) (truthy_only str_truthy ti)
      (truthy_only int_truthy st) de ins errs.
Proof.
  unfold ProblemException__init__, truthy_only.
  destruct ty as [a|]; simpl; [destruct (str_truthy a) eqn:Ea; simpl; rewrite ?Ea|];
    (destruct st as [n|]; simpl;
     [destruct (int_truthy n) eqn:En; simpl; rewrite ?En|]);
    (destruct ti as [t|]; simpl;
     [destruct (str_truthy t) eqn:Et; simpl; rewrite ?Et|]);
    reflexivity.
Qed.

(** X4: the keys of the rendered mapping are exactly the member names
    whose attribute is non-empty, in the fixed order type, title, status,
    detail, instance, errors, each once. *)
Theorem X4_to_dict_keys (self : ProblemException) :
  dict_keys (to_dict self)
  = filter (fun key => nonempty (attribute self key)) member_names.
Proof.
  destruct self as [ty st ti de ins errs].
  destruct ty, ti, st as [|n|n], de as [[|]|], ins as [[|]|],
    errs as [[|]|]; reflexivity.
Qed.

(* ================================================================== *)
(** ** Rendering and the branches of [render] *)

(** X5: [to_bytes] does not tell a tuple from a list.  Replacing every
    tuple inside the errors of a record by the list of its items leaves the
    bytes unchanged, while the mapping [to_dict] gives changes whenever the
    errors hold a tuple: two different rendered mappings then share their
    bytes. *)
Theorem X5_to_bytes_writes_tuples_as_lists (self : ProblemException) :
  to_bytes (with_lists_for_tuples self) = to_bytes self
  /\ (to_dict (with_lists_for_tuples self) = to_dict self
      <-> tuple_free_errors self = true).
Proof.
  unfold to_bytes; rewrite to_dict_with_lists_for_tuples.
  split; [apply json_dumps_tuples_as_lists|].
  rewrite <- to_dict_tuple_free, <- tuples_as_lists_fixed.
  rewrite <- to_dict_with_lists_for_tuples.
  split; [intros ->; reflexivity|].
  intros H.
  apply (f_equal (fun v => match v with
                           | PDict entries => entries
                           | _ => []
                           end)) in H.
  exact H.
Qed.

(** X6: for an HTTP fault whose status code (500 when it is 0) is in the
    status table, [as_http_exception] gives the problem of type
    exception:http with that status, the reason phrase of the status as
    title, the detail of the fault, the request path as instance and the
    supplied errors, the empty list when none are supplied; an empty errors
    list leaves no errors member in the rendering. *)
Theorem X6_as_http_exception
    (code : Z) (text : option string) (request : Request)
    (errs : option (list pyval)) :
  known_status (py_or int_truthy (Some code) 500) = true ->
  exists phrase,
    HTTPStatus_phrase (py_or int_truthy (Some code) 500) = Ok phrase
    /\ as_http_exception code text request errs
       = Ok {| type := "exception:http";
               status := py_or int_truthy (Some code) 500;
               title := phrase;
               detail := text;
               instance := Some (url_path request);
               errors := Some (py_or list_truthy errs []) |}
    /\ (opt_truthy list_truthy errs = false ->
        forall p, as_http_exception code text request errs = Ok p ->
                  dict_get (to_dict p) "errors" = None).
Proof.
  intros K; destruct (HTTPStatus_phrase_known _ K) as [phrase E].
  exists phrase; split; [exact E|].
  assert (A : as_http_exception code text request errs
       = Ok {| type := "exception:http";
               status := py_or int_truthy (Some code) 500;
               title := phrase;
               detail := text;
               instance := Some (url_path request);
               errors := Some (py_or list_truthy errs []) |}).
  { unfold as_http_exception, ProblemException__init__, bind.
    rewrite E; reflexivity. }
  split; [exact A|].
  intros Herrs p Hp; rewrite A in Hp; injection Hp as <-.
  rewrite to_dict_get_errors; simpl.
  destruct errs as [[|x l]|]; simpl in *; try reflexivity; discriminate.
Qed.

Lemma X6_as_http_exception_witness :
  exists p,
    as_http_exception 404 (Some "Resource not found.") widgets_9 None = Ok p
    /\ to_dict p
       = [ ("type", PStr "exception:http"); ("title", PStr "Not Found");
           ("status", PInt 404); ("detail", PStr "Resource not found.");
           ("instance", PStr "/widgets/9") ].
Proof.
  destruct (X6_as_http_exception 404 (Some "Resource not found.") widgets_9 None
              eq_refl) as (phrase & E & A & _).
  eexists; split; [exact A|].
  injection E as <-; reflexivity.
Defined.

Lemma kwargs_no_unexpected (data : pydict) :
  forallb is_parameter (dict_keys data) = true ->
  find (fun key => negb (is_parameter key)) (dict_keys data) = None.
Proof.
  intros H; destruct (find _ (dict_keys data)) as [k|] eqn:F; [|reflexivity].
  apply find_some in F; destruct F as [Hin Hk].
  rewrite forallb_forall in H; rewrite (H _ Hin) in Hk; discriminate.
Qed.

(** X7: on a mapping whose keys all name parameters of the constructor
    (and whose values fit their annotations), [as_dict] is the constructor
    called with the instance already defaulted: filling the instance after
    the construction gives the problem, or the exception, that passing the
    request path for a missing or empty instance would have given. *)
Theorem X7_as_dict_defaults_instance (data : pydict) (request : Request) :
  forallb is_parameter (dict_keys data) = true ->
  kwargs_typed data = true ->
  as_dict data request
  = ProblemException__init__
      (arg_str data "_type") (arg_str data "title") (arg_int data "status")
      (arg_str data "detail")
      (Some (py_or str_truthy (arg_str data "instance") (url_path request)))
      (arg_list data "errors").
Proof.
  intros Hkeys _; unfold as_dict, ProblemException_kwargs.
  rewrite (kwargs_no_unexpected _ Hkeys).
  unfold ProblemException__init__, bind.
  destruct (match arg_str data "title" with
            | Some t => if str_truthy t then Ok t
                        else HTTPStatus_phrase
                               (py_or int_truthy (arg_int data "status") 500)
            | None => HTTPStatus_phrase
                        (py_or int_truthy (arg_int data "status") 500)
            end) as [t|e]; [|reflexivity].
  simpl instance; unfold set_instance; simpl.
  destruct (arg_str data "instance") as [i|]; simpl; [|reflexivity].
  destruct (str_truthy i); reflexivity.
Qed.

Lemma X7_as_dict_defaults_instance_witness :
  as_dict recognised_mapping widgets_1
  = ProblemException__init__
      None None (Some 404) (Some "No such widget.") (Some "/widgets/1") None.
Proof.
  apply (X7_as_dict_defaults_instance recognised_mapping widgets_1);
    reflexivity.
Defined.

(** X8: every problem [render] builds itself (for any content other than
    a ProblemException handed through) has a non-empty type, a non-empty
    title and a non-zero status, and on a request with a non-empty path a
    non-empty instance; the bytes [render] returns are those of this
    problem and the status code it stores is the status of the problem. *)
Theorem X8_render_builds_complete_problems
    (request : Request) (content : Content) (p : ProblemException) :
  built_by_render content = true ->
  render_problem request content = Ok p ->
  type p <> EmptyString /\ title p <> EmptyString /\ status p <> 0
  /\ (url_path request <> EmptyString ->
      exists i, instance p = Some i /\ i <> EmptyString)
  /\ render request content = Ok (to_bytes p, status p, p).
Proof.
  intros Hbuilt Hp.
  assert (R : render request content = Ok (to_bytes p, status p, p))
    by (unfold render; rewrite Hp; reflexivity).
  destruct content as [q|data|code text|violations|exc|other];
    simpl in Hbuilt; try discriminate; simpl in Hp;
    unfold as_http_exception, as_request_validation_error,
      as_uncaught_exception in Hp.
  - (* a mapping *)
    unfold as_dict, bind in Hp.
    destruct (ProblemException_kwargs data) as [q|e] eqn:K; [|discriminate].
    unfold ProblemException_kwargs in K.
    destruct (find _ (dict_keys data)); [discriminate|].
    destruct (init_fields _ _ _ _ _ _ _ K) as (Hty & Hst & _ & _ & _ & Hti & _).
    injection Hp as <-.
    assert (T : type q <> EmptyString)
      by (rewrite Hty; apply py_or_str_nonempty; discriminate).
    assert (S : status q <> 0) by (rewrite Hst; apply py_or_int_nonzero).
    destruct (opt_truthy str_truthy (instance q)) eqn:I; simpl.
    + repeat split; try assumption.
      intros _; destruct (instance q) as [i|]; [|discriminate].
      exists i; split; [reflexivity|].
      intros ->; discriminate I.
    + repeat split; try assumption.
      intros Hpath; exists (url_path request); split; [reflexivity|exact Hpath].
  - destruct (init_fields _ _ _ _ _ _ _ Hp) as (Hty & Hst & _ & Hi & _ & Hti & _).
    repeat split; try assumption.
    + rewrite Hty; discriminate.
    + rewrite Hst; apply py_or_int_nonzero.
    + intros Hpath; exists (url_path request); split; [exact Hi|exact Hpath].
  - destruct (init_fields _ _ _ _ _ _ _ Hp) as (Hty & Hst & _ & Hi & _ & Hti & _).
    repeat split; try assumption.
    + rewrite Hty; discriminate.
    + rewrite Hst; discriminate.
    + intros Hpath; exists (url_path request); split; [exact Hi|exact Hpath].
  - destruct (init_fields _ _ _ _ _ _ _ Hp) as (Hty & Hst & _ & Hi & _ & Hti & _).
    repeat split; try assumption.
    + rewrite Hty; discriminate.
    + rewrite Hst; discriminate.
    + intros Hpath; exists (url_path request); split; [exact Hi|exact Hpath].
  - destruct (init_fields _ _ _ _ _ _ _ Hp) as (Hty & Hst & _ & Hi & _ & Hti & _).
    repeat split; try assumption.
    + rewrite Hty; discriminate.
    + rewrite Hst; discriminate.
    + intros Hpath; exists (url_path request); split; [exact Hi|exact Hpath].
Qed.

Lemma X8_render_builds_complete_problems_witness :
  exists i, instance (validation_problem widgets_1 two_violations) = Some i
            /\ i <> EmptyString.
Proof.
  apply (X8_render_builds_complete_problems
           widgets_1 (ARequestValidationError two_violations)
           (validation_problem widgets_1 two_violations) eq_refl eq_refl).
  discriminate.
Defined.

(* ================================================================== *)
(** ** The documentation examples *)

Lemma fits_Problem_to_dict (p : ProblemException) :
  type p <> EmptyString -> title p <> EmptyString -> status p <> 0 ->
  (exists d, detail p = Some d /\ d <> EmptyString) ->
  (exists i, instance p = Some i /\ i <> EmptyString) ->
  (forall l, errors p = Some l -> forallb is_dict l = true) ->
  fits_Problem (to_dict p) = true.
Proof.
  intros T Ti S (d & Hd & Dn) (i & Hi & In') E.
  unfold fits_Problem.
  rewrite to_dict_get_type, to_dict_get_title, to_dict_get_status,
    to_dict_get_detail, to_dict_get_instance, to_dict_get_errors.
  rewrite (str_truthy_true _ T), (str_truthy_true _ Ti), (int_truthy_true _ S).
  rewrite Hd, Hi, (str_truthy_true _ Dn), (str_truthy_true _ In').
  simpl; destruct (errors p) as [l|]; [|reflexivity].
  destruct (list_truthy l); [apply E; reflexivity|reflexivity].
Qed.

(** X9: the three documentation examples are mappings that fit the
    response schema [Problem]: type, title, detail and instance are present
    strings, status is a present integer, and errors, when present, is a
    list of mappings.  This holds whenever the request built for the
    example reports a non-empty path (the instance is that path, and an
    empty one is left out of the mapping), for every status code of the
    status table and for every detail, the default text replacing a missing
    or empty one. *)
Theorem X9_examples_fit_the_schema
    (request_url_path : string -> string)
    (path : option string) (random_choices : string)
    (code : Z) (text : option string) (errs : option (list pyval)) :
  url_path (request_obj request_url_path path random_choices) <> EmptyString ->
  known_status (py_or int_truthy (Some code) 500) = true ->
  (forall l, errs = Some l -> forallb is_dict l = true) ->
  (exists d, http_error_example request_url_path path random_choices
                                code text errs = Ok d
             /\ fits_Problem d = true)
  /\ (exists d, validation_error_example request_url_path path random_choices
                = Ok d
                /\ fits_Problem d = true)
  /\ (exists d, exception_error_example request_url_path path random_choices
                = Ok d
                /\ fits_Problem d = true).
Proof.
  intros P K Herrs.
  split; [|split].
  - unfold http_error_example, as_http_exception, ProblemException__init__, bind.
    destruct (HTTPStatus_phrase_known _ K) as [phrase E]; rewrite E.
    eexists; split; [reflexivity|].
    apply fits_Problem_to_dict; cbn [type title status detail instance errors];
      try discriminate.
    + apply (HTTPStatus_phrase_nonempty _ _ E).
    + apply (py_or_int_nonzero (Some code)).
    + eexists; split; [reflexivity|].
      apply py_or_str_nonempty; discriminate.
    + eexists; split; [reflexivity|exact P].
    + intros l [= <-]; destruct errs as [[|x l']|]; try reflexivity.
      apply (Herrs (x :: l') eq_refl).
  - unfold validation_error_example, as_request_validation_error,
      ProblemException__init__, bind.
    cbn [py_or str_truthy truthy String.eqb Ascii.eqb Bool.eqb negb].
    eexists; split; [reflexivity|].
    apply fits_Problem_to_dict; cbn [type title status detail instance errors];
      try discriminate.
    + eexists; split; [reflexivity|discriminate].
    + eexists; split; [reflexivity|exact P].
    + intros l [= <-]; reflexivity.
  - unfold exception_error_example, as_uncaught_exception,
      ProblemException__init__, bind.
    cbn [py_or str_truthy int_truthy truthy HTTP_500_INTERNAL_SERVER_ERROR
         HTTPStatus_phrase].
    eexists; split; [reflexivity|].
    apply fits_Problem_to_dict; cbn [type title status detail instance errors];
      try discriminate.
    + eexists; split; [reflexivity|discriminate].
    + eexists; split; [reflexivity|exact P].
    + intros l [= <-]; reflexivity.
Qed.

Lemma X9_examples_fit_the_schema_witness :
  (exists d, http_error_example (fun path => path) None "k3Xw09ZaQe"
                                404 None None = Ok d
             /\ fits_Problem d = true)
  /\ (exists d, validation_error_example (fun path => path)
                                         (Some "/widgets/1") EmptyString = Ok d
                /\ fits_Problem d = true).
Proof.
  split.
  - apply (X9_examples_fit_the_schema (fun path => path) None "k3Xw09ZaQe"
             404 None None);
      [discriminate|reflexivity|discriminate].
  - apply (X9_examples_fit_the_schema (fun path => path) (Some "/widgets/1")
             EmptyString 404 None None);
      [discriminate|reflexivity|discriminate].
Defined.

(* ================================================================== *)
(** ** Log records *)

(** The values [to_dict] removes are the falsy ones, the empty tuple
    apart. *)
Lemma in_cleaned_values_falsy (v : pyval) :
  in_cleaned_values v = negb (truthy v || is_empty_tuple v).
Proof.
  destruct v as [|[]|n|s|[|x l]|[|x l]|[|kv d]]; simpl; try reflexivity.
  - destruct (n =? 0); reflexivity.
  - destruct (s =? EmptyString)%string; reflexivity.
Qed.

Lemma is_empty_tuple_spec (v : pyval) :
  is_empty_tuple v = true <-> v = PTuple [].
Proof.
  destruct v as [| | | | |[|x l]|]; simpl; split; congruence.
Qed.

Lemma to_dict_cleaned_In (fields : pydict) (key : string) (v : pyval) :
  In (key, v) (to_dict_cleaned fields)
  <-> In (key, v) fields /\ (truthy v = true \/ v = PTuple []).
Proof.
  unfold to_dict_cleaned; rewrite filter_In; simpl.
  rewrite in_cleaned_values_falsy, negb_involutive, orb_true_iff.
  rewrite is_empty_tuple_spec; reflexivity.
Qed.

Lemma to_dict_cleaned_get (fields : pydict) (key : string) :
  NoDup (dict_keys fields) ->
  dict_get (to_dict_cleaned fields) key
  = match dict_get fields key with
    | Some v => if truthy v || is_empty_tuple v then Some v else None
    | None => None
    end.
Proof.
  induction fields as [|[k v] fields IH]; simpl; [reflexivity|].
  intros Hnd; inversion Hnd as [|? ? Hk Hrest]; subst.
  rewrite in_cleaned_values_falsy, negb_involutive.
  destruct (String.eqb_spec k key) as [->|Hne].
  - destruct (truthy v || is_empty_tuple v) eqn:T; simpl;
      [rewrite String.eqb_refl; reflexivity|].
    apply dict_get_not_in.
    intros Hin; apply Hk.
    unfold dict_keys, to_dict_cleaned in *.
    apply in_map_iff in Hin; destruct Hin as ([k' v'] & <- & Hin).
    apply filter_In in Hin; destruct Hin as [Hin _].
    apply in_map_iff; exists (k', v'); split; [reflexivity|exact Hin].
  - destruct (truthy v || is_empty_tuple v); simpl; [|apply IH, Hrest].
    destruct (String.eqb_spec k key) as [->|_]; [contradiction|apply IH, Hrest].
Qed.

(** X10: the mapping [to_dict] gives for an [HttpLogRecord] holds no
    empty value but an empty tuple: every entry is a field of the record
    whose value is truthy (none of None, the empty mapping, list or string,
    zero or False) or is the empty tuple, which equals none of the values
    [to_dict] removes; the value is unchanged, and every such field is an
    entry; cleaning a cleaned mapping changes nothing.  A response status
    or a duration of 0 is therefore absent from the log entry. *)
Theorem X10_log_record_has_no_empty_value (self : HttpLogRecord) :
  (forall key v,
      In (key, v) (HttpLogRecord_to_dict self)
      <-> In (key, v) (HttpLogRecord_asdict self)
          /\ (truthy v = true \/ v = PTuple []))
  /\ (forall key,
        dict_get (HttpLogRecord_to_dict self) key
        = match dict_get (HttpLogRecord_asdict self) key with
          | Some v => if truthy v || is_empty_tuple v then Some v else None
          | None => None
          end)
  /\ to_dict_cleaned (HttpLogRecord_to_dict self) = HttpLogRecord_to_dict self
  /\ (response_duration_ms self = PInt 0 ->
      dict_get (HttpLogRecord_to_dict self) "response_duration_ms" = None).
Proof.
  split; [|split; [|split]].
  - intros key v; apply to_dict_cleaned_In.
  - intros key; apply to_dict_cleaned_get.
    unfold HttpLogRecord_asdict, dict_keys; simpl.
    apply distinct_spec; reflexivity.
  - unfold HttpLogRecord_to_dict, to_dict_cleaned.
    apply forallb_filter_id, forallb_forall.
    intros [k v] Hin; apply filter_In in Hin; apply Hin.
  - intros H; unfold HttpLogRecord_to_dict.
    rewrite to_dict_cleaned_get
      by (unfold HttpLogRecord_asdict, dict_keys; simpl;
          apply distinct_spec; reflexivity).
    simpl; rewrite H; reflexivity.
Qed.

Lemma X10_log_record_has_no_empty_value_witness :
  dict_get (HttpLogRecord_to_dict fast_response_record) "response_duration_ms"
  = None
  /\ dict_keys (HttpLogRecord_to_dict fast_response_record)
     = ["request_id"; "request_source"; "response_status"; "response_headers";
        "response_body"].
Proof.
  split; [|reflexivity].
  apply (X10_log_record_has_no_empty_value fast_response_record).
  reflexivity.
Defined.

(* ================================================================== *)
(** ** The exception handler and its hooks *)

(** X11: when no registered hook raises and the problem response can be
    built, [exception_handler] calls the pre-hooks in registration order,
    then builds the response, then calls the post-hooks in registration
    order, and returns that response; whether a hook is a coroutine
    function makes no difference to the order. *)
Theorem X11_hooks_run_in_registration_order
    (pre_hooks : option (list PreHook)) (post_hooks : option (list PostHook))
    (request : Request) (exc : Content) (response : ProblemResponse) :
  (forall hook, In hook (registered pre_hooks) ->
                hook_call hook (request, exc) = Ok tt) ->
  ProblemResponse__init__ request exc = Ok response ->
  (forall hook, In hook (registered post_hooks) ->
                hook_call hook (request, response, exc) = Ok tt) ->
  exception_handler pre_hooks post_hooks request exc
  = ((hook_calls (registered pre_hooks) ++ [ProblemRendered]
      ++ hook_calls (registered post_hooks))%list, Ok response).
Proof. apply exception_handler_order. Qed.

Lemma X11_hooks_run_in_registration_order_witness :
  exists response,
    ProblemResponse__init__ widgets_1 (AnException boom) = Ok response
    /\ exception_handler (Some [count_errors; count_errors])
                         (Some [audit_response]) widgets_1 (AnException boom)
       = ([HookCalled "count_errors"; HookCalled "count_errors";
           ProblemRendered; HookCalled "audit_response"], Ok response).
Proof.
  eexists; split; [reflexivity|].
  apply (X11_hooks_run_in_registration_order
           (Some [count_errors; count_errors]) (Some [audit_response])
           widgets_1 (AnException boom)).
  - intros hook [<-|[<-|[]]]; reflexivity.
  - reflexivity.
  - intros hook [<-|[]]; reflexivity.
Defined.

(** X12: when a post-hook raises, the problem response that was already
    built is lost: the handler raises the exception of the hook, after the
    pre-hooks, the response and the post-hooks before the failing one, and
    the post-hooks after it are not called. *)
Theorem X12_raising_post_hook_loses_the_response
    (pre_hooks : option (list PreHook))
    (before : list PostHook) (hook : PostHook) (after : list PostHook)
    (request : Request) (exc : Content) (response : ProblemResponse)
    (e : PyError) :
  (forall h, In h (registered pre_hooks) -> hook_call h (request, exc) = Ok tt) ->
  ProblemResponse__init__ request exc = Ok response ->
  (forall h, In h before -> hook_call h (request, response, exc) = Ok tt) ->
  hook_call hook (request, response, exc) = Raise e ->
  exception_handler pre_hooks (Some (before ++ hook :: after)%list) request exc
  = ((hook_calls (registered pre_hooks) ++ [ProblemRendered]
      ++ hook_calls before ++ [HookCalled (hook_name hook)])%list, Raise e).
Proof. apply raising_post_hook_propagates. Qed.

Lemma X12_raising_post_hook_loses_the_response_witness :
  exception_handler None (Some [audit_response; failing_audit; audit_response])
                    widgets_1 (AnException boom)
  = ([ProblemRendered; HookCalled "audit_response"; HookCalled "failing_audit"],
     Raise (Raised boom)).
Proof.
  eapply (X12_raising_post_hook_loses_the_response
            None [audit_response] failing_audit [audit_response]
            widgets_1 (AnException boom) _ (Raised boom)).
  - intros h [].
  - reflexivity.
  - intros h [<-|[]]; reflexivity.
  - reflexivity.
Defined.

(* ================================================================== *)
(** ** The middleware on every application *)

Lemma existsb_filter_nil {A} (f : A -> bool) (l : list A) :
  existsb f l = false <-> filter f l = [].
Proof.
  induction l as [|a l IH]; simpl; [tauto|].
  destruct (f a); simpl; [split; discriminate|exact IH].
Qed.

Lemma response_starts_Sent (messages : list Message) :
  response_starts (map Sent messages) = filter is_response_start messages.
Proof.
  induction messages as [|m rest IH]; simpl; [reflexivity|].
  rewrite <- IH; unfold response_starts; simpl.
  destruct (is_response_start m); reflexivity.
Qed.

Lemma response_starts_events (events : list Event) :
  response_starts (map Handling events) = [].
Proof. induction events; simpl; auto. Qed.

Lemma response_starts_concat (t1 t2 : list Effect) :
  response_starts (t1 ++ t2)%list
  = (response_starts t1 ++ response_starts t2)%list.
Proof. unfold response_starts; apply flat_map_app. Qed.

Lemma app_sends_value (messages : list Message) (started : bool) :
  app_sends messages started
  = (started || existsb is_response_start messages, map Sent messages).
Proof.
  revert started; induction messages as [|m rest IH]; intros started; simpl.
  - rewrite orb_false_r; reflexivity.
  - rewrite IH; unfold is_response_start.
    destruct (message_type m =? "http.response.start")%string;
      destruct started; reflexivity.
Qed.

(** The call of the middleware, case by case. *)
Lemma middleware_cases {Exc : Type}
    (app : ASGIApp Exc) (handler : ExceptionHandler Exc) (scope : Scope) :
  UnhandledExceptionsMiddleware__call__ app handler scope
  = let (messages, termination) := app scope in
    match termination with
    | RaisesException exc =>
        if ((scope_type scope =? "http")%string
            && negb (existsb is_response_start messages))%bool
        then match handler (Request_of_scope scope) exc with
             | (events, Ok response) =>
                 ((map Sent messages ++ map Handling events
                   ++ map Sent (Response__call__ response))%list,
                  Ends (RaisesException exc))
             | (events, Raise e) =>
                 ((map Sent messages ++ map Handling events)%list,
                  HandlerRaises e)
             end
        else (map Sent messages, Ends (RaisesException exc))
    | other => (map Sent messages, Ends other)
    end.
Proof.
  unfold UnhandledExceptionsMiddleware__call__.
  destruct (app scope) as [messages termination].
  rewrite app_sends_value; simpl orb.
  destruct (scope_type scope =? "http")%string; simpl;
    destruct termination; reflexivity.
Qed.

(** X13: whatever the application, the handler and the scope, the
    messages the application sent reach the server first, unchanged and in
    order; the middleware adds messages of its own only on an HTTP scope
    when the application raised an exception before any response start. *)
Theorem X13_application_messages_pass_unchanged {Exc : Type}
    (app : ASGIApp Exc) (handler : ExceptionHandler Exc) (scope : Scope) :
  exists added,
    fst (UnhandledExceptionsMiddleware__call__ app handler scope)
    = (map Sent (fst (app scope)) ++ added)%list
    /\ (added <> [] ->
        scope_type scope = "http"
        /\ existsb is_response_start (fst (app scope)) = false
        /\ exists exc, snd (app scope) = RaisesException exc).
Proof.
  rewrite middleware_cases.
  destruct (app scope) as [messages termination]; simpl fst; simpl snd.
  destruct termination as [|exc|name].
  - exists []; rewrite List.app_nil_r; split; [reflexivity|congruence].
  - destruct (String.eqb_spec (scope_type scope) "http") as [Hh|Hh]; simpl.
    + destruct (existsb is_response_start messages) eqn:Es; simpl.
      * exists []; rewrite List.app_nil_r; split; [reflexivity|congruence].
      * destruct (handler (Request_of_scope scope) exc) as [events [r|e]];
          eexists; (split; [reflexivity|]); intros _;
          (split; [exact Hh|split; [reflexivity|exists exc; reflexivity]]).
    + exists []; rewrite List.app_nil_r; split; [reflexivity|congruence].
  - exists []; rewrite List.app_nil_r; split; [reflexivity|congruence].
Qed.

(** X14: the middleware never starts a second response.  When the
    application sent a response start, the response starts that reach the
    server are the application's own; when it sent none, at most one
    response start reaches the server. *)
Theorem X14_no_second_response_start {Exc : Type}
    (app : ASGIApp Exc) (handler : ExceptionHandler Exc) (scope : Scope) :
  (existsb is_response_start (fst (app scope)) = true ->
   response_starts (fst (UnhandledExceptionsMiddleware__call__ app handler scope))
   = filter is_response_start (fst (app scope)))
  /\ (existsb is_response_start (fst (app scope)) = false ->
      (List.length
         (response_starts
            (fst (UnhandledExceptionsMiddleware__call__ app handler scope)))
       <= 1)%nat).
Proof.
  rewrite middleware_cases.
  destruct (app scope) as [messages termination]; simpl fst.
  split; intros Es.
  - destruct termination as [|exc|name]; simpl;
      rewrite ?Es, ?andb_false_r; simpl; apply response_starts_Sent.
  - pose proof (proj1 (existsb_filter_nil _ _) Es) as F.
    destruct termination as [|exc|name]; simpl;
      try (rewrite response_starts_Sent, F; simpl; lia).
    rewrite Es; destruct (scope_type scope =? "http")%string; simpl;
      try (rewrite response_starts_Sent, F; simpl; lia).
    destruct (handler (Request_of_scope scope) exc) as [events [r|e]]; simpl;
      rewrite !response_starts_concat, response_starts_Sent, F,
        response_starts_events; simpl; lia.
Qed.

Lemma X14_no_second_response_start_witness :
  response_starts
    (fst (UnhandledExceptionsMiddleware__call__
            raises_while_streaming
            (problem_exception_handler_provider None None) http_scope))
  = [stream_start].
Proof.
  apply (X14_no_second_response_start
           raises_while_streaming
           (problem_exception_handler_provider None None) http_scope).
  reflexivity.
Defined.

(** X15: an application that returns, or that raises an exception outside
    the class Exception (a cancellation, a keyboard interrupt), is not
    interfered with on any scope: its messages pass, the handler is not
    called, and the call ends as the application's did. *)
Theorem X15_middleware_is_transparent {Exc : Type}
    (app : ASGIApp Exc) (handler : ExceptionHandler Exc) (scope : Scope)
    (messages : list Message) (t : Termination Exc) :
  app scope = (messages, t) ->
  (forall exc, t <> RaisesException exc) ->
  UnhandledExceptionsMiddleware__call__ app handler scope
  = (map Sent messages, Ends t).
Proof.
  intros Happ Hother; rewrite middleware_cases, Happ.
  destruct t as [|exc|name]; try reflexivity.
  exfalso; exact (Hother exc eq_refl).
Qed.

Lemma X15_middleware_is_transparent_witness :
  UnhandledExceptionsMiddleware__call__
    cancelled_while_streaming (problem_exception_handler_provider None None)
    http_scope
  = (map Sent [stream_start], Ends (RaisesBaseException "CancelledError")).
Proof.
  apply (X15_middleware_is_transparent
           cancelled_while_streaming
           (problem_exception_handler_provider None None) http_scope
           [stream_start] (RaisesBaseException "CancelledError") eq_refl).
  discriminate.
Defined.



Lemma X13_application_messages_pass_unchanged_witness :
  scope_type http_scope = "http"
  /\ existsb is_response_start (fst (raises_at_once http_scope)) = false
  /\ exists exc, snd (raises_at_once http_scope) = RaisesException exc.
Proof.
  destruct (X13_application_messages_pass_unchanged
              raises_at_once (problem_exception_handler_provider None None)
              http_scope) as (added & E & H).
  apply H; intros ->; discriminate E.
Defined.

(* ================================================================== *)
(** ** The kill switch *)

Lemma rstrip_slash_append (s : string) :
  rstrip_slash (s ++ "/") = rstrip_slash s.
Proof.
  induction s as [|c s IH]; [reflexivity|].
  simpl; rewrite IH; reflexivity.
Qed.

Lemma rstrip_slash_idempotent (s : string) :
  rstrip_slash (rstrip_slash s) = rstrip_slash s.
Proof.
  induction s as [|c s IH]; [reflexivity|].
  simpl; destruct (rstrip_slash s) as [|d t] eqn:E.
  - destruct (c =? "/")%char eqn:C; simpl; [reflexivity|].
    rewrite C; reflexivity.
  - simpl in *; rewrite IH; reflexivity.
Qed.

Lemma path_excluded_iff (exclude_paths : list string) (request : Request) :
  path_excluded exclude_paths request = true
  <-> exists e, In e exclude_paths
                /\ rstrip_slash e = rstrip_slash (url_path request).
Proof.
  unfold path_excluded; rewrite existsb_exists; split.
  - intros (x & Hin & Heq); apply in_map_iff in Hin.
    destruct Hin as (e & <- & Hin); apply String.eqb_eq in Heq.
    exists e; split; [exact Hin|symmetry; exact Heq].
  - intros (e & Hin & Heq); exists (rstrip_slash e); split.
    + apply in_map; exact Hin.
    + rewrite Heq; apply String.eqb_refl.
Qed.

(** X17: a request is excluded from the kill switch (and from HTTP
    logging) exactly when its path equals one of the excluded paths up to
    trailing slashes; trailing slashes on the request path or on the
    configured paths make no difference, and the match is on the whole
    path, not on a prefix. *)
Theorem X17_exclusion_ignores_trailing_slashes
    (exclude_paths : list string) (path : string) :
  (path_excluded exclude_paths {| url_path := path |} = true
   <-> exists e, In e exclude_paths /\ rstrip_slash e = rstrip_slash path)
  /\ path_excluded exclude_paths {| url_path := path ++ "/" |}
     = path_excluded exclude_paths {| url_path := path |}
  /\ path_excluded (map (fun e => e ++ "/") exclude_paths) {| url_path := path |}
     = path_excluded exclude_paths {| url_path := path |}.
Proof.
  split; [apply path_excluded_iff|split].
  - unfold path_excluded; simpl; rewrite rstrip_slash_append; reflexivity.
  - unfold path_excluded; simpl; rewrite map_map.
    f_equal; apply map_ext; intros e; apply rstrip_slash_append.
Qed.

(** X18: a request whose path equals an excluded path up to trailing
    slashes never depends on the kill switch: whatever
    [KillSwitchConfig.load] would give, even an exception, the request goes
    to the rest of the stack and its result is returned with nothing
    logged.  On every other path a failing load raises its exception
    without the rest of the stack being called, and a disabled switch lets
    the request through. *)
Theorem X18_kill_switch_lets_through
    (exclude_paths : list string) (load : result bool)
    (call_next : Request -> result Response) (request : Request) :
  ((exists e, In e exclude_paths
              /\ rstrip_slash e = rstrip_slash (url_path request)) ->
   KillSwitchMiddleware_dispatch exclude_paths load call_next request
   = ([], call_next request))
  /\ ((forall e, In e exclude_paths ->
                 rstrip_slash e <> rstrip_slash (url_path request)) ->
      (load = Ok false ->
       KillSwitchMiddleware_dispatch exclude_paths load call_next request
       = ([], call_next request))
      /\ (forall e, load = Raise e ->
          KillSwitchMiddleware_dispatch exclude_paths load call_next request
          = ([], Raise e))).
Proof.
  unfold KillSwitchMiddleware_dispatch; split.
  - intros H; apply path_excluded_iff in H; rewrite H; reflexivity.
  - intros H.
    assert (path_excluded exclude_paths request = false) as E.
    { destruct (path_excluded exclude_paths request) eqn:E; [|reflexivity].
      apply path_excluded_iff in E; destruct E as (e & Hin & Heq).
      destruct (H e Hin Heq). }
    rewrite E; split; [intros ->|intros e ->]; reflexivity.
Qed.

Lemma X18_kill_switch_lets_through_witness :
  KillSwitchMiddleware_dispatch
    kill_switch_exclusions (Raise (Raised boom)) answers_200 docs_request
  = ([], answers_200 docs_request)
  /\ KillSwitchMiddleware_dispatch
       kill_switch_exclusions (Ok false) answers_200 widgets_1
     = ([], answers_200 widgets_1)
  /\ KillSwitchMiddleware_dispatch
       kill_switch_exclusions (Raise (Raised boom)) answers_200 widgets_1
     = ([], Raise (Raised boom)).
Proof.
  assert (forall e, In e kill_switch_exclusions ->
                    rstrip_slash e <> rstrip_slash (url_path widgets_1)) as N.
  { intros e [<-|[<-|[<-|[]]]]; discriminate. }
  split; [|split].
  - apply (proj1 (X18_kill_switch_lets_through
                    kill_switch_exclusions (Raise (Raised boom)) answers_200
                    docs_request)).
    exists "/docs"; split; [left; reflexivity|reflexivity].
  - apply (proj1 (proj2 (X18_kill_switch_lets_through
                    kill_switch_exclusions (Ok false) answers_200 widgets_1)
                    N));
      reflexivity.
  - apply (proj2 (proj2 (X18_kill_switch_lets_through
                    kill_switch_exclusions (Raise (Raised boom)) answers_200
                    widgets_1) N));
      reflexivity.
Defined.

(** X19: with the switch enabled, a request on a path that is not
    excluded never reaches the rest of the stack: one warning is logged and
    the response has status 503, the media type application/problem+json and
    a body that decodes to the members type exception:problem, title Service
    Unavailable, status 503 and the kill-switch message as detail, with no
    instance. *)
Theorem X19_kill_switch_answers_503
    (exclude_paths : list string) (call_next : Request -> result Response)
    (request : Request) :
  path_excluded exclude_paths request = false ->
  exists response,
    KillSwitchMiddleware_dispatch exclude_paths (Ok true) call_next request
    = ([kill_switch_message], Ok response)
    /\ status_code response = 503
    /\ media_type response = "application/problem+json"
    /\ json_loads (body response)
       = Some (PDict [ ("type", PStr "exception:problem");
                       ("title", PStr "Service Unavailable");
                       ("status", PInt 503);
                       ("detail", PStr kill_switch_message) ]).
Proof.
  intros Hex; unfold KillSwitchMiddleware_dispatch; rewrite Hex.
  eexists; split; [reflexivity|].
  split; [reflexivity|split; [reflexivity|]].
  vm_compute; reflexivity.
Qed.

Lemma X19_kill_switch_answers_503_witness :
  exists response,
    KillSwitchMiddleware_dispatch kill_switch_exclusions (Ok true)
                                  answers_200 widgets_1
    = ([kill_switch_message], Ok response)
    /\ status_code response = 503.
Proof.
  destruct (X19_kill_switch_answers_503 kill_switch_exclusions answers_200
              widgets_1 eq_refl) as (response & E & S & _).
  exists response; split; [exact E|exact S].
Defined.

(* ================================================================== *)
(** ** The environment loader *)

Lemma dict_get_set {V} (d : list (string * V)) key value var :
  dict_get (dict_set d key value) var
  = if (key =? var)%string then Some value else dict_get d var.
Proof.
  induction d as [|[k v] d IH]; simpl.
  - reflexivity.
  - destruct (String.eqb_spec k key) as [->|Hk]; simpl.
    + destruct (String.eqb_spec key var); reflexivity.
    + rewrite IH.
      destruct (String.eqb_spec k var) as [->|_]; [|reflexivity].
      destruct (String.eqb_spec key var) as [->|_]; [congruence|reflexivity].
Qed.

Lemma load_dotenv_writable (values : dotenv) (os_environ : environ) :
  writable values = true -> snd (load_dotenv values os_environ) = inr tt.
Proof.
  revert os_environ; induction values as [|[k [v|]] rest IH];
    intros os_environ; simpl; intros W.
  - reflexivity.
  - apply andb_true_iff in W; destruct W as [Wk W].
    destruct (dict_contains os_environ k); [apply IH; exact W|].
    unfold environ_setitem; simpl in Wk; rewrite Wk.
    apply IH; exact W.
  - destruct (dict_contains os_environ k); apply IH; exact W.
Qed.

Lemma dict_get_fresh {V} (d : list (string * V)) key :
  existsb (String.eqb key) (dict_keys d) = false -> dict_get d key = None.
Proof.
  induction d as [|[k v] d IH]; simpl; [reflexivity|].
  intros H; apply orb_false_iff in H; destruct H as [Hk H].
  rewrite String.eqb_sym, Hk; apply IH; exact H.
Qed.

Lemma load_dotenv_get (values : dotenv) (os_environ : environ) var :
  writable values = true -> distinct (dict_keys values) = true ->
  dict_get (fst (load_dotenv values os_environ)) var
  = match dict_get os_environ var with
    | Some value => Some value
    | None => dotenv_value values var
    end.
Proof.
  unfold dotenv_value.
  revert os_environ; induction values as [|[k v] rest IH];
    intros os_environ W D.
  - simpl; destruct (dict_get os_environ var); reflexivity.
  - cbn [writable forallb fst snd] in W.
    apply andb_true_iff in W; destruct W as [Wk W].
    cbn [dict_keys map fst distinct] in D.
    apply andb_true_iff in D; destruct D as [Dk D].
    apply negb_true_iff in Dk.
    pose proof (dict_get_fresh rest k Dk) as Fk.
    cbn [load_dotenv dict_get].
    unfold dict_contains.
    destruct (dict_get os_environ k) as [held|] eqn:Ek.
    + rewrite (IH os_environ W D).
      destruct (String.eqb_spec k var) as [->|_]; [rewrite Ek|]; reflexivity.
    + destruct v as [value|].
      * unfold environ_setitem; rewrite Wk.
        rewrite (IH _ W D), dict_get_set.
        destruct (String.eqb_spec k var) as [->|_]; [|reflexivity].
        rewrite Ek; reflexivity.
      * rewrite (IH os_environ W D).
        destruct (String.eqb_spec k var) as [->|_]; [|reflexivity].
        rewrite Ek, Fk; reflexivity.
Qed.

Lemma dict_get_merge {V} (shared deployed : list (string * V)) var :
  distinct (dict_keys deployed) = true ->
  dict_get (dict_merge shared deployed) var
  = match dict_get deployed var with
    | Some value => Some value
    | None => dict_get shared var
    end.
Proof.
  unfold dict_merge; revert shared.
  induction deployed as [|[k v] rest IH]; intros shared D; [reflexivity|].
  cbn [dict_keys map fst distinct] in D.
  apply andb_true_iff in D; destruct D as [Dk D].
  apply negb_true_iff in Dk.
  pose proof (dict_get_fresh rest k Dk) as Fk.
  cbn [fold_left fst snd dict_get].
  rewrite (IH _ D), dict_get_set.
  destruct (String.eqb_spec k var) as [->|_]; [|reflexivity].
  rewrite Fk; reflexivity.
Qed.

(** What [init] does when the files hold nothing [os.environ] refuses. *)
Lemma init_runs_the_checks compulsory_variables shared deployed os_environ :
  writable shared = true ->
  writable (deployed (environment_name os_environ)) = true ->
  snd (init compulsory_variables shared deployed os_environ)
  = init_checks
      (match compulsory_variables with
       | None => Environment_as_list
       | Some variables => variables
       end)
      (dict_merge shared (deployed (environment_name os_environ)))
      (fst (init compulsory_variables shared deployed os_environ)).
Proof.
  intros Ws Wd; unfold init, environment_name, dict_contains in *.
  unfold Environment_get, Environment_set, environ_setitem.
  destruct (dict_get os_environ (Environment_value NAME)) as [name|] eqn:En.
  - rewrite En.
    pose proof (load_dotenv_writable shared os_environ Ws) as Ls.
    destruct (load_dotenv shared os_environ) as [loaded o1]; simpl in Ls; subst o1.
    pose proof (load_dotenv_writable (deployed name) loaded Wd) as Ld.
    destruct (load_dotenv (deployed name) loaded) as [final o2].
    simpl in Ld; subst o2; reflexivity.
  - change (putenv_accepts (Environment_value NAME) "local") with true.
    cbv iota; rewrite dict_get_set, String.eqb_refl.
    set (named := dict_set os_environ (Environment_value NAME) "local").
    pose proof (load_dotenv_writable shared named Ws) as Ls.
    destruct (load_dotenv shared named) as [loaded o1]; simpl in Ls; subst o1.
    pose proof (load_dotenv_writable (deployed "local") loaded Wd) as Ld.
    destruct (load_dotenv (deployed "local") loaded) as [final o2].
    simpl in Ld; subst o2; reflexivity.
Qed.

Lemma init_environment compulsory_variables shared deployed os_environ var :
  writable shared = true ->
  writable (deployed (environment_name os_environ)) = true ->
  distinct (dict_keys shared) = true ->
  distinct (dict_keys (deployed (environment_name os_environ))) = true ->
  dict_get (fst (init compulsory_variables shared deployed os_environ)) var
  = match dict_get os_environ var with
    | Some value => Some value
    | None =>
        if (var =? "ENVIRONMENT")%string then Some "local"
        else match dotenv_value shared var with
             | Some value => Some value
             | None =>
                 dotenv_value (deployed (environment_name os_environ)) var
             end
    end.
Proof.
  intros Ws Wd Ds Dd; unfold init, environment_name, dict_contains in *.
  unfold Environment_get, Environment_set, environ_setitem.
  destruct (dict_get os_environ (Environment_value NAME)) as [name|] eqn:En.
  - rewrite En.
    pose proof (load_dotenv_writable shared os_environ Ws) as Ls.
    pose proof (load_dotenv_get shared os_environ var Ws Ds) as Gs.
    destruct (load_dotenv shared os_environ) as [loaded o1].
    simpl in Ls, Gs; subst o1.
    pose proof (load_dotenv_writable (deployed name) loaded Wd) as Ld.
    pose proof (load_dotenv_get (deployed name) loaded var Wd Dd) as Gd.
    destruct (load_dotenv (deployed name) loaded) as [final o2].
    simpl in Ld, Gd; subst o2; cbn [fst].
    rewrite Gd, Gs.
    destruct (dict_get os_environ var) as [held|] eqn:Ev; [reflexivity|].
    destruct (String.eqb_spec var "ENVIRONMENT") as [->|_];
      [simpl in En; congruence|].
    destruct (dotenv_value shared var); reflexivity.
  - change (putenv_accepts (Environment_value NAME) "local") with true.
    cbv iota; rewrite dict_get_set, String.eqb_refl.
    set (named := dict_set os_environ (Environment_value NAME) "local").
    pose proof (load_dotenv_writable shared named Ws) as Ls.
    pose proof (load_dotenv_get shared named var Ws Ds) as Gs.
    destruct (load_dotenv shared named) as [loaded o1].
    simpl in Ls, Gs; subst o1.
    pose proof (load_dotenv_writable (deployed "local") loaded Wd) as Ld.
    pose proof (load_dotenv_get (deployed "local") loaded var Wd Dd) as Gd.
    destruct (load_dotenv (deployed "local") loaded) as [final o2].
    simpl in Ld, Gd; subst o2; cbn [fst].
    rewrite Gd, Gs; unfold named; rewrite dict_get_set.
    change (Environment_value NAME) with "ENVIRONMENT".
    rewrite (String.eqb_sym "ENVIRONMENT" var).
    destruct (String.eqb_spec var "ENVIRONMENT") as [->|_].
    + simpl in En; rewrite En; reflexivity.
    + destruct (dict_get os_environ var); [reflexivity|].
      destruct (dotenv_value shared var); reflexivity.
Qed.

Lemma list_truthy_filter {A} (f : A -> bool) (l : list A) :
  list_truthy (filter f l) = false <-> forall x, In x l -> f x = false.
Proof.
  induction l as [|a l IH]; simpl.
  - split; [intros _ x []|reflexivity].
  - destruct (f a) eqn:Fa; simpl.
    + split; [discriminate|].
      intros H; rewrite <- Fa; apply H; left; reflexivity.
    + rewrite IH; split.
      * intros H x [<-|Hx]; [exact Fa|apply H; exact Hx].
      * intros H x Hx; apply H; right; exact Hx.
Qed.

Lemma init_checks_returns_iff compulsory_variables memory_loaded_dotenv
    os_environ :
  init_checks compulsory_variables memory_loaded_dotenv os_environ = inr tt
  <-> forall var, In var compulsory_variables ->
        is_change_me memory_loaded_dotenv var = false
        /\ is_inherent os_environ var = false
        /\ dict_contains os_environ var = true.
Proof.
  unfold init_checks.
  destruct (list_truthy (filter (is_change_me memory_loaded_dotenv) _)) eqn:C.
  { split; [discriminate|]; intros H.
    assert (list_truthy (filter (is_change_me memory_loaded_dotenv)
                                compulsory_variables) = false) as C'
      by (apply list_truthy_filter; intros x Hx; apply (H x Hx)).
    congruence. }
  destruct (list_truthy (filter (is_inherent os_environ) _)) eqn:I.
  { split; [discriminate|]; intros H.
    assert (list_truthy (filter (is_inherent os_environ)
                                compulsory_variables) = false) as I'
      by (apply list_truthy_filter; intros x Hx; apply (H x Hx)).
    congruence. }
  destruct (list_truthy (filter (fun var => negb (dict_contains os_environ var))
                                _)) eqn:M.
  { split; [discriminate|]; intros H.
    assert (list_truthy (filter (fun var => negb (dict_contains os_environ var))
                                compulsory_variables) = false) as M'
      by (apply list_truthy_filter; intros x Hx;
          apply negb_false_iff; apply (H x Hx)).
    congruence. }
  split; [intros _|reflexivity].
  intros var Hin.
  pose proof (proj1 (list_truthy_filter _ _) C var Hin) as Hc.
  pose proof (proj1 (list_truthy_filter _ _) I var Hin) as Hi.
  pose proof (proj1 (list_truthy_filter _ _) M var Hin) as Hm.
  apply negb_false_iff in Hm; auto.
Qed.

(** A run of [init] that returns has passed the three checks. *)
Lemma init_returns_checked compulsory_variables shared deployed os_environ :
  snd (init compulsory_variables shared deployed os_environ) = inr tt ->
  init_checks
    (match compulsory_variables with
     | None => Environment_as_list
     | Some variables => variables
     end)
    (dict_merge shared (deployed (environment_name os_environ)))
    (fst (init compulsory_variables shared deployed os_environ)) = inr tt.
Proof.
  unfold init, environment_name, dict_contains.
  unfold Environment_get, Environment_set, environ_setitem.
  destruct (dict_get os_environ (Environment_value NAME)) as [name|] eqn:En.
  - rewrite En.
    destruct (load_dotenv shared os_environ) as [loaded [e|[]]];
      [discriminate|].
    destruct (load_dotenv (deployed name) loaded) as [final [e|[]]];
      [discriminate|].
    intros H; exact H.
  - change (putenv_accepts (Environment_value NAME) "local") with true.
    cbv iota; rewrite dict_get_set, String.eqb_refl.
    destruct (load_dotenv shared _) as [loaded [e|[]]]; [discriminate|].
    destruct (load_dotenv (deployed "local") loaded) as [final [e|[]]];
      [discriminate|].
    intros H; exact H.
Qed.

Lemma is_inherent_false os_environ var :
  dict_contains os_environ var = true ->
  is_inherent os_environ var = false ->
  exists value, dict_get os_environ var = Some value
                /\ value <> INHERIT_FROM_ENVIRONMENT_KEY_VALUE.
Proof.
  unfold dict_contains, is_inherent.
  destruct (dict_get os_environ var) as [value|]; [|discriminate].
  intros _ H; exists value; split; [reflexivity|].
  apply String.eqb_neq; exact H.
Qed.

Lemma is_change_me_false memory_loaded_dotenv var :
  is_change_me memory_loaded_dotenv var = false
  <-> dotenv_value memory_loaded_dotenv var <> Some CHANGE_ME_KEY_VALUE.
Proof.
  unfold is_change_me, dotenv_value.
  destruct (dict_get memory_loaded_dotenv var) as [[value|]|].
  - rewrite String.eqb_neq; split; congruence.
  - split; [discriminate|reflexivity].
  - split; [discriminate|reflexivity].
Qed.

Lemma Environment_members_complete (member : Environment) :
  In (Environment_value member) Environment_as_list.
Proof.
  apply in_map; destruct member; simpl;
    repeat (first [left; reflexivity | right]).
Qed.

Lemma Environment_value_injective (a b : Environment) :
  Environment_value a = Environment_value b -> a = b.
Proof.
  destruct a; destruct b; intros H; try reflexivity; discriminate H.
Qed.

(** X20: which value a variable has once [init] has run, whether it
    returned or raised: the one the process already had; else [local] for
    [ENVIRONMENT]; else the one of the shared file; else the one of the file
    of the environment.  So [init] never changes a variable of the process,
    and the shared file takes precedence over the environment's file. *)
Theorem X20_init_precedence
    compulsory_variables shared deployed os_environ var :
  writable shared = true ->
  writable (deployed (environment_name os_environ)) = true ->
  distinct (dict_keys shared) = true ->
  distinct (dict_keys (deployed (environment_name os_environ))) = true ->
  dict_get (fst (init compulsory_variables shared deployed os_environ)) var
  = match dict_get os_environ var with
    | Some value => Some value
    | None =>
        if (var =? "ENVIRONMENT")%string then Some "local"
        else match dotenv_value shared var with
             | Some value => Some value
             | None =>
                 dotenv_value (deployed (environment_name os_environ)) var
             end
    end.
Proof.
  apply init_environment.
Qed.

Lemma X20_init_precedence_witness :
  dict_get (fst (init None shared_file deployed_files production_process))
           "LOG_LEVEL" = Some "INFO"
  /\ dict_get (fst (init None shared_file deployed_files production_process))
              "DB_USERNAME" = Some "svc_orders"
  /\ dict_get (fst (init None shared_file deployed_files production_process))
              "ENVIRONMENT" = Some "Production".
Proof.
  split; [|split].
  - rewrite (X20_init_precedence None shared_file deployed_files
               production_process "LOG_LEVEL");
      reflexivity.
  - rewrite (X20_init_precedence None shared_file deployed_files
               production_process "DB_USERNAME");
      reflexivity.
  - rewrite (X20_init_precedence None shared_file deployed_files
               production_process "ENVIRONMENT");
      reflexivity.
Defined.

(** X21: with files that hold nothing [os.environ] refuses, [init]
    returns exactly when every compulsory variable (a) is not left at
    CHANGE_ME by the two files merged, the environment's file over the
    shared one, and (b) ends up in [os.environ] with a value other than
    INHERIT_FROM_ENVIRONMENT; an empty value counts as set. *)
Theorem X21_init_returns_iff compulsory_variables shared deployed os_environ :
  writable shared = true ->
  writable (deployed (environment_name os_environ)) = true ->
  snd (init (Some compulsory_variables) shared deployed os_environ) = inr tt
  <-> forall var, In var compulsory_variables ->
        dotenv_value
          (dict_merge shared (deployed (environment_name os_environ))) var
        <> Some CHANGE_ME_KEY_VALUE
        /\ exists value,
             dict_get
               (fst (init (Some compulsory_variables) shared deployed
                          os_environ)) var = Some value
             /\ value <> INHERIT_FROM_ENVIRONMENT_KEY_VALUE.
Proof.
  intros Ws Wd.
  rewrite (init_runs_the_checks _ _ _ _ Ws Wd), init_checks_returns_iff.
  split; intros H var Hin; destruct (H var Hin) as [Hc Hrest].
  - destruct Hrest as [Hi Hm]; split; [apply is_change_me_false; exact Hc|].
    apply is_inherent_false; assumption.
  - destruct Hrest as (value & Hv & Hne).
    split; [apply is_change_me_false; exact Hc|].
    unfold is_inherent, dict_contains; rewrite Hv; split; [|reflexivity].
    apply String.eqb_neq; exact Hne.
Qed.

Lemma X21_init_returns_iff_witness :
  snd (init (Some ["LOG_LEVEL"; "DB_USERNAME"]) shared_file deployed_files
            production_process) = inr tt
  <-> forall var, In var ["LOG_LEVEL"; "DB_USERNAME"] ->
        dotenv_value
          (dict_merge shared_file
                      (deployed_files (environment_name production_process)))
          var
        <> Some CHANGE_ME_KEY_VALUE
        /\ exists value,
             dict_get
               (fst (init (Some ["LOG_LEVEL"; "DB_USERNAME"]) shared_file
                          deployed_files production_process)) var = Some value
             /\ value <> INHERIT_FROM_ENVIRONMENT_KEY_VALUE.
Proof.
  apply (X21_init_returns_iff ["LOG_LEVEL"; "DB_USERNAME"] shared_file
           deployed_files production_process); reflexivity.
Defined.

(** X22: when [init()] with its default argument returns, [get] raises
    for no member of [Environment]: each one has a value, and none of them
    is INHERIT_FROM_ENVIRONMENT. *)
Theorem X22_get_after_init shared deployed os_environ (member : Environment) :
  snd (init None shared deployed os_environ) = inr tt ->
  exists value,
    Environment_get member (fst (init None shared deployed os_environ))
    = inr value
    /\ value <> INHERIT_FROM_ENVIRONMENT_KEY_VALUE.
Proof.
  intros H; apply init_returns_checked in H.
  pose proof (proj1 (init_checks_returns_iff _ _ _) H
                    (Environment_value member)
                    (Environment_members_complete member)) as (_ & Hi & Hm).
  destruct (is_inherent_false _ _ Hm Hi) as (value & Hv & Hne).
  exists value; split; [|exact Hne].
  unfold Environment_get; rewrite Hv; reflexivity.
Qed.

Lemma X22_get_after_init_witness :
  exists value,
    Environment_get KILL_SWITCH_CONFIG_PATH
                    (fst (init None [("LOG_LEVEL", Some "INFO")]
                               deployed_files full_process))
    = inr value
    /\ value <> INHERIT_FROM_ENVIRONMENT_KEY_VALUE.
Proof.
  apply (X22_get_after_init [("LOG_LEVEL", Some "INFO")] deployed_files
           full_process KILL_SWITCH_CONFIG_PATH).
  reflexivity.
Defined.

(** X23: a placeholder can reach the running application.  When the
    shared file sets a variable to CHANGE_ME and the environment's file
    gives it a real value, the CHANGE_ME check sees the real value and
    passes, but [os.environ] gets the value of the shared file: [init]
    returns and the variable is CHANGE_ME. *)
Theorem X23_placeholder_survives shared deployed os_environ var value :
  writable shared = true ->
  writable (deployed (environment_name os_environ)) = true ->
  distinct (dict_keys shared) = true ->
  distinct (dict_keys (deployed (environment_name os_environ))) = true ->
  dict_get os_environ var = None ->
  var <> "ENVIRONMENT" ->
  dotenv_value shared var = Some CHANGE_ME_KEY_VALUE ->
  dotenv_value (deployed (environment_name os_environ)) var = Some value ->
  value <> CHANGE_ME_KEY_VALUE ->
  snd (init (Some [var]) shared deployed os_environ) = inr tt
  /\ dict_get (fst (init (Some [var]) shared deployed os_environ)) var
     = Some CHANGE_ME_KEY_VALUE.
Proof.
  intros Ws Wd Ds Dd Eo Hn Hs Hd Hv.
  assert (dict_get (fst (init (Some [var]) shared deployed os_environ)) var
          = Some CHANGE_ME_KEY_VALUE) as G.
  { rewrite (init_environment _ _ _ _ var Ws Wd Ds Dd), Eo.
    apply String.eqb_neq in Hn; rewrite Hn, Hs; reflexivity. }
  split; [|exact G].
  rewrite (init_runs_the_checks _ _ _ _ Ws Wd), init_checks_returns_iff.
  intros x [<-|[]]; split; [|split].
  - apply is_change_me_false; unfold dotenv_value.
    rewrite (dict_get_merge _ _ _ Dd).
    unfold dotenv_value in Hd.
    destruct (dict_get (deployed (environment_name os_environ)) var)
      as [[held|]|]; try discriminate.
    congruence.
  - unfold is_inherent; rewrite G; reflexivity.
  - unfold dict_contains; rewrite G; reflexivity.
Qed.

Lemma X23_placeholder_survives_witness :
  snd (init (Some ["DB_NAME"]) shared_file deployed_files production_process)
  = inr tt
  /\ dict_get (fst (init (Some ["DB_NAME"]) shared_file deployed_files
                         production_process)) "DB_NAME"
     = Some CHANGE_ME_KEY_VALUE.
Proof.
  apply (X23_placeholder_survives shared_file deployed_files
           production_process "DB_NAME" "orders");
    try reflexivity; discriminate.
Defined.

(** X24: the CHANGE_ME check comes first and reads only the files: when
    the two files merged leave a compulsory variable at CHANGE_ME, [init]
    raises the AssertionError of that check, whatever the process
    environment holds and whatever else is missing, and its message lists
    exactly the compulsory variables left at CHANGE_ME, in the order of
    [compulsory_variables], separated by a comma and a space. *)
Theorem X24_change_me_is_reported_first
    compulsory_variables shared deployed os_environ var :
  writable shared = true ->
  writable (deployed (environment_name os_environ)) = true ->
  In var compulsory_variables ->
  dotenv_value (dict_merge shared (deployed (environment_name os_environ))) var
  = Some CHANGE_ME_KEY_VALUE ->
  snd (init (Some compulsory_variables) shared deployed os_environ)
  = inl (AssertionError
           ("The following variables were set as 'CHANGE_ME' but no value were found for them in the deployment environment: "
            ++ String.concat ", "
                 (filter
                    (fun v =>
                       match dotenv_value
                               (dict_merge shared
                                  (deployed (environment_name os_environ))) v
                       with
                       | Some held => (held =? "CHANGE_ME")%string
                       | None => false
                       end)
                    compulsory_variables))).
Proof.
  intros Ws Wd Hin Hv.
  rewrite (init_runs_the_checks _ _ _ _ Ws Wd); unfold init_checks.
  set (merged := dict_merge shared (deployed (environment_name os_environ)))
    in *.
  assert (filter (is_change_me merged) compulsory_variables
          = filter (fun v => match dotenv_value merged v with
                             | Some held => (held =? "CHANGE_ME")%string
                             | None => false
                             end) compulsory_variables) as E.
  { apply filter_ext; intros v; unfold is_change_me, dotenv_value.
    destruct (dict_get merged v) as [[held|]|]; reflexivity. }
  destruct (list_truthy (filter (is_change_me merged) compulsory_variables))
    eqn:C.
  - rewrite E; reflexivity.
  - pose proof (proj1 (list_truthy_filter _ _) C var Hin) as F.
    apply is_change_me_false in F; contradiction.
Qed.

Lemma X24_change_me_is_reported_first_witness :
  snd (init (Some ["DB_CONNECTION"; "DB_NAME"; "LOG_LEVEL"]) shared_file
            deployed_files [("DB_NAME", "orders")])
  = inl (AssertionError
           "The following variables were set as 'CHANGE_ME' but no value were found for them in the deployment environment: DB_NAME").
Proof.
  apply (X24_change_me_is_reported_first
           ["DB_CONNECTION"; "DB_NAME"; "LOG_LEVEL"] shared_file
           deployed_files [("DB_NAME", "orders")] "DB_NAME");
    try reflexivity.
  right; left; reflexivity.
Defined.

(** X25: a CHANGE_ME that comes from the process environment is not
    detected: when the process sets a compulsory variable to CHANGE_ME and
    neither file mentions it, [init] returns. *)
Theorem X25_change_me_of_the_process_passes
    shared deployed os_environ var :
  writable shared = true ->
  writable (deployed (environment_name os_environ)) = true ->
  distinct (dict_keys shared) = true ->
  distinct (dict_keys (deployed (environment_name os_environ))) = true ->
  dict_get os_environ var = Some CHANGE_ME_KEY_VALUE ->
  dict_get shared var = None ->
  dict_get (deployed (environment_name os_environ)) var = None ->
  snd (init (Some [var]) shared deployed os_environ) = inr tt
  /\ dict_get (fst (init (Some [var]) shared deployed os_environ)) var
     = Some CHANGE_ME_KEY_VALUE.
Proof.
  intros Ws Wd Ds Dd Eo Es Ed.
  assert (dict_get (fst (init (Some [var]) shared deployed os_environ)) var
          = Some CHANGE_ME_KEY_VALUE) as G.
  { rewrite (init_environment _ _ _ _ var Ws Wd Ds Dd), Eo; reflexivity. }
  split; [|exact G].
  rewrite (init_runs_the_checks _ _ _ _ Ws Wd), init_checks_returns_iff.
  intros x [<-|[]]; split; [|split].
  - unfold is_change_me; rewrite (dict_get_merge _ _ _ Dd), Ed, Es.
    reflexivity.
  - unfold is_inherent; rewrite G; reflexivity.
  - unfold dict_contains; rewrite G; reflexivity.
Qed.

Lemma X25_change_me_of_the_process_passes_witness :
  snd (init (Some ["DB_CONNECTION"]) shared_file deployed_files
            [("ENVIRONMENT", "Production"); ("DB_CONNECTION", "CHANGE_ME")])
  = inr tt
  /\ dict_get
       (fst (init (Some ["DB_CONNECTION"]) shared_file deployed_files
                  [("ENVIRONMENT", "Production");
                   ("DB_CONNECTION", "CHANGE_ME")])) "DB_CONNECTION"
     = Some CHANGE_ME_KEY_VALUE.
Proof.
  apply (X25_change_me_of_the_process_passes shared_file deployed_files
           [("ENVIRONMENT", "Production"); ("DB_CONNECTION", "CHANGE_ME")]
           "DB_CONNECTION");
    reflexivity.
Defined.

(** X26: [set] refuses a value with a NUL character and changes nothing;
    any other value is stored, [get] on the same member then returns it,
    and [get] on every other member gives what it gave before. *)
Theorem X26_set_then_get (member : Environment) (value : string)
    (os_environ : environ) :
  (has_char "000" value = true ->
   Environment_set member value os_environ = inl PutenvValueError)
  /\ (has_char "000" value = false ->
      exists written,
        Environment_set member value os_environ = inr written
        /\ Environment_get member written = inr value
        /\ forall other, other <> member ->
             Environment_get other written = Environment_get other os_environ).
Proof.
  unfold Environment_set, environ_setitem, putenv_accepts; split; intros Hn.
  - rewrite Hn, andb_false_r; reflexivity.
  - rewrite Hn, andb_true_r.
    assert (negb (Environment_value member =? "")%string
            && negb (has_char "=" (Environment_value member))
            && negb (has_char "000" (Environment_value member)) = true) as L
      by (destruct member; reflexivity).
    rewrite L; eexists; split; [reflexivity|split].
    + unfold Environment_get; rewrite dict_get_set, String.eqb_refl.
      reflexivity.
    + intros other Hne; unfold Environment_get; rewrite dict_get_set.
      destruct (String.eqb_spec (Environment_value member)
                                (Environment_value other)) as [E|_];
        [|reflexivity].
      apply Environment_value_injective in E; congruence.
Qed.

Lemma X26_set_then_get_witness :
  exists written,
    Environment_set LOG_LEVEL "DEBUG" production_process = inr written
    /\ Environment_get LOG_LEVEL written = inr "DEBUG"
    /\ forall other, other <> LOG_LEVEL ->
         Environment_get other written
         = Environment_get other production_process.
Proof.
  apply (proj2 (X26_set_then_get LOG_LEVEL "DEBUG" production_process)).
  reflexivity.
Defined.
